(** * fetch_data of app.py: the response normalization of the book analyzer

    A shallow embedding of [fetch_data] (app.py, lines 38-108) and of the
    Python built-ins it calls on the decoded JSON payload: [dict.get],
    truthiness, [str], [float], [int], [str.replace], [str.split] and the
    [in] operator.

    Conventions of the embedding.
    - A Python [str] is a [string] holding its UTF-8 bytes; a character
      is a byte that is not a continuation byte, with the continuation
      bytes that follow it. The lengths and slices of the script count
      characters; the searches and replacements, whose patterns are
      ASCII, give the same result on bytes.
    - A Python [float] is an IEEE binary64 number, [spec_float] at
      precision 53 and maximal exponent 1024; decimal text is converted
      with correct rounding to nearest, ties to even.
    - A Python [int] is a [Z].
    - An exception is a value of [exn]; code that may raise returns an
      [outcome]. *)

From Stdlib Require Import ZArith NArith List String Ascii Bool Lia.
From Stdlib Require Import Floats.SpecFloat.
From Stdlib Require Import DecimalString Decimal.
From Stdlib Require Import DecimalN.
Import ListNotations.
Open Scope string_scope.

Set Warnings "-register-all".

(** ** Binary64 numbers *)

Module Float.

Definition prec : Z := 53.
Definition emax : Z := 1024.

Definition float := spec_float.

Definition zero : float := S754_zero false.

(** The double nearest to [(-1)^neg * m * 10^e10]. *)
Definition of_decimal (neg : bool) (m : N) (e10 : Z) : float :=
  match m with
  | N0 => S754_zero neg
  | Npos p =>
      match e10 with
      | Zneg k =>
          let '(q, e, l) :=
            SFdiv_core_binary prec emax (Zpos p) 0 (Z.pow_pos 10 k) 0 in
          binary_round_aux prec emax neg q e l
      | _ => binary_round prec emax neg (p * Z.to_pos (10 ^ e10)) 0
      end
  end.

(** [float(n)] for an integer: [None] stands for OverflowError. *)
Definition of_Z (n : Z) : option float :=
  match binary_normalize prec emax n 0 false with
  | S754_infinity _ => None
  | f => Some f
  end.

(** [int(x)]: truncation toward zero; [None] for an infinity or a NaN. *)
Definition truncate (x : float) : option Z :=
  match x with
  | S754_zero _ => Some 0%Z
  | S754_finite s m e =>
      let a := match e with
               | Zneg k => Z.shiftr (Zpos m) (Zpos k)
               | _ => Z.shiftl (Zpos m) e
               end in
      Some (if s then Z.opp a else a)
  | _ => None
  end.

(** [bool(x)]: only the two zeros are false. *)
Definition nonzero (x : float) : bool :=
  match x with
  | S754_zero _ => false
  | _ => true
  end.

End Float.

(** ** Text *)

Module Str.

Definition code (c : ascii) : N := N_of_ascii c.

Definition is_digit (c : ascii) : bool :=
  (48 <=? code c)%N && (code c <=? 57)%N.

(** White space for [float] and [int]: tab to carriage return, and the
    blank. *)
Definition is_space (c : ascii) : bool :=
  let n := code c in
  ((9 <=? n)%N && (n <=? 13)%N) || (n =? 32)%N.

Definition lower (c : ascii) : ascii :=
  let n := code c in
  if (65 <=? n)%N && (n <=? 90)%N then ascii_of_N (n + 32) else c.

Fixpoint map (f : ascii -> ascii) (s : string) : string :=
  match s with
  | EmptyString => EmptyString
  | String c r => String (f c) (map f r)
  end.

Fixpoint filter (p : ascii -> bool) (s : string) : string :=
  match s with
  | EmptyString => EmptyString
  | String c r => if p c then String c (filter p r) else filter p r
  end.

Fixpoint forallb (p : ascii -> bool) (s : string) : bool :=
  match s with
  | EmptyString => true
  | String c r => p c && forallb p r
  end.

Fixpoint rev_onto (acc s : string) : string :=
  match s with
  | EmptyString => acc
  | String c r => rev_onto (String c acc) r
  end.

Definition rev (s : string) : string := rev_onto EmptyString s.

Fixpoint drop_while (p : ascii -> bool) (s : string) : string :=
  match s with
  | EmptyString => EmptyString
  | String c r => if p c then drop_while p r else s
  end.

(** The longest prefix whose characters satisfy [p], and what follows it. *)
Fixpoint span (p : ascii -> bool) (s : string) : string * string :=
  match s with
  | EmptyString => (EmptyString, EmptyString)
  | String c r =>
      if p c then let '(a, b) := span p r in (String c a, b)
      else (EmptyString, s)
  end.

Definition strip (s : string) : string :=
  rev (drop_while is_space (rev (drop_while is_space s))).

(** [sub in s] for two strings. *)
Fixpoint contains (sub s : string) : bool :=
  prefix sub s ||
  match s with
  | EmptyString => false
  | String _ r => contains sub r
  end.

(** [s.replace(old, new)] for a non-empty [old]: occurrences are taken
    from the left and do not overlap; [skip] counts the characters of an
    occurrence still to be passed over. *)
Fixpoint replace_from (old new : string) (skip : nat) (s : string) : string :=
  match s with
  | EmptyString => EmptyString
  | String c r =>
      match skip with
      | S k => replace_from old new k r
      | O =>
          if prefix old s
          then new ++ replace_from old new (pred (length old)) r
          else String c (replace_from old new O r)
      end
  end.

Definition replace (old new s : string) : string :=
  replace_from old new O s.

(** [s.split(sep)] for a non-empty [sep]: the piece being read and the
    pieces after it. *)
Fixpoint split_from (sep : string) (skip : nat) (s : string)
  : string * list string :=
  match s with
  | EmptyString => (EmptyString, [])
  | String c r =>
      match skip with
      | S k => split_from sep k r
      | O =>
          if prefix sep s
          then (EmptyString,
                let '(p, ps) := split_from sep (pred (length sep)) r in
                p :: ps)
          else let '(p, ps) := split_from sep O r in (String c p, ps)
      end
  end.

Definition split (sep s : string) : list string :=
  let '(p, ps) := split_from sep O s in p :: ps.

(** The value of a run of decimal digits, most significant first. *)
Fixpoint digits_value_from (acc : N) (s : string) : N :=
  match s with
  | EmptyString => acc
  | String c r => digits_value_from (acc * 10 + (code c - 48))%N r
  end.

Definition digits_value (s : string) : N := digits_value_from 0 s.

(** An optional sign: whether it is a minus, and the rest. *)
Definition sign (s : string) : bool * string :=
  match s with
  | String "-" r => (true, r)
  | String "+" r => (false, r)
  | _ => (false, s)
  end.

(** *** Characters *)

Definition is_ascii (c : ascii) : bool := (code c <? 128)%N.

(** The bytes 10xxxxxx, which continue a character. *)
Definition is_continuation (c : ascii) : bool :=
  (128 <=? code c)%N && (code c <? 192)%N.

(** The characters of a text, each with its bytes; [cur] is the
    character being read. *)
Fixpoint chars_from (cur : string) (s : string) : list string :=
  match s with
  | EmptyString => [cur]
  | String c r =>
      if is_continuation c then chars_from (cur ++ String c "") r
      else cur :: chars_from (String c "") r
  end.

Definition chars (s : string) : list string :=
  match s with
  | EmptyString => []
  | String c r => chars_from (String c "") r
  end.

(** The bits that the first byte of a character gives to its code
    point: 0xxxxxxx, 110xxxxx, 1110xxxx or 11110xxx. *)
Definition leading_bits (c : ascii) : N :=
  let n := code c in
  if (n <? 128)%N then n
  else if (n <? 224)%N then (n - 192)%N
  else if (n <? 240)%N then (n - 224)%N
  else (n - 240)%N.

(** Each following byte gives six bits more. *)
Fixpoint continued (cp : N) (s : string) : N :=
  match s with
  | EmptyString => cp
  | String c r => continued (cp * 64 + (code c - 128))%N r
  end.

(** The code point of a character. *)
Definition code_point (ch : string) : N :=
  match ch with
  | EmptyString => 0%N
  | String c r => continued (leading_bits c) r
  end.

(** [len(s)] and [s[:n]] *)
Definition len (s : string) : nat := List.length (chars s).

Definition first_chars (n : nat) (s : string) : string :=
  String.concat "" (firstn n (chars s)).

End Str.

(** ** Numbers from text *)

Module Num.

Import Float.

(** Underscores may only stand between two digits; [prev] is the
    character before [s]. *)
Fixpoint underscores_ok (prev : ascii) (s : string) : bool :=
  match s with
  | EmptyString => negb (prev =? "_")%char
  | String c r =>
      (if (c =? "_")%char then Str.is_digit prev
       else negb (prev =? "_")%char || Str.is_digit c)
      && underscores_ok c r
  end.

Definition not_underscore (c : ascii) : bool := negb (c =? "_")%char.

(** The exponent part of a float literal: its value and what follows it;
    without a digit after the marker there is no exponent part. *)
Definition exponent (s : string) : Z * string :=
  match s with
  | String c r =>
      if ((c =? "e") || (c =? "E"))%char then
        let '(neg, r1) := Str.sign r in
        let '(ds, r2) := Str.span Str.is_digit r1 in
        match ds with
        | EmptyString => (0%Z, s)
        | _ => let v := Z.of_N (Str.digits_value ds) in
               ((if neg then - v else v)%Z, r2)
        end
      else (0%Z, s)
  | EmptyString => (0%Z, s)
  end.

(** A decimal literal without its sign: digits, an optional point and
    digits, an optional exponent; at least one digit before the
    exponent. The result is mantissa, decimal exponent and the rest. *)
Definition decimal (s : string) : option (N * Z * string) :=
  let '(ip, r1) := Str.span Str.is_digit s in
  let '(fp, r2) :=
    match r1 with
    | String "." r => Str.span Str.is_digit r
    | _ => (EmptyString, r1)
    end in
  match (ip ++ fp)%string with
  | EmptyString => None
  | ds =>
      let '(e, r3) := exponent r2 in
      Some (Str.digits_value ds, (e - Z.of_nat (length fp))%Z, r3)
  end.

(** "inf", "infinity" and "nan", in any case, without their sign. *)
Definition special (neg : bool) (s : string) : option float :=
  let t := Str.map Str.lower s in
  if (t =? "inf") || (t =? "infinity") then Some (S754_infinity neg)
  else if t =? "nan" then Some S754_nan
  else None.

(** The white space beyond ASCII (Unicode 14.0, the data of
    CPython 3.11). *)
Definition is_unicode_space (cp : N) : bool :=
  ((cp =? 133) || (cp =? 160) || (cp =? 5760)
   || ((8192 <=? cp) && (cp <=? 8202))
   || (cp =? 8232) || (cp =? 8233) || (cp =? 8239) || (cp =? 8287)
   || (cp =? 12288))%N.

(** The decimal digits beyond ASCII come in runs of ten, zero first;
    these are the code points of the zeros (Unicode 14.0). *)
Definition digit_zeros : list N :=
  [ 1632; 1776; 1984; 2406; 2534; 2662; 2790; 2918; 3046; 3174; 3302;
    3430; 3558; 3664; 3792; 3872; 4160; 4240; 6112; 6160; 6470; 6608;
    6784; 6800; 6992; 7088; 7232; 7248; 42528; 43216; 43264; 43472;
    43504; 43600; 44016; 65296; 66720; 68912; 69734; 69872; 69942;
    70096; 70384; 70736; 70864; 71248; 71360; 71472; 71904; 72016;
    72784; 73040; 73120; 92768; 92864; 93008; 120782; 120792; 120802;
    120812; 120822; 123200; 123632; 125264; 130032 ]%N.

(** The value of a decimal digit beyond ASCII. *)
Definition decimal_digit (cp : N) : option N :=
  match find (fun z => (z <=? cp) && (cp <? z + 10))%N digit_zeros with
  | Some z => Some (cp - z)%N
  | None => None
  end.

(** What [float] and [int] do to a text that is not ASCII before they
    read it: a space for each white space, the ASCII digit for each
    decimal digit, and at the first character that is neither a question
    mark, where the text ends. *)
Fixpoint spaces_and_digits (chs : list string) : string :=
  match chs with
  | [] => EmptyString
  | ch :: rest =>
      let cp := Str.code_point ch in
      if (cp <? 127)%N then String (ascii_of_N cp) (spaces_and_digits rest)
      else if is_unicode_space cp then String " " (spaces_and_digits rest)
      else match decimal_digit cp with
           | Some d => String (ascii_of_N (48 + d)) (spaces_and_digits rest)
           | None => "?"
           end
  end.

Definition to_ascii (s : string) : string :=
  if Str.forallb Str.is_ascii s then s
  else spaces_and_digits (Str.chars s).

(** [float(s)] for a string; [None] stands for ValueError. *)
Definition float_of_string (s : string) : option float :=
  let s := to_ascii s in
  if underscores_ok "000" s then
    let t := Str.strip (Str.filter not_underscore s) in
    let '(neg, body) := Str.sign t in
    match decimal body with
    | Some (m, e, EmptyString) => Some (of_decimal neg m e)
    | Some _ => None
    | None => special neg body
    end
  else None.

(** The limit on the digits of an integer literal
    (sys.get_int_max_str_digits()). *)
Definition int_max_str_digits : nat := 4300.

(** A run of digits and single underscores that starts and ends with a
    digit; [prev_us] tells whether the previous character was an
    underscore. *)
Fixpoint int_body_ok (prev_us : bool) (s : string) : bool :=
  match s with
  | EmptyString => negb prev_us
  | String c r =>
      if (c =? "_")%char then negb prev_us && int_body_ok true r
      else Str.is_digit c && int_body_ok false r
  end.

(** [int(s)] for a string, base 10; [None] stands for ValueError. *)
Definition int_of_string (s : string) : option Z :=
  let '(neg, body) := Str.sign (Str.strip (to_ascii s)) in
  match body with
  | EmptyString => None
  | String c _ =>
      if Str.is_digit c && int_body_ok false body then
        let ds := Str.filter not_underscore body in
        if Nat.leb (length ds) int_max_str_digits then
          let v := Z.of_N (Str.digits_value ds) in
          Some (if neg then - v else v)%Z
        else None
      else None
  end.

(** *** Text from numbers *)

(** [str(n)] for an integer, without the limit on its digits. *)
Definition digits_of_N (n : N) : string :=
  NilZero.string_of_uint (N.to_uint n).

Definition int_digits (n : Z) : string :=
  NilZero.string_of_int (Z.to_int n).

(** [m * 2^e < 10^k], on integers. *)
Definition below_pow10 (m : positive) (e k : Z) : bool :=
  (Zpos m * 2 ^ Z.max e 0 * 10 ^ Z.max (- k) 0
   <? 2 ^ Z.max (- e) 0 * 10 ^ Z.max k 0)%Z.

Fixpoint first_pow10_above (fuel : nat) (m : positive) (e k : Z) : Z :=
  match fuel with
  | O => k
  | S n => if below_pow10 m e k then k
           else first_pow10_above n m e (k + 1)%Z
  end.

(** The least [k] with [m * 2^e < 10^k]: where the decimal point stands
    relative to the first significant digit. *)
Definition decimal_point (m : positive) (e : Z) : Z :=
  let e2 := (Zpos (digits2_pos m) + e - 1)%Z in
  first_pow10_above 8 m e ((e2 * 30103) / 100000 - 1)%Z.

(** The [n]-digit decimal nearest to [m * 2^e] among the two around it
    that read back as the same double, if any: its digits as a number,
    scaled by [10^(k - n)]. *)
Definition candidate (m : positive) (e k : Z) (n : Z) : option N :=
  let x := S754_finite false m e in
  let s := (k - n)%Z in
  let num := (Zpos m * 2 ^ Z.max e 0 * 10 ^ Z.max (- s) 0)%Z in
  let den := (2 ^ Z.max (- e) 0 * 10 ^ Z.max s 0)%Z in
  let lo := Z.to_N (num / den) in
  let hi := (lo + 1)%N in
  let back c := SFeqb (of_decimal false c s) x in
  let lo_nearer := (2 * num <=? (2 * Z.of_N lo + 1) * den)%Z in
  match back lo, back hi with
  | true, true => Some (if lo_nearer then lo else hi)
  | true, false => Some lo
  | false, true => Some hi
  | false, false => None
  end.

Fixpoint shortest_from (fuel : nat) (m : positive) (e k n : Z)
  : N * Z :=
  match fuel with
  | O => (Npos m, 0%Z)
  | S f =>
      match candidate m e k n with
      | Some c => (c, (k - n)%Z)
      | None => shortest_from f m e k (n + 1)%Z
      end
  end.

Fixpoint zeros (n : nat) : string :=
  match n with
  | O => EmptyString
  | S k => String "0" (zeros k)
  end.

Definition is_zero_digit (c : ascii) : bool := (c =? "0")%char.

Definition strip_trailing_zeros (s : string) : string :=
  Str.rev (Str.drop_while is_zero_digit (Str.rev s)).

Definition two_digits (n : Z) : string :=
  let s := digits_of_N (Z.to_N n) in
  if Nat.ltb (length s) 2 then String "0" s else s.

(** The shortest digits that read back as the double and the position
    of the decimal point after them: the number is [0.digits * 10^point]. *)
Definition shortest_digits (m : positive) (e : Z) : string * Z :=
  let k := decimal_point m e in
  let '(c, s) := shortest_from 17 m e k 1 in
  let ds := digits_of_N c in
  (strip_trailing_zeros ds, (s + Z.of_nat (length ds))%Z).

(** [repr(x)], which is also [str(x)], of a float. *)
Definition float_repr (x : float) : string :=
  match x with
  | S754_zero s => if s then "-0.0" else "0.0"
  | S754_infinity s => if s then "-inf" else "inf"
  | S754_nan => "nan"
  | S754_finite s m e =>
      let '(ds, pt) := shortest_digits m e in
      let body :=
        if ((pt <=? -4) || (16 <? pt))%Z then
          let mant :=
            match ds with
            | String d EmptyString => ds
            | String d r => String d (String "." r)
            | EmptyString => ds
            end in
          let ex := (pt - 1)%Z in
          mant ++ "e" ++ (if (ex <? 0)%Z then "-" else "+")
               ++ two_digits (Z.abs ex)
        else if (pt <=? 0)%Z then
          "0." ++ zeros (Z.to_nat (- pt)) ++ ds
        else
          let p := Z.to_nat pt in
          if Nat.leb (length ds) p
          then ds ++ zeros (p - length ds) ++ ".0"
          else substring 0 p ds ++ "." ++ substring p (length ds - p) ds
      in if s then String "-" body else body
  end.

End Num.

(** ** Python values *)

Module Py.

Import Float.

(** What [response.json()] can hold. A [VDict] lists its items in
    insertion order; its keys are strings and pairwise distinct. The
    decoder refuses an integer of more than 4300 digits. *)
Inductive value : Type :=
  | VNone
  | VBool (b : bool)
  | VInt (n : Z)
  | VFloat (x : float)
  | VStr (s : string)
  | VList (l : list value)
  | VDict (d : list (string * value)).

(** The exception classes met here; [RequestException] is what the HTTP
    library raises, with its own description. *)
Inductive exn : Type :=
  | ValueError
  | TypeError
  | AttributeError
  | OverflowError
  | RequestException (what : string).

Inductive outcome (A : Type) : Type :=
  | Return (a : A)
  | Raise (e : exn).

Arguments Return {A} a.
Arguments Raise {A} e.

Definition bind {A B} (m : outcome A) (k : A -> outcome B) : outcome B :=
  match m with
  | Return a => k a
  | Raise e => Raise e
  end.

Notation "x <- m ;; k" := (bind m (fun x => k))
  (at level 61, m at next level, right associativity).

Definition of_option {A} (e : exn) (o : option A) : outcome A :=
  match o with
  | Some a => Return a
  | None => Raise e
  end.

(** [bool(v)] *)
Definition truthy (v : value) : bool :=
  match v with
  | VNone => false
  | VBool b => b
  | VInt n => negb (n =? 0)%Z
  | VFloat x => nonzero x
  | VStr s => negb (s =? "")
  | VList l => match l with [] => false | _ => true end
  | VDict d => match d with [] => false | _ => true end
  end.

Fixpoint lookup (k : string) (d : list (string * value)) : option value :=
  match d with
  | [] => None
  | (k', v) :: r => if k' =? k then Some v else lookup k r
  end.

Definition lookup_or (k : string) (d : list (string * value))
  (default : value) : value :=
  match lookup k d with
  | Some x => x
  | None => default
  end.

(** [v.get(k, default)]; only a dict has the method. *)
Definition get (v : value) (k : string) (default : value) : outcome value :=
  match v with
  | VDict d => Return (lookup_or k d default)
  | _ => Raise AttributeError
  end.

(** *** [repr] and [str] *)

Definition hex_digit (n : N) : ascii :=
  match String.get (N.to_nat n) "0123456789abcdef" with
  | Some c => c
  | None => "0"%char
  end.

Definition is_char (a c : ascii) : bool := (c =? a)%char.

(** One byte inside the quotes of a string's [repr]. The bytes of a
    character beyond ASCII are copied; Python escapes those of such
    characters that are not printable, which no result here depends on:
    the text of a list or a dict starts with a bracket and does not
    read as a number. *)
Definition escape (quote c : ascii) : string :=
  let n := Str.code c in
  if ((c =? quote) || (c =? "\"))%char then String "\" (String c "")
  else if (n =? 9)%N then "\t"
  else if (n =? 10)%N then "\n"
  else if (n =? 13)%N then "\r"
  else if ((n <? 32) || (n =? 127))%N
  then String "\" (String "x" (String (hex_digit (n / 16))
                                  (String (hex_digit (n mod 16)) "")))
  else String c "".

Fixpoint escape_all (quote : ascii) (s : string) : string :=
  match s with
  | EmptyString => EmptyString
  | String c r => escape quote c ++ escape_all quote r
  end.

Definition apostrophe : ascii := ascii_of_N 39.
Definition double_quote : ascii := ascii_of_N 34.

(** [repr(s)] of a string: in apostrophes, unless it holds an apostrophe
    and no double quote. *)
Definition str_repr (s : string) : string :=
  let q :=
    if Str.forallb (fun c => negb (is_char apostrophe c)) s then apostrophe
    else if Str.forallb (fun c => negb (is_char double_quote c)) s
         then double_quote
         else apostrophe in
  String q (escape_all q s ++ String q "").

(** [repr(n)] of an integer; ValueError past the limit on digits. *)
Definition int_repr (n : Z) : outcome string :=
  if Nat.leb (length (Num.digits_of_N (Z.abs_N n))) Num.int_max_str_digits
  then Return (Num.int_digits n)
  else Raise ValueError.

Fixpoint join (sep : string) (l : list string) : string :=
  match l with
  | [] => EmptyString
  | [a] => a
  | a :: r => a ++ sep ++ join sep r
  end.

Fixpoint repr (v : value) : outcome string :=
  match v with
  | VNone => Return "None"
  | VBool b => Return (if b then "True" else "False")
  | VInt n => int_repr n
  | VFloat x => Return (Num.float_repr x)
  | VStr s => Return (str_repr s)
  | VList l =>
      let fix items (l : list value) : outcome (list string) :=
        match l with
        | [] => Return []
        | a :: r => s <- repr a ;; t <- items r ;; Return (s :: t)
        end in
      t <- items l ;; Return ("[" ++ join ", " t ++ "]")
  | VDict d =>
      let fix items (d : list (string * value)) : outcome (list string) :=
        match d with
        | [] => Return []
        | (k, a) :: r =>
            s <- repr a ;; t <- items r ;;
            Return ((str_repr k ++ ": " ++ s) :: t)
        end in
      t <- items d ;; Return ("{" ++ join ", " t ++ "}")
  end.

(** [str(v)] *)
Definition str (v : value) : outcome string :=
  match v with
  | VStr s => Return s
  | _ => repr v
  end.

(** *** Conversions *)

Definition one : float := S754_finite false 4503599627370496 (-52).

(** [float(v)] *)
Definition float_of (v : value) : outcome float :=
  match v with
  | VStr s => of_option ValueError (Num.float_of_string s)
  | VInt n => of_option OverflowError (of_Z n)
  | VBool b => Return (if b then one else zero)
  | VFloat x => Return x
  | _ => Raise TypeError
  end.

(** [int(v)] *)
Definition int_of (v : value) : outcome Z :=
  match v with
  | VStr s => of_option ValueError (Num.int_of_string s)
  | VInt n => Return n
  | VBool b => Return (if b then 1 else 0)%Z
  | VFloat S754_nan => Raise ValueError
  | VFloat x => of_option OverflowError (truncate x)
  | _ => Raise TypeError
  end.

(** [v == s] for a string [s] *)
Definition equals_str (s : string) (v : value) : bool :=
  match v with
  | VStr t => t =? s
  | _ => false
  end.

(** [s in v] for a string [s]: substring of a string, element of a
    list, key of a dict; TypeError for the rest. *)
Definition contains (s : string) (v : value) : outcome bool :=
  match v with
  | VStr t => Return (Str.contains s t)
  | VList l => Return (existsb (equals_str s) l)
  | VDict d => Return (match lookup s d with Some _ => true | None => false end)
  | _ => Raise TypeError
  end.

(** What [for item in v] goes through. *)
Definition characters (s : string) : list value :=
  List.map VStr (Str.chars s).

Definition iterate (v : value) : outcome (list value) :=
  match v with
  | VList l => Return l
  | VStr s => Return (characters s)
  | VDict d => Return (List.map (fun kv => VStr (fst kv)) d)
  | _ => Raise TypeError
  end.

End Py.

(** ** app.py *)

Module App.

Import Float Py.

(** A row of the result: the dict appended to [clean_data]. *)
Definition row := list (string * value).

(** [pd.DataFrame(clean_data)] is kept as the list of its rows, in order;
    [pd.DataFrame()] is the empty list. *)
Definition DataFrame := list row.

(** The second component of the result: a fixed text, or the text built
    by [f"Server Error: {str(e)}"] from the exception caught. *)
Inductive message : Type :=
  | Text (s : string)
  | ServerError (cause : exn).

(** The text shown for a message, given the text [str(e)] of every
    exception. *)
Definition render (str_of_exn : exn -> string) (m : message) : string :=
  match m with
  | Text s => s
  | ServerError e => "Server Error: " ++ str_of_exn e
  end.

(** Lines 70-77: the price of an item. *)
Definition clean_str (s : string) : string :=
  hd EmptyString
     (Str.split " - "
        (Str.replace "from " "" (Str.replace "," "" (Str.replace "$" "" s)))).

Definition price_of (raw_price : value) : float :=
  if truthy raw_price then
    match (s <- str raw_price ;; float_of (VStr (clean_str s))) with
    | Return x => x
    | Raise _ => zero
    end
  else zero.

(** Lines 79-80 *)
Definition rating_of (raw_rating : value) : outcome float :=
  if truthy raw_rating then float_of raw_rating else Return zero.

(** Lines 82-83 *)
Definition reviews_of (raw_reviews : value) : outcome Z :=
  if truthy raw_reviews then int_of raw_reviews else Return 0%Z.

(** Lines 85-92 *)
Definition format_of (title : value) : outcome string :=
  p <- contains "Paperback" title ;;
  if p then Return "Paperback" else
  h <- contains "Hardcover" title ;;
  if h then Return "Hardcover" else
  a <- contains "Audiobook" title ;;
  if a then Return "Audiobook" else
  Return "Standard".

(** Lines 70-103: the body of the loop, for one item. *)
Definition clean_item (item : value) : outcome row :=
  raw_price <- get item "product_price" VNone ;;
  let price := price_of raw_price in
  raw_rating <- get item "product_star_rating" VNone ;;
  rating <- rating_of raw_rating ;;
  raw_reviews <- get item "product_num_ratings" VNone ;;
  reviews <- reviews_of raw_reviews ;;
  title <- get item "product_title" (VStr "Unknown") ;;
  fmt <- format_of title ;;
  best <- get item "is_best_seller" VNone ;;
  photo <- get item "product_photo" (VStr "") ;;
  link <- get item "product_url" (VStr "#") ;;
  Return [ ("Title", title);
           ("Rating", VFloat rating);
           ("Reviews", VInt reviews);
           ("Price", VFloat price);
           ("Format", VStr fmt);
           ("Best_Seller", VStr (if truthy best then "Yes" else "No"));
           ("Image", photo);
           ("Link", link) ].

(** Lines 68-103: the loop, appending to [clean_data]. *)
Fixpoint clean_loop (clean_data : list row) (items : list value)
  : outcome (list row) :=
  match items with
  | [] => Return clean_data
  | item :: rest =>
      r <- clean_item item ;;
      clean_loop (clean_data ++ [r]) rest
  end.

(** Line 63: [data.get("data", {}).get("products", [])] *)
Definition products_at (data : value) : outcome value :=
  inner <- get data "data" (VDict []) ;;
  get inner "products" (VList []).

(** Lines 63-105, inside the [try]: from the decoded body to the result. *)
Definition normalize (data : value) : outcome (DataFrame * option message) :=
  products <- products_at data ;;
  if negb (truthy products) then
    Return ([], Some (Text "No products found."))
  else
    items <- iterate products ;;
    clean_data <- clean_loop [] items ;;
    Return (clean_data, None).

(** The request of line 61. *)
Record request : Type := {
  url : string;
  headers : list (string * string);
  params : list (string * string)
}.

(** What the call of line 61 and the decoding of line 62 do: either may
    raise. *)
Inductive reply : Type :=
  | GetRaises (e : exn)
  | Responds (json : outcome value).

(** The surroundings of a call: the environment variable, the remote
    service, and the requests sent so far, latest first. *)
Record world : Type := {
  RAPIDAPI_KEY : option string;
  service : request -> reply;
  sent : list request
}.

Definition send (r : request) (w : world) : reply * world :=
  (service w r,
   {| RAPIDAPI_KEY := RAPIDAPI_KEY w;
      service := service w;
      sent := r :: sent w |}).

Definition search_request (api_key query sort_code : string) : request :=
  {| url := "https://real-time-amazon-data.p.rapidapi.com/search";
     headers := [ ("x-rapidapi-key", api_key);
                  ("x-rapidapi-host", "real-time-amazon-data.p.rapidapi.com") ];
     params := [ ("query", query); ("page", "1"); ("country", "US");
                 ("sort_by", sort_code); ("category_id", "books") ] |}.

(** Lines 39-108: the body of [fetch_data]. The memoisation added by
    [st.cache_data] belongs to the caller and is not part of it. *)
Definition fetch_data (query sort_code : string) (w : world)
  : (DataFrame * option message) * world :=
  match RAPIDAPI_KEY w with
  | None => (([], Some (Text "Missing API key in environment variables.")), w)
  | Some api_key =>
      if api_key =? "" then
        (([], Some (Text "Missing API key in environment variables.")), w)
      else
        let '(r, w') := send (search_request api_key query sort_code) w in
        let result :=
          match r with
          | GetRaises e => Raise e
          | Responds json => data <- json ;; normalize data
          end in
        match result with
        | Return res => (res, w')
        | Raise e => (([], Some (ServerError e)), w')
        end
  end.

End App.

(** ** app.py: the page around fetch_data *)

Module Page.

Import Float Py App.

(** Lines 18-28 *)
Definition CATEGORIES : list (string * string) :=
  [ ("Technology & Programming", "programming books");
    ("Business & Money", "business and money books");
    ("Science Fiction & Fantasy", "science fiction and fantasy books");
    ("Self-Help & Psychology", "self help books");
    ("Biographies", "biographies and memoirs");
    ("History", "history books");
    ("Children's Books", "childrens books");
    ("Health & Fitness", "health and fitness books");
    ("Cookbooks", "cookbooks food and wine") ].

(** Lines 30-36 *)
Definition SORT_OPTIONS : list (string * string) :=
  [ ("Relevance", "RELEVANCE");
    ("Lowest Price", "LOWEST_PRICE");
    ("Highest Price", "HIGHEST_PRICE");
    ("Highest Rated", "REVIEWS");
    ("Newest Arrivals", "NEWEST") ].

(** [table[k]]; [None] stands for KeyError. *)
Fixpoint item (k : string) (table : list (string * string)) : option string :=
  match table with
  | [] => None
  | (k', v) :: r => if k' =? k then Some v else item k r
  end.

(** [list(table.keys())], what a select box offers. *)
Definition keys (table : list (string * string)) : list string :=
  List.map fst table.

(** The characters kept by the pattern of line 124: letters, digits and
    the blank. *)
Definition is_query_char (c : ascii) : bool :=
  let n := Str.code c in
  ((97 <=? n)%N && (n <=? 122)%N) || ((65 <=? n)%N && (n <=? 90)%N)
  || ((48 <=? n)%N && (n <=? 57)%N) || (n =? 32)%N.

(** Line 124: [re.sub(r'[^a-zA-Z0-9 ]', '', raw_query)] *)
Definition clean_query (raw_query : string) : string :=
  Str.filter is_query_char raw_query.

(** Lines 113-116: whether the sidebar reports the key as loaded. *)
Definition key_loaded (w : world) : bool :=
  match RAPIDAPI_KEY w with
  | Some k => negb (k =? "")
  | None => false
  end.

(** [st.session_state]: the three entries the script keeps; [None] for
    [last_run] is the absent key. *)
Record session : Type := {
  data : option DataFrame;
  error : option message;
  last_run : option float
}.

(** Lines 13-16: the state of a new session. *)
Definition new_session : session :=
  {| data := None; error := None; last_run := None |}.

Definition two : float := S754_finite false 4503599627370496 (-51).

(** Line 130: the guard of the button, at clock reading [now]. *)
Definition too_soon (now : float) (s : session) : bool :=
  match last_run s with
  | Some t => SFltb (SFsub prec emax now t) two
  | None => false
  end.

(** Line 38: what [st.cache_data] keeps, for the whole process: the
    value returned for each pair of arguments, latest first. *)
Definition cache : Type :=
  list ((string * string) * (DataFrame * option message)).

Fixpoint cached (query sort_code : string) (c : cache)
  : option (DataFrame * option message) :=
  match c with
  | [] => None
  | ((q, s), res) :: r =>
      if (q =? query) && (s =? sort_code) then Some res
      else cached query sort_code r
  end.

(** Lines 38-39: [fetch_data] as the page calls it: the body runs only
    for a pair of arguments not met before, and what it returns, a
    message included, is kept for the next calls. *)
Definition cached_fetch_data (query sort_code : string) (c : cache)
  (w : world) : (DataFrame * option message) * cache * world :=
  match cached query sort_code c with
  | Some res => (res, c, w)
  | None =>
      let '(res, w') := fetch_data query sort_code w in
      (res, ((query, sort_code), res) :: c, w')
  end.

(** Lines 129-138: the button was pressed; [now] and [later] are the two
    readings of the clock. The first component tells whether the script
    was stopped by [st.stop()]. *)
Definition run_analysis (now later : float) (clean_query api_sort_code : string)
  (s : session) (c : cache) (w : world) : bool * session * cache * world :=
  if too_soon now s then (true, s, c, w)
  else
    let '((df, err), c', w') :=
      cached_fetch_data clean_query api_sort_code c w in
    (false, {| data := Some df; error := err; last_run := Some later |},
     c', w').

(** Lines 120-138: the selections are looked up, the query is cleaned,
    and the button, if pressed, runs the analysis. [None] stands for the
    KeyError of a name that is in neither table. *)
Definition sidebar (selected_category_name selected_sort_name : string)
  (pressed : bool) (now later : float) (s : session) (c : cache) (w : world)
  : option (bool * session * cache * world) :=
  match item selected_category_name CATEGORIES,
        item selected_sort_name SORT_OPTIONS with
  | Some raw_query, Some api_sort_code =>
      if pressed
      then Some (run_analysis now later (clean_query raw_query)
                   api_sort_code s c w)
      else Some (false, s, c, w)
  | _, _ => None
  end.

(** Line 149: the rows whose best-seller column is "Yes". *)
Definition is_best_seller (r : row) : bool :=
  match lookup "Best_Seller" r with
  | Some v => equals_str "Yes" v
  | None => false
  end.

(** Line 154: [df.head(10)] *)
Definition top_10 (df : DataFrame) : DataFrame := firstn 10 df.

(** Lines 156-171: where a row of the top ten is drawn: the column
    [index % 5], and whether a divider follows it in that column. *)
Record card : Type := {
  col : nat;
  shown : row;
  divider : bool
}.

Definition card_at (index : nat) (r : row) : card :=
  {| col := index mod 5;
     shown := r;
     divider := ((index + 1) mod 5 =? 0)%nat |}.

Definition cards (df : DataFrame) : list card :=
  List.map (fun ir => card_at (fst ir) (snd ir))
    (combine (seq 0 (List.length (top_10 df))) (top_10 df)).

(** Line 160, for an image cell that is a string. *)
Definition shown_image (img : string) : string :=
  if img =? "" then "https://via.placeholder.com/150" else img.

(** Line 163, for a title cell that is a string. *)
Definition shown_title (title : string) : string :=
  if Nat.ltb 40 (Str.len title)
  then (Str.first_chars 40 title ++ "...")%string
  else title.

(** Line 165 *)
Definition badge_color (fmt : string) : string :=
  if fmt =? "Paperback" then "green"
  else if fmt =? "Hardcover" then "orange"
  else "gray".

(** [format(x, ".2f")]: the decimal with two places nearest to the
    double, ties to the even digit. *)
Definition format_2f (x : float) : string :=
  match x with
  | S754_nan => "nan"
  | S754_infinity s => if s then "-inf" else "inf"
  | S754_zero s => if s then "-0.00" else "0.00"
  | S754_finite s m e =>
      let num := (Zpos m * 2 ^ Z.max e 0 * 100)%Z in
      let den := (2 ^ Z.max (- e) 0)%Z in
      let q := (num / den)%Z in
      let r := (num mod den)%Z in
      let n :=
        match (2 * r ?= den)%Z with
        | Gt => (q + 1)%Z
        | Eq => if Z.even q then q else (q + 1)%Z
        | Lt => q
        end in
      let body :=
        (Num.digits_of_N (Z.to_N (n / 100)) ++ "."
         ++ Num.two_digits (n mod 100))%string in
      if s then String "-" body else body
  end.

(** Line 167 *)
Definition price_label (price : float) : string :=
  ("**$" ++ format_2f price ++ "**")%string.

(** The truth value of the error entry, a text. *)
Definition message_shown (m : message) : bool :=
  match m with
  | Text s => negb (s =? "")
  | ServerError _ => true
  end.

(** Lines 143-176: what the main area shows. *)
Inductive view : Type :=
  | Results (books_found best_sellers : nat) (grid : list card)
  | Failure (m : message)
  | Prompt.

Definition main_view (s : session) : view :=
  let otherwise :=
    match error s with
    | Some m => if message_shown m then Failure m else Prompt
    | None => Prompt
    end in
  match data s with
  | Some [] => otherwise
  | Some df =>
      Results (List.length df) (List.length (List.filter is_best_seller df))
              (cards df)
  | None => otherwise
  end.

End Page.

(** ** Vocabulary of the statements *)

Module Words.

Import Float Py App.

(** [sub] occurs in [s]. *)
Definition occurs (sub s : string) : Prop :=
  exists before after, s = (before ++ sub ++ after)%string.

(** A decoded body whose products are [items]. *)
Definition body (items : list value) : value :=
  VDict [("data", VDict [("products", VList items)])].

(** The decoded body has no product: the path [data.products] is missing
    at its first or second step, or leads to the empty array. *)
Inductive no_products : value -> Prop :=
  | no_data_key d :
      lookup "data" d = None -> no_products (VDict d)
  | no_products_key d inner :
      lookup "data" d = Some (VDict inner) ->
      lookup "products" inner = None -> no_products (VDict d)
  | empty_products d inner :
      lookup "data" d = Some (VDict inner) ->
      lookup "products" inner = Some (VList []) -> no_products (VDict d).

(** A configured credential: the variable is set to a non-empty text. *)
Definition configured (w : world) (api_key : string) : Prop :=
  RAPIDAPI_KEY w = Some api_key /\ api_key <> "".

(** The service answers the search with the decoded body [data]. *)
Definition answers (w : world) (api_key query sort_code : string)
  (data : value) : Prop :=
  service w (search_request api_key query sort_code) = Responds (Return data).

(** A dict without the key [k]. *)
Fixpoint without (k : string) (d : list (string * value))
  : list (string * value) :=
  match d with
  | [] => []
  | (k', v) :: r => if k' =? k then without k r else (k', v) :: without k r
  end.

(** The row of the item [d], given its rating, review count and format. *)
Definition row_of (d : list (string * value)) (rating : float) (reviews : Z)
  (fmt : string) : row :=
  [ ("Title", lookup_or "product_title" d (VStr "Unknown"));
    ("Rating", VFloat rating);
    ("Reviews", VInt reviews);
    ("Price", VFloat (price_of (lookup_or "product_price" d VNone)));
    ("Format", VStr fmt);
    ("Best_Seller",
     VStr (if truthy (lookup_or "is_best_seller" d VNone)
           then "Yes" else "No"));
    ("Image", lookup_or "product_photo" d (VStr ""));
    ("Link", lookup_or "product_url" d (VStr "#")) ].

(** The item of the end-to-end example. *)
Definition clean_code_item : value :=
  VDict [ ("product_title", VStr "Clean Code Paperback Edition");
          ("product_price", VStr "from $29.99 - $45.00");
          ("product_star_rating", VStr "4.7");
          ("product_num_ratings", VStr "1500");
          ("is_best_seller", VBool true) ].

(** Its row, with the given value for the best-seller column. *)
Definition clean_code_row (best_seller : value) : row :=
  [ ("Title", VStr "Clean Code Paperback Edition");
    ("Rating", VFloat (of_decimal false 47 (-1)));
    ("Reviews", VInt 1500);
    ("Price", VFloat (of_decimal false 2999 (-2)));
    ("Format", VStr "Paperback");
    ("Best_Seller", best_seller);
    ("Image", VStr "");
    ("Link", VStr "#") ].

(** A world with the credential [k], no request sent yet, whose service
    answers every request with [data]. *)
Definition serving (k : option string) (data : value) : world :=
  {| RAPIDAPI_KEY := k;
     service := fun _ => Responds (Return data);
     sent := [] |}.

(** The item is cleaned into the row [r]. *)
Definition cleaned (item : value) (r : row) : Prop :=
  clean_item item = Return r.

(** The three fields that are parsed, the column each one fills, and the
    default of that column. *)
Definition parsed_fields : list string :=
  ["product_price"; "product_star_rating"; "product_num_ratings"].

Definition column (k : string) : string :=
  if k =? "product_price" then "Price"
  else if k =? "product_star_rating" then "Rating"
  else "Reviews".

Definition default_of (k : string) : value :=
  if k =? "product_num_ratings" then VInt 0 else VFloat zero.

(** An item whose rating cannot be parsed, and one whose review count
    cannot. *)
Definition unrated_item : value :=
  VDict [ ("product_title", VStr "Dune");
          ("product_price", VStr "$9.99");
          ("product_star_rating", VStr "N/A") ].

Definition uncounted_item : value :=
  VDict [ ("product_title", VStr "Dune");
          ("product_num_ratings", VStr "1,234") ].

(** An item whose title is null. *)
Definition untitled_item : value :=
  VDict [ ("product_title", VNone); ("product_price", VStr "$9.99") ].

(** Characters of an amount once its separators are dropped: digits and
    the decimal point. *)
Definition is_plain (c : ascii) : bool :=
  Str.is_digit c || (c =? ".")%char.

(** The characters other than [a]. *)
Definition other_than (a c : ascii) : bool := negb (c =? a)%char.

(** Characters of an amount before its decimal point: digits and
    thousands separators. *)
Definition is_grouping (c : ascii) : bool :=
  Str.is_digit c || (c =? ",")%char.

(** The text of an amount: the integral part [ip], written with or
    without separators, and the digits after the point, if any. *)
Definition fraction_text (frac : option string) : string :=
  match frac with
  | None => EmptyString
  | Some fd => String "." fd
  end.

Definition fraction_digits (frac : option string) : string :=
  match frac with
  | None => EmptyString
  | Some fd => fd
  end.

Definition amount_text (ip : string) (frac : option string) : string :=
  ip ++ fraction_text frac.

(** The same amount without its separators. *)
Definition plain_text (ip : string) (frac : option string) : string :=
  Str.filter Str.is_digit ip ++ fraction_text frac.

(** The double nearest to the amount: its digits, separators dropped,
    read as a decimal number with [length fd] places after the point. *)
Definition amount_value (ip : string) (frac : option string) : float :=
  let fd := fraction_digits frac in
  of_decimal false
    (Str.digits_value (Str.filter Str.is_digit ip ++ fd))
    (- Z.of_nat (length fd)).

(** [ip] and [frac] spell an amount: only digits and separators before
    the point, only digits after it, and at least one digit. *)
Definition well_formed_amount (ip : string) (frac : option string) : Prop :=
  Str.forallb is_grouping ip = true /\
  Str.forallb Str.is_digit (fraction_digits frac) = true /\
  (Str.filter Str.is_digit ip ++ fraction_digits frac)%string <> "".

(** Characters beyond ASCII, by their UTF-8 bytes: the no-break space
    U+00A0, the Arabic-Indic digit three U+0663, the letter e with an
    acute accent U+00E9 and the em dash U+2014. *)
Definition no_break_space : string :=
  String (ascii_of_N 194) (String (ascii_of_N 160) "").

Definition arabic_indic_three : string :=
  String (ascii_of_N 217) (String (ascii_of_N 163) "").

Definition e_acute : string :=
  String (ascii_of_N 195) (String (ascii_of_N 169) "").

Definition em_dash : string :=
  String (ascii_of_N 226) (String (ascii_of_N 128) (String (ascii_of_N 148) "")).

(** *** The number a text writes *)

Definition digit_value (c : ascii) : Z :=
  match c with
  | "0" => 0 | "1" => 1 | "2" => 2 | "3" => 3 | "4" => 4
  | "5" => 5 | "6" => 6 | "7" => 7 | "8" => 8 | "9" => 9
  | _ => 0
  end%char%Z.

(** The number a run of digits writes: each digit counts for its value
    times the power of ten of its place. *)
Fixpoint written (s : string) : Z :=
  match s with
  | EmptyString => 0%Z
  | String c r => (digit_value c * 10 ^ Z.of_nat (length r) + written r)%Z
  end.

(** The amount X as a fraction: the number written by its digits,
    separators left out, over ten to the number of its decimals. *)
Definition amount_numerator (ip : string) (frac : option string) : Z :=
  written (Str.filter Str.is_digit ip ++ fraction_digits frac).

Definition amount_denominator (frac : option string) : Z :=
  (10 ^ Z.of_nat (length (fraction_digits frac)))%Z.

(** *** The nearest double *)

(** The doubles: the zeros, the infinities, NaN, and the finite numbers
    [m * 2^e] whose mantissa has 53 bits, or fewer at the least
    exponent -1074, and whose exponent is at most 971. *)
Definition is_double (x : float) : Prop := valid_binary prec emax x = true.

Definition finite (x : float) : bool :=
  match x with
  | S754_zero _ | S754_finite _ _ _ => true
  | _ => false
  end.

(** The absolute value of a finite double, counted in units of 2^-1074,
    the least positive double: an integer. *)
Definition magnitude (x : float) : Z :=
  match x with
  | S754_finite _ m e => (Zpos m * 2 ^ (e + 1074))%Z
  | _ => 0%Z
  end.

Definition mantissa (x : float) : Z :=
  match x with
  | S754_finite _ m _ => Zpos m
  | _ => 0%Z
  end.

Definition sign_of (x : float) : option bool :=
  match x with
  | S754_zero s | S754_infinity s | S754_finite s _ _ => Some s
  | S754_nan => None
  end.

(** The distance from [x] to the fraction [num / den], in units of
    [2^-1074 / den]. *)
Definition gap (num den : Z) (x : float) : Z :=
  Z.abs (magnitude x * den - num * 2 ^ 1074)%Z.

(** The middle between the largest double and 2^1024: from there on a
    number is rounded to an infinity. *)
Definition overflow_threshold : Z := (2 ^ 1024 - 2 ^ 970)%Z.

(** [x] is the double nearest to the number of absolute value
    [num / den] and of sign [neg], ties to even: below the threshold no
    finite double is nearer to [num / den] than [x], and a double as
    near as [x] is [x] itself unless the mantissa of [x] is even; from
    the threshold on, [x] is the infinity. *)
Definition nearest (neg : bool) (num den : Z) (x : float) : Prop :=
  sign_of x = Some neg /\ is_double x /\
  if finite x then
    (num < overflow_threshold * den)%Z /\
    forall y, is_double y -> finite y = true ->
      (gap num den x <= gap num den y)%Z /\
      (gap num den x = gap num den y ->
       magnitude y = magnitude x \/ Z.even (mantissa x) = true)
  else (overflow_threshold * den <= num)%Z.

(** What a location of the rounding says of the number [N / D]: it is
    [m], or lies between [m] and [m + 1], below, at or above the
    middle. *)
Definition located (N D m : Z) (l : location) : Prop :=
  match l with
  | loc_Exact => N = (m * D)%Z
  | loc_Inexact c =>
      (m * D < N < (m + 1) * D)%Z /\ (2 * N ?= (2 * m + 1) * D)%Z = c
  end.

End Words.

Module PageWords.

Import Float Py App Words Page.

(** The keys of an item that the loop reads. *)
Definition read_keys : list string :=
  [ "product_price"; "product_star_rating"; "product_num_ratings";
    "product_title"; "is_best_seller"; "product_photo"; "product_url" ].

(** The formats a row can have. *)
Definition formats : list string :=
  [ "Paperback"; "Hardcover"; "Audiobook"; "Standard" ].

(** A row has the eight columns, in the order of lines 94-103, with a
    float rating and price, an integer review count, one of the four
    formats and "Yes" or "No" as best-seller mark. *)
Definition well_formed_row (r : row) : Prop :=
  exists title rating reviews price fmt best image link,
    r = [ ("Title", title); ("Rating", VFloat rating);
          ("Reviews", VInt reviews); ("Price", VFloat price);
          ("Format", VStr fmt); ("Best_Seller", VStr best);
          ("Image", image); ("Link", link) ] /\
    In fmt formats /\ (best = "Yes" \/ best = "No").

(** The best-seller flag of an item is truthy. *)
Definition flagged (d : list (string * value)) : bool :=
  truthy (lookup_or "is_best_seller" d VNone).

Definition is_dict (v : value) : bool :=
  match v with
  | VDict _ => true
  | _ => false
  end.

Definition is_list (v : value) : bool :=
  match v with
  | VList _ => true
  | _ => false
  end.

(** What a truthy [products] that is not a list makes the loop raise:
    a string or a dict is gone through, and its first element, a string,
    has no [get]; the rest cannot be gone through. *)
Definition loop_error (products : value) : exn :=
  match products with
  | VStr _ | VDict _ => AttributeError
  | _ => TypeError
  end.

(** The number of decimal digits of an integer. *)
Definition digit_count (n : Z) : nat :=
  length (Num.digits_of_N (Z.abs_N n)).

(** An amount of [n] hundredths written with two decimals. *)
Definition with_two_decimals (n : N) : string :=
  (Num.digits_of_N (n / 100) ++ "."
   ++ Num.two_digits (Z.of_N (n mod 100)))%string.

(** A character: a first byte and the continuation bytes after it; a
    leading character starts with a byte that continues nothing. *)
Definition whole_char (ch : string) : bool :=
  match ch with
  | EmptyString => false
  | String _ r => Str.forallb Str.is_continuation r
  end.

Definition leading_char (ch : string) : bool :=
  match ch with
  | EmptyString => false
  | String c r =>
      negb (Str.is_continuation c) && Str.forallb Str.is_continuation r
  end.

(** The text does not start inside a character. *)
Definition starts_char (t : string) : bool :=
  match t with
  | EmptyString => false
  | String c _ => negb (Str.is_continuation c)
  end.

(** A list of characters as [Str.chars] gives them. *)
Definition characters_of (l : list string) : Prop :=
  match l with
  | [] => True
  | ch :: rest =>
      whole_char ch = true /\ Forall (fun x => leading_char x = true) rest
  end.

(** The number of cards drawn in column [j]. *)
Definition cards_in (j : nat) (grid : list card) : nat :=
  List.length (List.filter (fun c => (col c =? j)%nat) grid).

(** Every value the cache keeps was returned by the body of
    [fetch_data] for the arguments it is kept under. *)
Definition filled_by_calls (c : cache) : Prop :=
  forall query sort_code res,
    cached query sort_code c = Some res ->
    exists w, fst (fetch_data query sort_code w) = res.

(** A world with the credential [k], no request sent yet, whose service
    fails every request with [e]. *)
Definition refusing (k : option string) (e : exn) : world :=
  {| RAPIDAPI_KEY := k;
     service := fun _ => GetRaises e;
     sent := [] |}.

(** A world that serves the item of the end-to-end example. *)
Definition example_world : world :=
  serving (Some "secret") (body [clean_code_item]).

(** A clock reading of [n] seconds. *)
Definition seconds (n : N) : float := of_decimal false n 0.

(** A title of 40 characters and 42 bytes: 39 letters and an em dash. *)
Definition dashed_title : string :=
  ("xxxxxxxxxxxxxxxxxxxxxxxxxxxxxxxxxxxxxxx" ++ em_dash)%string.

(** Two items, the first of them flagged as a best seller. *)
Definition two_items : list (list (string * value)) :=
  [ [("product_title", VStr "Dune"); ("is_best_seller", VBool true)];
    [("product_title", VStr "Emma")] ].

End PageWords.

Import Float Py App Words.

(** ** The call: credential, request, empty results *)

Section Call.

Variables (query sort_code : string) (w : world).

Lemma string_eqb_false (a b : string) : a <> b -> (a =? b) = false.
Proof. intro H. apply String.eqb_neq. exact H. Qed.

(** With a credential, the result is the normalization of the reply,
    and exactly one request has been added to those sent. *)
Lemma fetch_data_configured (api_key : string) :
  configured w api_key ->
  fetch_data query sort_code w =
  (match
     match service w (search_request api_key query sort_code) with
     | GetRaises e => Raise e
     | Responds json => data <- json ;; normalize data
     end
   with
   | Return res => res
   | Raise e => ([], Some (ServerError e))
   end,
   {| RAPIDAPI_KEY := RAPIDAPI_KEY w;
      service := service w;
      sent := search_request api_key query sort_code :: sent w |}).
Proof.
  intros [Hkey Hne]. unfold fetch_data, send. rewrite Hkey.
  rewrite (string_eqb_false _ _ Hne).
  destruct (service w (search_request api_key query sort_code)) as [e|[data|e]];
    simpl; try reflexivity.
  destruct (normalize data); reflexivity.
Qed.

Lemma fetch_data_answered (api_key : string) (data : value) :
  configured w api_key ->
  answers w api_key query sort_code data ->
  fst (fetch_data query sort_code w) =
  match normalize data with
  | Return res => res
  | Raise e => ([], Some (ServerError e))
  end.
Proof.
  intros Hc Ha. rewrite (fetch_data_configured api_key Hc).
  unfold answers in Ha. rewrite Ha. simpl. reflexivity.
Qed.

(** C7: for every query and sort code, when no API key is configured
    (the variable is unset or empty), [fetch_data] returns the empty
    record set with the text "Missing API key in environment variables."
    and sends no request: the world, and so the list of requests sent,
    is unchanged. *)
Theorem missing_key_no_request :
  RAPIDAPI_KEY w = None \/ RAPIDAPI_KEY w = Some "" ->
  fetch_data query sort_code w =
    (([], Some (Text "Missing API key in environment variables.")), w)
  /\ sent (snd (fetch_data query sort_code w)) = sent w.
Proof.
  intros [H | H]; unfold fetch_data; rewrite H; simpl; split; reflexivity.
Qed.

Lemma no_products_resolves (data : value) :
  no_products data -> products_at data = Return (VList []).
Proof.
  intros H. unfold products_at.
  destruct H as [d H | d inner H1 H2 | d inner H1 H2];
    simpl; unfold lookup_or.
  - rewrite H. reflexivity.
  - rewrite H1. simpl. unfold lookup_or. rewrite H2. reflexivity.
  - rewrite H1. simpl. unfold lookup_or. rewrite H2. reflexivity.
Qed.

(** C8: whenever the product array at [data.products] of the decoded
    body is empty, also when the path is missing, [fetch_data] returns
    the empty record sequence with the text "No products found.". *)
Theorem empty_products_message (api_key : string) (data : value) :
  configured w api_key ->
  answers w api_key query sort_code data ->
  no_products data ->
  fst (fetch_data query sort_code w) =
    ([], Some (Text "No products found.")).
Proof.
  intros Hc Ha Hn. rewrite (fetch_data_answered api_key data Hc Ha).
  unfold normalize. rewrite (no_products_resolves data Hn). reflexivity.
Qed.

End Call.

Lemma missing_key_no_request_witness :
  (RAPIDAPI_KEY (serving None VNone) = None \/
   RAPIDAPI_KEY (serving None VNone) = Some "") /\
  fetch_data "history books" "RELEVANCE" (serving None VNone) =
    (([], Some (Text "Missing API key in environment variables.")),
     serving None VNone)
  /\ sent (snd (fetch_data "history books" "RELEVANCE" (serving None VNone)))
     = [].
Proof.
  split; [left; reflexivity |].
  apply (missing_key_no_request "history books" "RELEVANCE"
           (serving None VNone)).
  left; reflexivity.
Defined.

Lemma empty_products_message_witness :
  fst (fetch_data "cookbooks food and wine" "NEWEST"
         (serving (Some "secret") (VDict [("status", VStr "OK")]))) =
    ([], Some (Text "No products found.")).
Proof.
  apply (empty_products_message "cookbooks food and wine" "NEWEST"
           (serving (Some "secret") (VDict [("status", VStr "OK")]))
           "secret" (VDict [("status", VStr "OK")])).
  - split; [reflexivity | discriminate].
  - reflexivity.
  - apply no_data_key. reflexivity.
Defined.

(** ** One item *)

Section Item.

Variable d : list (string * value).

Lemma clean_item_dict :
  clean_item (VDict d) =
  (rating <- rating_of (lookup_or "product_star_rating" d VNone) ;;
   reviews <- reviews_of (lookup_or "product_num_ratings" d VNone) ;;
   fmt <- format_of (lookup_or "product_title" d (VStr "Unknown")) ;;
   Return (row_of d rating reviews fmt)).
Proof. reflexivity. Qed.

Lemma clean_item_returns (rating : float) (reviews : Z) (fmt : string) :
  rating_of (lookup_or "product_star_rating" d VNone) = Return rating ->
  reviews_of (lookup_or "product_num_ratings" d VNone) = Return reviews ->
  format_of (lookup_or "product_title" d (VStr "Unknown")) = Return fmt ->
  clean_item (VDict d) = Return (row_of d rating reviews fmt).
Proof.
  intros H1 H2 H3. rewrite clean_item_dict, H1. simpl. rewrite H2. simpl.
  rewrite H3. reflexivity.
Qed.

Lemma clean_item_returned (r : row) :
  clean_item (VDict d) = Return r ->
  exists rating reviews fmt,
    rating_of (lookup_or "product_star_rating" d VNone) = Return rating /\
    reviews_of (lookup_or "product_num_ratings" d VNone) = Return reviews /\
    format_of (lookup_or "product_title" d (VStr "Unknown")) = Return fmt /\
    r = row_of d rating reviews fmt.
Proof.
  rewrite clean_item_dict.
  destruct (rating_of _) as [rating|] eqn:H1; simpl; [|discriminate].
  destruct (reviews_of _) as [reviews|] eqn:H2; simpl; [|discriminate].
  destruct (format_of _) as [fmt|] eqn:H3; simpl; [|discriminate].
  intros H. injection H as <-. exists rating, reviews, fmt. auto.
Qed.

End Item.

Lemma lookup_without (k k' : string) (d : list (string * value)) :
  lookup k' (without k d) = if k' =? k then None else lookup k' d.
Proof.
  induction d as [|[k0 v0] d IH]; simpl.
  - destruct (k' =? k); reflexivity.
  - destruct (k0 =? k) eqn:E0.
    + apply String.eqb_eq in E0. subst k0. rewrite IH.
      destruct (k' =? k) eqn:E; [reflexivity|].
      rewrite String.eqb_sym, E. reflexivity.
    + simpl. rewrite IH. destruct (k0 =? k') eqn:E1; [|reflexivity].
      apply String.eqb_eq in E1. subst k0. rewrite E0. reflexivity.
Qed.

Lemma lookup_or_without (k k' : string) (d : list (string * value))
  (default : value) :
  lookup_or k' (without k d) default =
  if k' =? k then default else lookup_or k' d default.
Proof.
  unfold lookup_or. rewrite lookup_without. destruct (k' =? k); reflexivity.
Qed.

Lemma falsy_price (v : value) : truthy v = false -> price_of v = zero.
Proof. intros H. unfold price_of. rewrite H. reflexivity. Qed.

Lemma falsy_rating (v : value) :
  truthy v = false -> rating_of v = Return zero.
Proof. intros H. unfold rating_of. rewrite H. reflexivity. Qed.

Lemma falsy_reviews (v : value) :
  truthy v = false -> reviews_of v = Return 0%Z.
Proof. intros H. unfold reviews_of. rewrite H. reflexivity. Qed.

Lemma lookup_or_none (k : string) (d : list (string * value)) (v : value) :
  lookup k d = None -> lookup_or k d v = v.
Proof. intros H. unfold lookup_or. rewrite H. reflexivity. Qed.

Lemma lookup_or_some (k : string) (d : list (string * value)) (v x : value) :
  lookup k d = Some x -> lookup_or k d v = x.
Proof. intros H. unfold lookup_or. rewrite H. reflexivity. Qed.

(** C5: for every item in which the price, rating or review-count field
    is absent, reading that field raises nothing and gives 0.0, 0.0 or
    0; every row produced for the item carries that default; and with
    the three fields absent the item yields a row as soon as its title
    yields a format. *)
Theorem absent_fields_default (d : list (string * value)) :
  (lookup "product_price" d = None ->
   (raw <- get (VDict d) "product_price" VNone ;; Return (price_of raw))
   = Return zero) /\
  (lookup "product_star_rating" d = None ->
   (raw <- get (VDict d) "product_star_rating" VNone ;; rating_of raw)
   = Return zero) /\
  (lookup "product_num_ratings" d = None ->
   (raw <- get (VDict d) "product_num_ratings" VNone ;; reviews_of raw)
   = Return 0%Z) /\
  (forall r, clean_item (VDict d) = Return r ->
     (lookup "product_price" d = None ->
      lookup "Price" r = Some (VFloat zero)) /\
     (lookup "product_star_rating" d = None ->
      lookup "Rating" r = Some (VFloat zero)) /\
     (lookup "product_num_ratings" d = None ->
      lookup "Reviews" r = Some (VInt 0))) /\
  (lookup "product_price" d = None ->
   lookup "product_star_rating" d = None ->
   lookup "product_num_ratings" d = None ->
   forall fmt,
     format_of (lookup_or "product_title" d (VStr "Unknown")) = Return fmt ->
     clean_item (VDict d) = Return (row_of d zero 0 fmt)).
Proof.
  split; [|split; [|split; [|split]]].
  - intros H. simpl. rewrite (lookup_or_none _ _ _ H). reflexivity.
  - intros H. simpl. rewrite (lookup_or_none _ _ _ H). reflexivity.
  - intros H. simpl. rewrite (lookup_or_none _ _ _ H). reflexivity.
  - intros r Hr.
    destruct (clean_item_returned d r Hr) as (x & n & f & Hx & Hn & _ & ->).
    split; [|split]; intros H.
    + unfold row_of. simpl. rewrite (lookup_or_none _ _ _ H). reflexivity.
    + rewrite (lookup_or_none _ _ _ H) in Hx. injection Hx as <-. reflexivity.
    + rewrite (lookup_or_none _ _ _ H) in Hn. injection Hn as <-. reflexivity.
  - intros _ H2 H3 fmt Hf. apply clean_item_returns; [| |exact Hf].
    + rewrite (lookup_or_none _ _ _ H2). reflexivity.
    + rewrite (lookup_or_none _ _ _ H3). reflexivity.
Qed.

(** C10: for every item whose price, rating or review-count field is
    present with a falsy value, the field is read without parsing and
    gives its default, the item is cleaned exactly as the same item
    without that key, and every row produced carries the default in the
    field's column. *)
Theorem falsy_field_as_absent (d : list (string * value)) (k : string)
  (v : value) :
  In k parsed_fields ->
  lookup k d = Some v ->
  truthy v = false ->
  (price_of v = zero /\ rating_of v = Return zero /\
   reviews_of v = Return 0%Z) /\
  clean_item (VDict d) = clean_item (VDict (without k d)) /\
  (forall r, clean_item (VDict d) = Return r ->
             lookup (column k) r = Some (default_of k)).
Proof.
  intros Hk Hv Hf.
  pose proof (falsy_price v Hf) as Hp.
  pose proof (falsy_rating v Hf) as Hr.
  pose proof (falsy_reviews v Hf) as Hn.
  split; [auto|].
  assert (Hd : lookup_or k d VNone = v) by (apply lookup_or_some; exact Hv).
  simpl in Hk. destruct Hk as [<- | [<- | [<- | []]]].
  - split.
    + rewrite !clean_item_dict. unfold row_of.
      rewrite !lookup_or_without. simpl. rewrite Hd, Hp. reflexivity.
    + intros r H.
      destruct (clean_item_returned d r H) as (x & n & f & _ & _ & _ & ->).
      unfold row_of. simpl. rewrite Hd, Hp. reflexivity.
  - split.
    + rewrite !clean_item_dict. unfold row_of.
      rewrite !lookup_or_without. simpl. rewrite Hd, Hr. reflexivity.
    + intros r H.
      destruct (clean_item_returned d r H) as (x & n & f & Hx & _ & _ & ->).
      rewrite Hd, Hr in Hx. injection Hx as <-. reflexivity.
  - split.
    + rewrite !clean_item_dict. unfold row_of.
      rewrite !lookup_or_without. simpl. rewrite Hd, Hn. reflexivity.
    + intros r H.
      destruct (clean_item_returned d r H) as (x & n & f & _ & Hx & _ & ->).
      rewrite Hd, Hn in Hx. injection Hx as <-. reflexivity.
Qed.

Lemma falsy_field_as_absent_witness :
  clean_item (VDict [("product_title", VStr "Dune");
                     ("product_num_ratings", VInt 0)]) =
  clean_item (VDict [("product_title", VStr "Dune")]).
Proof.
  apply (falsy_field_as_absent
           [("product_title", VStr "Dune"); ("product_num_ratings", VInt 0)]
           "product_num_ratings" (VInt 0)).
  - simpl. auto.
  - reflexivity.
  - reflexivity.
Defined.

(** ** Format inference *)

Lemma contains_nil (sub : string) :
  Str.contains sub "" = prefix sub "".
Proof. apply orb_false_r. Qed.

Lemma contains_cons (sub : string) (c : ascii) (r : string) :
  Str.contains sub (String c r) =
  prefix sub (String c r) || Str.contains sub r.
Proof. reflexivity. Qed.

Lemma prefix_app (sub s : string) : prefix sub (sub ++ s) = true.
Proof.
  induction sub as [|c sub IH]; simpl.
  - destruct s; reflexivity.
  - destruct (ascii_dec c c) as [_|N]; [exact IH | contradiction].
Qed.

Lemma prefix_split (sub s : string) :
  prefix sub s = true -> exists after, s = (sub ++ after)%string.
Proof.
  revert s. induction sub as [|c sub IH]; intros s H.
  - exists s. reflexivity.
  - destruct s as [|c' s]; simpl in H; [discriminate|].
    destruct (ascii_dec c c') as [<-|]; [|discriminate].
    destruct (IH s H) as [after ->]. exists after. reflexivity.
Qed.

Lemma contains_occurs (sub s : string) :
  Str.contains sub s = true <-> occurs sub s.
Proof.
  split.
  - induction s as [|c r IH].
    + rewrite contains_nil. intros H.
      destruct (prefix_split _ _ H) as [after E].
      exists "", after. exact E.
    + rewrite contains_cons. intros H.
      apply orb_true_iff in H. destruct H as [H|H].
      * destruct (prefix_split _ _ H) as [after E].
        exists "", after. exact E.
      * destruct (IH H) as (b & a & ->). exists (String c b), a. reflexivity.
  - intros (b & a & ->). induction b as [|c b IH]; simpl append.
    + destruct (sub ++ a)%string eqn:E.
      * rewrite contains_nil, <- E. apply prefix_app.
      * rewrite contains_cons, <- E, prefix_app. reflexivity.
    + rewrite contains_cons, IH. apply orb_true_r.
Qed.

Lemma contains_absent (sub s : string) :
  ~ occurs sub s -> Str.contains sub s = false.
Proof.
  intros H. destruct (Str.contains sub s) eqn:E; [|reflexivity].
  exfalso. apply H, contains_occurs, E.
Qed.

(** C6: for every title string the format is found by substring search,
    exact in case, in the order Paperback, Hardcover, Audiobook: the
    first that occurs wins, and the format is Standard when none occurs;
    so a title in which both Paperback and Hardcover occur is a
    Paperback. *)
Theorem format_first_match (t : string) :
  (occurs "Paperback" t -> format_of (VStr t) = Return "Paperback") /\
  (~ occurs "Paperback" t -> occurs "Hardcover" t ->
   format_of (VStr t) = Return "Hardcover") /\
  (~ occurs "Paperback" t -> ~ occurs "Hardcover" t ->
   occurs "Audiobook" t -> format_of (VStr t) = Return "Audiobook") /\
  (~ occurs "Paperback" t -> ~ occurs "Hardcover" t ->
   ~ occurs "Audiobook" t -> format_of (VStr t) = Return "Standard") /\
  (occurs "Paperback" t -> occurs "Hardcover" t ->
   format_of (VStr t) = Return "Paperback").
Proof.
  unfold format_of, contains.
  split; [|split; [|split; [|split]]].
  - intros P. apply contains_occurs in P. rewrite P. reflexivity.
  - intros P H. apply contains_absent in P. apply contains_occurs in H.
    simpl. rewrite P. simpl. rewrite H. reflexivity.
  - intros P H A. apply contains_absent in P, H. apply contains_occurs in A.
    simpl. rewrite P. simpl. rewrite H. simpl. rewrite A. reflexivity.
  - intros P H A. apply contains_absent in P, H, A.
    simpl. rewrite P. simpl. rewrite H. simpl. rewrite A. reflexivity.
  - intros P _. apply contains_occurs in P. rewrite P. reflexivity.
Qed.

Lemma format_first_match_witness :
  format_of (VStr "Dune: Hardcover and Paperback box set")
  = Return "Paperback".
Proof.
  apply (proj1 (format_first_match "Dune: Hardcover and Paperback box set")).
  exists "Dune: Hardcover and ", " box set". reflexivity.
Defined.

(** The search is exact in case. *)
Example format_case_sensitive :
  format_of (VStr "Dune (paperback)") = Return "Standard".
Proof. reflexivity. Qed.

(** ** The loop over the items *)

Lemma clean_loop_returns (items : list value) (rows : list row) :
  Forall2 cleaned items rows ->
  forall acc, clean_loop acc items = Return (acc ++ rows)%list.
Proof.
  induction 1 as [|item r items rows H _ IH]; intros acc; simpl.
  - rewrite app_nil_r. reflexivity.
  - unfold cleaned in H. rewrite H. simpl. rewrite IH, <- app_assoc.
    reflexivity.
Qed.

Lemma clean_loop_returned (items : list value) :
  forall acc out,
    clean_loop acc items = Return out ->
    exists rows, out = (acc ++ rows)%list /\ Forall2 cleaned items rows.
Proof.
  induction items as [|item items IH]; intros acc out; simpl.
  - intros H. injection H as <-. exists []. rewrite app_nil_r. auto.
  - destruct (clean_item item) as [r|e] eqn:E; simpl; [|discriminate].
    intros H. destruct (IH _ _ H) as (rows & -> & HF).
    exists (r :: rows). rewrite <- app_assoc. split; [reflexivity|].
    constructor; assumption.
Qed.

Lemma clean_loop_raises (items : list value) (item : value) (e : exn) :
  In item items ->
  clean_item item = Raise e ->
  forall acc, exists e', clean_loop acc items = Raise e'.
Proof.
  induction items as [|i items IH]; intros Hin He acc; [destruct Hin|].
  simpl. destruct Hin as [-> | Hin].
  - rewrite He. exists e. reflexivity.
  - destruct (clean_item i) as [r|e0]; simpl.
    + apply IH; assumption.
    + exists e0. reflexivity.
Qed.

Lemma Forall2_length_rows (items : list value) (rows : list row) :
  Forall2 cleaned items rows -> List.length rows = List.length items.
Proof. induction 1; simpl; congruence. Qed.

Lemma normalize_products (data : value) (items : list value) :
  products_at data = Return (VList items) ->
  items <> [] ->
  normalize data = (rows <- clean_loop [] items ;; Return (rows, None)).
Proof.
  intros H Hne. unfold normalize. rewrite H. simpl.
  destruct items; [contradiction|reflexivity].
Qed.

Lemma products_at_body (items : list value) :
  products_at (body items) = Return (VList items).
Proof. reflexivity. Qed.

Section Batch.

Variables (query sort_code : string) (w : world) (api_key : string).
Variables (data : value) (items : list value).
Hypothesis Hconfigured : configured w api_key.
Hypothesis Hanswers : answers w api_key query sort_code data.
Hypothesis Hproducts : products_at data = Return (VList items).

(** When the cleaning of every item completes, the call returns their
    rows, one for each item and in the order of the items, and no
    message. *)
Lemma rows_match_items :
  items <> [] ->
  Forall (fun item => exists r, cleaned item r) items ->
  exists rows,
    fst (fetch_data query sort_code w) = (rows, None) /\
    List.length rows = List.length items /\
    Forall2 cleaned items rows.
Proof.
  intros Hne Hall.
  assert (Hrows : exists rows, Forall2 cleaned items rows).
  { clear Hne Hproducts. induction Hall as [|item l [r Hr] _ [rows IH]].
    - exists []. constructor.
    - exists (r :: rows). constructor; assumption. }
  destruct Hrows as [rows HF]. exists rows.
  rewrite (fetch_data_answered query sort_code w api_key data
             Hconfigured Hanswers).
  rewrite (normalize_products data items Hproducts Hne).
  rewrite (clean_loop_returns items rows HF). simpl.
  split; [reflexivity|]. split; [|exact HF].
  apply Forall2_length_rows. exact HF.
Qed.

(** An item that raises aborts the batch. *)
Lemma raising_item_aborts (item : value) (e : exn) :
  In item items ->
  clean_item item = Raise e ->
  exists cause,
    fst (fetch_data query sort_code w) = ([], Some (ServerError cause)).
Proof.
  intros Hin He.
  rewrite (fetch_data_answered query sort_code w api_key data
             Hconfigured Hanswers).
  assert (Hne : items <> []) by (destruct items; [destruct Hin|discriminate]).
  rewrite (normalize_products data items Hproducts Hne).
  destruct (clean_loop_raises items item e Hin He []) as [e' ->].
  exists e'. reflexivity.
Qed.

End Batch.

Lemma null_title_raises (d : list (string * value)) :
  lookup "product_title" d = Some VNone ->
  exists e, clean_item (VDict d) = Raise e.
Proof.
  intros H. rewrite clean_item_dict.
  destruct (rating_of _) as [x|e]; simpl; [|exists e; reflexivity].
  destruct (reviews_of _) as [n|e]; simpl; [|exists e; reflexivity].
  rewrite (lookup_or_some _ _ _ _ H). exists TypeError. reflexivity.
Qed.

(** C9: for every product list containing an item whose title key is
    present and null, no row is produced for that item: the whole batch
    is aborted and the result is the empty record set with a "Server
    Error: <cause>" message; the title of a row is the value found under
    the key, and "Unknown" only stands in for an absent key. *)
Theorem null_title_aborts_batch (query sort_code : string) (w : world)
  (api_key : string) (data : value) (items : list value)
  (d : list (string * value)) :
  configured w api_key ->
  answers w api_key query sort_code data ->
  products_at data = Return (VList items) ->
  In (VDict d) items ->
  lookup "product_title" d = Some VNone ->
  (exists e, clean_item (VDict d) = Raise e) /\
  (exists cause,
     fst (fetch_data query sort_code w) = ([], Some (ServerError cause)) /\
     forall str_of_exn,
       render str_of_exn (ServerError cause)
       = ("Server Error: " ++ str_of_exn cause)%string) /\
  (forall d' r,
     clean_item (VDict d') = Return r ->
     lookup "Title" r =
     Some (match lookup "product_title" d' with
           | Some title => title
           | None => VStr "Unknown"
           end)).
Proof.
  intros Hc Ha Hp Hin Hnull.
  destruct (null_title_raises d Hnull) as [e He].
  split; [exists e; exact He|]. split.
  - destruct (raising_item_aborts query sort_code w api_key data items
                Hc Ha Hp (VDict d) e Hin He) as [cause H].
    exists cause. split; [exact H|]. intros f. reflexivity.
  - intros d' r H.
    destruct (clean_item_returned d' r H) as (x & n & f & _ & _ & _ & ->).
    reflexivity.
Qed.

Lemma null_title_aborts_batch_witness :
  exists cause,
    fst (fetch_data "history books" "RELEVANCE"
           (serving (Some "secret") (body [clean_code_item; untitled_item])))
    = ([], Some (ServerError cause)).
Proof.
  destruct (null_title_aborts_batch "history books" "RELEVANCE"
              (serving (Some "secret")
                       (body [clean_code_item; untitled_item]))
              "secret" (body [clean_code_item; untitled_item])
              [clean_code_item; untitled_item]
              [("product_title", VNone); ("product_price", VStr "$9.99")])
    as (_ & (cause & H & _) & _).
  - split; [reflexivity | discriminate].
  - reflexivity.
  - reflexivity.
  - right. left. reflexivity.
  - reflexivity.
  - exists cause. exact H.
Defined.

(** ** Text lemmas *)

Section TextLemmas.

Lemma filter_app (p : ascii -> bool) (a b : string) :
  Str.filter p (a ++ b) = (Str.filter p a ++ Str.filter p b)%string.
Proof.
  induction a as [|c a IH]; simpl; [reflexivity|].
  destruct (p c); simpl; rewrite IH; reflexivity.
Qed.

Lemma forallb_app (p : ascii -> bool) (a b : string) :
  Str.forallb p (a ++ b) = Str.forallb p a && Str.forallb p b.
Proof.
  induction a as [|c a IH]; simpl; [reflexivity|].
  rewrite IH, andb_assoc. reflexivity.
Qed.

Lemma forallb_impl (p q : ascii -> bool) (s : string) :
  (forall c, p c = true -> q c = true) ->
  Str.forallb p s = true -> Str.forallb q s = true.
Proof.
  intros H. induction s as [|c s IH]; simpl; [reflexivity|].
  intros E. apply andb_true_iff in E. destruct E as [E1 E2].
  rewrite (H c E1), (IH E2). reflexivity.
Qed.

Lemma forallb_filter (p : ascii -> bool) (s : string) :
  Str.forallb p (Str.filter p s) = true.
Proof.
  induction s as [|c s IH]; simpl; [reflexivity|].
  destruct (p c) eqn:E; simpl; rewrite ?E; exact IH.
Qed.

Lemma filter_all (p : ascii -> bool) (s : string) :
  Str.forallb p s = true -> Str.filter p s = s.
Proof.
  induction s as [|c s IH]; simpl; [reflexivity|].
  intros E. apply andb_true_iff in E. destruct E as [E1 E2].
  rewrite E1, (IH E2). reflexivity.
Qed.

Lemma filter_agree (p q : ascii -> bool) (s : string) :
  (forall c, p c = true -> q c = true) ->
  Str.filter q (Str.filter p s) = Str.filter p s.
Proof.
  intros H. apply filter_all. apply (forallb_impl p q); [exact H|].
  apply forallb_filter.
Qed.

Lemma append_nil_r (s : string) : (s ++ "")%string = s.
Proof. induction s as [|c s IH]; simpl; [|rewrite IH]; reflexivity. Qed.

Lemma append_assoc (a b c : string) :
  ((a ++ b) ++ c)%string = (a ++ b ++ c)%string.
Proof. induction a as [|x a IH]; simpl; [|rewrite IH]; reflexivity. Qed.

Lemma length_append (a b : string) :
  length (a ++ b) = (length a + length b)%nat.
Proof. induction a as [|x a IH]; simpl; [|rewrite IH]; reflexivity. Qed.

Lemma prefix_empty (s : string) : prefix "" s = true.
Proof. destruct s; reflexivity. Qed.

(** Removing a character is a filter. *)
Lemma replace_char (a : ascii) (s : string) :
  Str.replace (String a "") "" s = Str.filter (other_than a) s.
Proof.
  unfold Str.replace. induction s as [|c s IH]; [reflexivity|].
  unfold other_than in *. cbn [Str.replace_from Str.filter prefix].
  destruct (ascii_dec a c) as [<-|N].
  - rewrite Ascii.eqb_refl, prefix_empty. simpl. exact IH.
  - assert (E : (c =? a)%char = false)
      by (apply Ascii.eqb_neq; intros ->; apply N; reflexivity).
    rewrite E. simpl. rewrite IH. reflexivity.
Qed.

(** A run of characters that cannot start [old] is copied. *)
Lemma replace_from_copy (a : ascii) (old' new p rest : string) :
  Str.forallb (other_than a) p = true ->
  Str.replace_from (String a old') new 0 (p ++ rest) =
  (p ++ Str.replace_from (String a old') new 0 rest)%string.
Proof.
  induction p as [|c p IH]; simpl; [reflexivity|].
  intros E. apply andb_true_iff in E. destruct E as [E1 E2].
  destruct (ascii_dec a c) as [<-|N].
  - unfold other_than in E1. rewrite Ascii.eqb_refl in E1. discriminate.
  - rewrite (IH E2). reflexivity.
Qed.

Lemma replace_absent (a : ascii) (old' new p : string) :
  Str.forallb (other_than a) p = true ->
  Str.replace (String a old') new p = p.
Proof.
  intros E. unfold Str.replace.
  rewrite <- (append_nil_r p) at 1. rewrite (replace_from_copy _ _ _ _ _ E).
  simpl. apply append_nil_r.
Qed.

(** A run of characters that cannot start [sep] stays in the first
    piece. *)
Lemma split_from_copy (a : ascii) (sep' p rest : string) :
  Str.forallb (other_than a) p = true ->
  fst (Str.split_from (String a sep') 0 (p ++ rest)) =
  (p ++ fst (Str.split_from (String a sep') 0 rest))%string.
Proof.
  induction p as [|c p IH]; simpl; [reflexivity|].
  intros E. apply andb_true_iff in E. destruct E as [E1 E2].
  destruct (ascii_dec a c) as [<-|N].
  - unfold other_than in E1. rewrite Ascii.eqb_refl in E1. discriminate.
  - specialize (IH E2).
    destruct (Str.split_from (String a sep') 0 (p ++ rest)) as [q ps].
    simpl in *. rewrite IH. reflexivity.
Qed.

Lemma split_head (sep s : string) :
  hd EmptyString (Str.split sep s) = fst (Str.split_from sep 0 s).
Proof.
  unfold Str.split. destruct (Str.split_from sep 0 s); reflexivity.
Qed.

Lemma rev_onto_twice (s a b : string) :
  Str.rev_onto a (Str.rev_onto b s) = Str.rev_onto (s ++ a) b.
Proof.
  revert a b. induction s as [|c s IH]; intros a b; simpl; [reflexivity|].
  rewrite IH. reflexivity.
Qed.

Lemma rev_rev (s : string) : Str.rev (Str.rev s) = s.
Proof.
  unfold Str.rev. rewrite rev_onto_twice. simpl. apply append_nil_r.
Qed.

Lemma forallb_rev_onto (p : ascii -> bool) (s acc : string) :
  Str.forallb p (Str.rev_onto acc s) = Str.forallb p s && Str.forallb p acc.
Proof.
  revert acc. induction s as [|c s IH]; intros acc; simpl; [reflexivity|].
  rewrite IH. simpl. rewrite !andb_assoc. f_equal. apply andb_comm.
Qed.

Lemma drop_while_none (p : ascii -> bool) (s : string) :
  Str.forallb (fun c => negb (p c)) s = true -> Str.drop_while p s = s.
Proof.
  destruct s as [|c s]; simpl; [reflexivity|].
  intros E. apply andb_true_iff in E. destruct E as [E _].
  apply negb_true_iff in E. rewrite E. reflexivity.
Qed.

Lemma strip_none (s : string) :
  Str.forallb (fun c => negb (Str.is_space c)) s = true -> Str.strip s = s.
Proof.
  intros E. unfold Str.strip. rewrite (drop_while_none _ _ E).
  rewrite drop_while_none; [apply rev_rev|].
  unfold Str.rev. rewrite forallb_rev_onto, E. reflexivity.
Qed.

Lemma span_digits (ds rest : string) :
  Str.forallb Str.is_digit ds = true ->
  match rest with
  | EmptyString => True
  | String c _ => Str.is_digit c = false
  end ->
  Str.span Str.is_digit (ds ++ rest) = (ds, rest).
Proof.
  intros E R. induction ds as [|c ds IH]; simpl.
  - destruct rest as [|c r]; [reflexivity|]. simpl. rewrite R. reflexivity.
  - simpl in E. apply andb_true_iff in E. destruct E as [E1 E2].
    rewrite E1, (IH E2). reflexivity.
Qed.

Lemma underscores_ok_none (s : string) :
  forall prev,
    Num.not_underscore prev = true ->
    Str.forallb Num.not_underscore s = true ->
    Num.underscores_ok prev s = true.
Proof.
  unfold Num.not_underscore.
  induction s as [|c s IH]; intros prev P E; simpl.
  - exact P.
  - simpl in E. apply andb_true_iff in E. destruct E as [E1 E2].
    rewrite (IH c E1 E2), andb_true_r.
    apply negb_true_iff in E1. rewrite E1, P. reflexivity.
Qed.

End TextLemmas.

(** ** Prices *)

Ltac by_character c :=
  destruct c as [[] [] [] [] [] [] [] []];
  vm_compute; intros; try discriminate; try reflexivity.

Lemma grouping_not_dollar (c : ascii) :
  is_grouping c = true -> other_than "$" c = true.
Proof. by_character c. Qed.

Lemma plain_not_dollar (c : ascii) :
  is_plain c = true -> other_than "$" c = true.
Proof. by_character c. Qed.

Lemma plain_not_comma (c : ascii) :
  is_plain c = true -> other_than "," c = true.
Proof. by_character c. Qed.

Lemma plain_not_f (c : ascii) :
  is_plain c = true -> other_than "f" c = true.
Proof. by_character c. Qed.

Lemma plain_not_blank (c : ascii) :
  is_plain c = true -> other_than " " c = true.
Proof. by_character c. Qed.

Lemma plain_not_underscore (c : ascii) :
  is_plain c = true -> Num.not_underscore c = true.
Proof. by_character c. Qed.

Lemma plain_not_space (c : ascii) :
  is_plain c = true -> negb (Str.is_space c) = true.
Proof. by_character c. Qed.

Lemma digit_plain (c : ascii) : Str.is_digit c = true -> is_plain c = true.
Proof. by_character c. Qed.

Lemma grouping_comma_or_digit (c : ascii) :
  is_grouping c = true -> other_than "," c = Str.is_digit c.
Proof. by_character c. Qed.

Lemma plain_ascii (c : ascii) : is_plain c = true -> Str.is_ascii c = true.
Proof. by_character c. Qed.

Lemma digit_ascii (c : ascii) :
  Str.is_digit c = true -> Str.is_ascii c = true.
Proof. by_character c. Qed.

(** A text of ASCII characters is read as it is. *)
Lemma to_ascii_plain (s : string) :
  Str.forallb Str.is_ascii s = true -> Num.to_ascii s = s.
Proof. intros H. unfold Num.to_ascii. rewrite H. reflexivity. Qed.

Lemma sign_plain (s : string) :
  Str.forallb is_plain s = true -> Str.sign s = (false, s).
Proof.
  destruct s as [|c s]; [reflexivity|]. simpl. intros E.
  apply andb_true_iff in E. destruct E as [E _]. revert E.
  by_character c.
Qed.

Section Amount.

Variables (ip : string) (frac : option string).
Hypothesis Hwf : well_formed_amount ip frac.

Lemma fraction_text_plain : Str.forallb is_plain (fraction_text frac) = true.
Proof.
  destruct Hwf as (_ & H & _). destruct frac as [fd|]; [|reflexivity].
  simpl in *. apply (forallb_impl Str.is_digit); [apply digit_plain|exact H].
Qed.

Lemma plain_text_plain : Str.forallb is_plain (plain_text ip frac) = true.
Proof.
  unfold plain_text. rewrite forallb_app, fraction_text_plain, andb_true_r.
  apply (forallb_impl Str.is_digit); [apply digit_plain|].
  apply forallb_filter.
Qed.

Lemma ungroup : Str.filter (other_than ",") ip = Str.filter Str.is_digit ip.
Proof.
  destruct Hwf as (H & _). clear Hwf. induction ip as [|c s IH]; [reflexivity|].
  simpl in *. apply andb_true_iff in H. destruct H as [H1 H2].
  rewrite (grouping_comma_or_digit c H1), (IH H2). reflexivity.
Qed.

Lemma amount_without_signs :
  Str.filter (other_than ",") (Str.filter (other_than "$") (amount_text ip frac))
  = plain_text ip frac.
Proof.
  unfold amount_text, plain_text.
  rewrite (filter_all (other_than "$")).
  - rewrite filter_app, ungroup. f_equal. apply filter_all.
    apply (forallb_impl is_plain); [apply plain_not_comma|].
    apply fraction_text_plain.
  - rewrite forallb_app. apply andb_true_iff. split.
    + apply (forallb_impl is_grouping); [apply grouping_not_dollar|].
      apply Hwf.
    + apply (forallb_impl is_plain); [apply plain_not_dollar|].
      apply fraction_text_plain.
Qed.

(** What is left of "$X" is X without its separators. *)
Lemma clean_str_dollar :
  clean_str ("$" ++ amount_text ip frac) = plain_text ip frac.
Proof.
  unfold clean_str. rewrite !replace_char.
  change (Str.filter (other_than "$") ("$" ++ amount_text ip frac))
    with (Str.filter (other_than "$") (amount_text ip frac)).
  rewrite amount_without_signs.
  rewrite replace_absent
    by (apply (forallb_impl is_plain); [apply plain_not_f|];
        apply plain_text_plain).
  rewrite split_head. rewrite <- (append_nil_r (plain_text ip frac)) at 1.
  rewrite split_from_copy
    by (apply (forallb_impl is_plain); [apply plain_not_blank|];
        apply plain_text_plain).
  simpl. apply append_nil_r.
Qed.

(** What is left of "from $X - $Y" is X without its separators, whatever
    Y is. *)
Lemma clean_str_range (y : string) :
  clean_str ("from $" ++ amount_text ip frac ++ " - $" ++ y)
  = plain_text ip frac.
Proof.
  unfold clean_str. rewrite !replace_char.
  simpl Str.filter.
  rewrite (filter_app _ (amount_text ip frac)).
  simpl Str.filter.
  rewrite (filter_app _ (Str.filter (other_than "$") (amount_text ip frac))).
  rewrite amount_without_signs. simpl Str.filter.
  unfold Str.replace.
  cbn [Str.replace_from prefix length pred].
  simpl ascii_dec. cbn iota. rewrite prefix_empty. cbn [append].
  rewrite replace_from_copy
    by (apply (forallb_impl is_plain); [apply plain_not_f|];
        apply plain_text_plain).
  set (z := Str.filter (other_than ",") (Str.filter (other_than "$") y)).
  change (String " " (String "-" (String " " z))) with (" - " ++ z)%string.
  rewrite (replace_from_copy "f" "rom " "" " - " z) by reflexivity.
  rewrite split_head, split_from_copy
    by (apply (forallb_impl is_plain); [apply plain_not_blank|];
        apply plain_text_plain).
  cbn [append Str.split_from prefix]. simpl ascii_dec. cbn iota.
  rewrite prefix_empty. simpl. apply append_nil_r.
Qed.


Lemma decimal_plain :
  Num.decimal (plain_text ip frac) =
  Some (Str.digits_value
          (Str.filter Str.is_digit ip ++ fraction_digits frac),
        (- Z.of_nat (length (fraction_digits frac)))%Z,
        EmptyString).
Proof.
  destruct Hwf as (_ & Hfd & Hne).
  unfold Num.decimal, plain_text.
  rewrite span_digits.
  - destruct frac as [fd|]; simpl fraction_text; simpl fraction_digits in *.
    + rewrite <- (append_nil_r fd) at 1. rewrite (span_digits fd "" Hfd I).
      destruct (Str.filter Str.is_digit ip ++ fd)%string eqn:E;
        [contradiction|]. reflexivity.
    + cbv beta iota zeta.
      destruct (Str.filter Str.is_digit ip ++ "")%string eqn:E;
        [contradiction|]. reflexivity.
  - apply forallb_filter.
  - destruct frac; [reflexivity|exact I].
Qed.

(** The cleaned text reads as the amount. *)
Lemma float_of_plain :
  Num.float_of_string (plain_text ip frac) = Some (amount_value ip frac).
Proof.
  unfold Num.float_of_string.
  rewrite to_ascii_plain
    by (apply (forallb_impl is_plain); [apply plain_ascii|];
        apply plain_text_plain).
  cbv zeta.
  rewrite underscores_ok_none;
    [| reflexivity
     | apply (forallb_impl is_plain); [apply plain_not_underscore|];
       apply plain_text_plain ].
  rewrite filter_all
    by (apply (forallb_impl is_plain); [apply plain_not_underscore|];
        apply plain_text_plain).
  rewrite strip_none
    by (apply (forallb_impl is_plain); [apply plain_not_space|];
        apply plain_text_plain).
  rewrite (sign_plain _ plain_text_plain), decimal_plain. reflexivity.
Qed.

End Amount.

(** ** Rounding to the nearest double *)

Section Rounding.

Local Open Scope Z_scope.

Lemma digits2_pos_size (p : positive) : digits2_pos p = Pos.size p.
Proof. induction p; simpl; congruence. Qed.

Lemma digits2_pos_bounds (p : positive) :
  2 ^ (Zpos (digits2_pos p) - 1) <= Zpos p < 2 ^ Zpos (digits2_pos p).
Proof.
  rewrite digits2_pos_size.
  pose proof (Pos.size_gt p) as H1. pose proof (Pos.size_le p) as H2.
  split.
  - apply Pos2Z.pos_le_pos in H2. rewrite Pos2Z.inj_pow in H2.
    replace (Zpos (Pos.size p)) with (Z.succ (Zpos (Pos.size p) - 1)) in H2 by lia.
    rewrite Z.pow_succ_r in H2 by lia. lia.
  - apply Pos2Z.pos_lt_pos in H1. rewrite Pos2Z.inj_pow in H1. exact H1.
Qed.

Lemma Zdigits2_unique (p : positive) (d : Z) :
  2 ^ (d - 1) <= Zpos p < 2 ^ d -> Zpos (digits2_pos p) = d.
Proof.
  intros [H1 H2]. destruct (digits2_pos_bounds p) as [B1 B2].
  set (D := Zpos (digits2_pos p)) in *.
  assert (0 < d).
  { destruct (Z.lt_trichotomy d 0) as [L|[E|G]]; [| |exact G].
    - rewrite (Z.pow_neg_r 2 d L) in H2. lia.
    - subst d. simpl in H2. lia. }
  destruct (Z.lt_trichotomy D d) as [L|[E|G]]; [|exact E|].
  - assert (2 ^ D <= 2 ^ (d - 1)) by (apply Z.pow_le_mono_r; lia). lia.
  - assert (2 ^ d <= 2 ^ (D - 1)) by (apply Z.pow_le_mono_r; lia). lia.
Qed.

Lemma pow52 : 2 ^ 52 = 4503599627370496. Proof. reflexivity. Qed.
Lemma pow53 : 2 ^ 53 = 9007199254740992. Proof. reflexivity. Qed.
Lemma pow54 : 2 ^ 54 = 18014398509481984. Proof. reflexivity. Qed.

Lemma record_value (m : Z) (l : location) :
  shr_m (shr_record_of_loc m l) = m /\
  loc_of_shr_record (shr_record_of_loc m l) = l.
Proof. destruct l as [|[]]; split; reflexivity. Qed.

Ltac order :=
  repeat match goal with
  | H : (?a ?= ?b) = Lt |- _ => change (a < b) in H
  | H : (_ ?= _) = Eq |- _ => apply Z.compare_eq_iff in H
  | H : (?a ?= ?b) = Gt |- _ => change (a > b) in H
  | |- (?a ?= ?b) = Lt => change (a < b)
  | |- (_ ?= _) = Eq => apply Z.compare_eq_iff
  | |- (?a ?= ?b) = Gt => change (a > b)
  end.

Lemma located_bounds (N D m : Z) (l : location) :
  located N D m l -> 0 < D -> m * D <= N < (m + 1) * D.
Proof. destruct l; simpl; intros H HD. - subst N. lia.  - lia. Qed.

Lemma located_new_location (d q r : Z) :
  0 < d -> 0 <= r < d -> located (q * d + r) d q (new_location d r).
Proof.
  intros Hd Hr. unfold new_location.
  destruct (Z.even d) eqn:Ev;
    unfold new_location_even, new_location_odd;
    (destruct (Z.eqb_spec r 0) as [->|Hr0]; [cbn [located]; lia|]);
    cbn [located]; (split; [lia|]);
    replace (2 * (q * d + r)) with (2 * q * d + 2 * r) by ring;
    replace ((2 * q + 1) * d) with (2 * q * d + d) by ring;
    rewrite Z.add_compare_mono_l.
  - reflexivity.
  - assert (Ho : Z.odd d = true) by (rewrite <- Z.negb_even, Ev; reflexivity).
    apply Z.odd_spec in Ho. destruct Ho as [h Ho].
    destruct (Z.compare_spec (2 * r + 1) d); order; lia.
Qed.

Lemma located_scale (N D m c : Z) (l : location) :
  0 < c -> located N D m l -> located (N * c) (D * c) m l.
Proof.
  intros Hc. destruct l as [|cmp]; cbn [located].
  - intros ->. ring.
  - intros [[H1 H1'] H2].
    apply (Z.mul_lt_mono_pos_r c) in H1, H1'; try exact Hc.
    split; [lia|].
    destruct cmp; order; nia.
Qed.

Lemma located_shr_1 (N D : Z) (mrs : shr_record) :
  0 < D -> 0 <= shr_m mrs ->
  located N D (shr_m mrs) (loc_of_shr_record mrs) ->
  located N (2 * D) (shr_m (shr_1 mrs)) (loc_of_shr_record (shr_1 mrs)) /\
  shr_m (shr_1 mrs) = shr_m mrs / 2.
Proof.
  intros HD Hm H. destruct mrs as [m r s]. cbn [shr_m] in *.
  destruct m as [|[p|p|]|]; [| | | |lia];
    destruct r, s; cbn [shr_1 orb shr_m loc_of_shr_record located] in *;
    try change (Zpos p~1) with (2 * Zpos p + 1) in *;
    try change (Zpos p~0) with (2 * Zpos p) in *;
    (split;
     [ try match type of H with _ /\ _ => destruct H as [? ?] end;
       first [split | idtac]; order; lia
     | first [ reflexivity
             | apply Z.div_unique with (r := 1); lia
             | apply Z.div_unique with (r := 0); lia ] ]).
Qed.

Lemma pow2_xI (p : positive) :
  2 ^ Zpos p~1 = 2 ^ Zpos p * (2 ^ Zpos p * 2).
Proof.
  change (Zpos p~1) with (2 * Zpos p + 1).
  replace (2 * Zpos p + 1) with (Zpos p + (Zpos p + 1)) by lia.
  rewrite !Z.pow_add_r by lia. reflexivity.
Qed.

Lemma pow2_xO (p : positive) : 2 ^ Zpos p~0 = 2 ^ Zpos p * 2 ^ Zpos p.
Proof.
  change (Zpos p~0) with (2 * Zpos p).
  replace (2 * Zpos p) with (Zpos p + Zpos p) by lia.
  rewrite Z.pow_add_r by lia. reflexivity.
Qed.

Lemma located_iter (N : Z) (p : positive) :
  forall (D : Z) (mrs : shr_record),
    0 < D -> 0 <= shr_m mrs ->
    located N D (shr_m mrs) (loc_of_shr_record mrs) ->
    located N (2 ^ Zpos p * D) (shr_m (iter_pos shr_1 p mrs))
      (loc_of_shr_record (iter_pos shr_1 p mrs)) /\
    shr_m (iter_pos shr_1 p mrs) = shr_m mrs / 2 ^ Zpos p.
Proof.
  induction p as [p IH|p IH|]; intros D mrs HD Hm H; cbn [iter_pos].
  - assert (HP : 0 < 2 ^ Zpos p) by (apply Z.pow_pos_nonneg; lia).
    destruct (located_shr_1 N D mrs HD Hm H) as [H1 E1].
    assert (Hm1 : 0 <= shr_m (shr_1 mrs))
      by (rewrite E1; apply Z.div_pos; lia).
    destruct (IH (2 * D) _ ltac:(lia) Hm1 H1) as [H2 E2].
    assert (Hm2 : 0 <= shr_m (iter_pos shr_1 p (shr_1 mrs)))
      by (rewrite E2; apply Z.div_pos; lia).
    destruct (IH (2 ^ Zpos p * (2 * D)) _ ltac:(nia) Hm2 H2) as [H3 E3].
    rewrite pow2_xI.
    replace (2 ^ Zpos p * (2 ^ Zpos p * 2) * D)
      with (2 ^ Zpos p * (2 ^ Zpos p * (2 * D))) by ring.
    split; [exact H3|]. rewrite E3, E2, E1.
    rewrite !Z.div_div by lia. f_equal. ring.
  - assert (HP : 0 < 2 ^ Zpos p) by (apply Z.pow_pos_nonneg; lia).
    destruct (IH D _ HD Hm H) as [H2 E2].
    assert (Hm2 : 0 <= shr_m (iter_pos shr_1 p mrs))
      by (rewrite E2; apply Z.div_pos; lia).
    destruct (IH (2 ^ Zpos p * D) _ ltac:(nia) Hm2 H2) as [H3 E3].
    rewrite pow2_xO.
    replace (2 ^ Zpos p * 2 ^ Zpos p * D)
      with (2 ^ Zpos p * (2 ^ Zpos p * D)) by ring.
    split; [exact H3|]. rewrite E3, E2.
    rewrite Z.div_div by lia. reflexivity.
  - change (2 ^ 1) with 2. apply located_shr_1; assumption.
Qed.

Lemma fexp_eq (e : Z) : fexp prec emax e = Z.max (e - 53) (-1074).
Proof. reflexivity. Qed.

Lemma Zdigits2_bounds (m : Z) :
  0 < m -> 2 ^ (Zdigits2 m - 1) <= m < 2 ^ Zdigits2 m.
Proof.
  destruct m as [|p|p]; try lia. intros _. apply digits2_pos_bounds.
Qed.

Lemma Zdigits2_nonneg (m : Z) : 0 <= Zdigits2 m.
Proof. destruct m; simpl; lia. Qed.

Lemma Zdigits2_le (m d : Z) : 0 <= m < 2 ^ d -> 0 <= d -> Zdigits2 m <= d.
Proof.
  intros [H0 H] Hd. destruct (Z.eq_dec m 0) as [->|Hm]; [simpl; lia|].
  destruct (Zdigits2_bounds m ltac:(lia)) as [B _].
  destruct (Z.le_gt_cases (Zdigits2 m) d) as [L|G]; [exact L|].
  assert (2 ^ d <= 2 ^ (Zdigits2 m - 1)) by (apply Z.pow_le_mono_r; lia).
  lia.
Qed.

Lemma Zdigits2_ge (m d : Z) : 2 ^ (d - 1) <= m -> 0 < d -> d <= Zdigits2 m.
Proof.
  intros H Hd.
  assert (0 < 2 ^ (d - 1)) by (apply Z.pow_pos_nonneg; lia).
  destruct (Zdigits2_bounds m ltac:(lia)) as [_ B].
  destruct (Z.le_gt_cases d (Zdigits2 m)) as [L|G]; [exact L|].
  assert (2 ^ Zdigits2 m <= 2 ^ (d - 1))
    by (apply Z.pow_le_mono_r; lia).
  lia.
Qed.

(** The first shift of the rounding brings the mantissa to 53 bits, or
    leaves a shorter one at the least exponent. *)
Lemma shr_fexp_located (N den mx ex : Z) (lx : location) :
  0 < den -> 0 <= mx -> -1074 <= ex ->
  ex <= fexp prec emax (Zdigits2 mx + ex) ->
  located N (den * 2 ^ (ex + 1074)) mx lx ->
  exists mrs e1,
    shr_fexp prec emax mx ex lx = (mrs, e1) /\
    -1074 <= e1 /\
    located N (den * 2 ^ (e1 + 1074)) (shr_m mrs) (loc_of_shr_record mrs) /\
    (2 ^ 52 <= shr_m mrs < 2 ^ 53 \/
     (e1 = -1074 /\ 0 <= shr_m mrs < 2 ^ 52)).
Proof.
  intros Hden Hmx Hex Hpre Hloc. unfold shr_fexp.
  rewrite fexp_eq in *. set (d := Zdigits2 mx) in *.
  pose proof (Zdigits2_nonneg mx) as Hd. fold d in Hd.
  destruct (record_value mx lx) as [Rm Rl].
  set (r0 := shr_record_of_loc mx lx) in *.
  destruct (Z.max (d + ex - 53) (-1074) - ex) as [|p|p] eqn:En;
    cbn [shr]; [| |lia].
  - exists r0, ex. split; [reflexivity|]. split; [exact Hex|].
    rewrite Rm, Rl. split; [exact Hloc|].
    destruct (Z.eq_dec d 53) as [E|E].
    + left. destruct (Z.eq_dec mx 0) as [E0|N0];
        [unfold d in E; rewrite E0 in E; discriminate E|].
      destruct (Zdigits2_bounds mx ltac:(lia)) as [B1 B2]. fold d in B1, B2.
      rewrite E in B1, B2. exact (conj B1 B2).
    + right. split; [lia|]. split; [exact Hmx|].
      destruct (Z.eq_dec mx 0) as [E0|N0]; [rewrite E0; reflexivity|].
      destruct (Zdigits2_bounds mx ltac:(lia)) as [_ B2]. fold d in B2.
      assert (2 ^ d <= 2 ^ 52) by (apply Z.pow_le_mono_r; lia). lia.
  - assert (Ed : d = 53 + Zpos p) by lia.
    assert (Hpos : 0 < mx).
    { destruct (Z.eq_dec mx 0) as [E0|N0]; [|lia].
      unfold d in Ed. rewrite E0 in Ed. simpl in Ed. lia. }
    destruct (Zdigits2_bounds mx Hpos) as [B1 B2]. fold d in B1, B2.
    assert (HP : 0 < 2 ^ Zpos p) by (apply Z.pow_pos_nonneg; lia).
    assert (HD : 0 < den * 2 ^ (ex + 1074)).
    { apply Z.mul_pos_pos; [exact Hden|]. apply Z.pow_pos_nonneg; lia. }
    destruct (located_iter N p (den * 2 ^ (ex + 1074)) r0 HD
                ltac:(rewrite Rm; exact Hmx)
                ltac:(rewrite Rm, Rl; exact Hloc)) as [H1 E1].
    exists (iter_pos shr_1 p r0), (ex + Zpos p).
    split; [reflexivity|]. split; [lia|]. split.
    + replace (den * 2 ^ (ex + Zpos p + 1074))
        with (2 ^ Zpos p * (den * 2 ^ (ex + 1074))); [exact H1|].
      replace (ex + Zpos p + 1074) with (ex + 1074 + Zpos p) by lia.
      rewrite (Z.pow_add_r 2 (ex + 1074) (Zpos p)) by lia. ring.
    + left. rewrite E1, Rm.
      replace (d - 1) with (52 + Zpos p) in B1 by lia.
      rewrite Ed in B2. rewrite Z.pow_add_r in B1, B2 by lia.
      split.
      * apply Z.div_le_lower_bound; lia.
      * apply Z.div_lt_upper_bound; lia.
Qed.

(** Rounding to nearest, ties to even, of a located number. *)
Lemma round_located (N D m : Z) (l : location) :
  0 < D -> located N D m l ->
  (round_nearest_even m l = m /\ 2 * N <= (2 * m + 1) * D /\
   (2 * N = (2 * m + 1) * D -> Z.even m = true)) \/
  (round_nearest_even m l = m + 1 /\ (2 * m + 1) * D <= 2 * N /\
   (2 * N = (2 * m + 1) * D -> Z.even (m + 1) = true)).
Proof.
  intros HD H. destruct l as [|[]]; cbn [located round_nearest_even] in *.
  - left. subst N. split; [reflexivity|]. split; lia.
  - destruct H as [H1 H2]. order.
    destruct (Z.even m) eqn:Ev.
    + left. split; [reflexivity|]. split; [lia|]. intros _. reflexivity.
    + right. split; [reflexivity|]. split; [lia|]. intros _.
      rewrite Z.add_1_r, Z.even_succ, <- Z.negb_even, Ev. reflexivity.
  - destruct H as [H1 H2]. order. left. split; [reflexivity|]. split; lia.
  - destruct H as [H1 H2]. order. right. split; [reflexivity|]. split; lia.
Qed.

(** The second shift of the rounding: a mantissa of 53 bits or fewer is
    kept, 2^53 is halved, and an exponent above 971 gives an infinity. *)
Lemma round_result (sx : bool) (m2 e1 : Z) :
  -1074 <= e1 ->
  2 ^ 52 <= m2 <= 2 ^ 53 \/ (e1 = -1074 /\ 0 <= m2 <= 2 ^ 52) ->
  exists f,
    (let '(mrs, e2) := shr_fexp prec emax m2 e1 loc_Exact in
     match shr_m mrs with
     | Z0 => S754_zero sx
     | Zpos m => if Z.leb e2 (emax - prec) then S754_finite sx m e2
                 else S754_infinity sx
     | Zneg _ => S754_nan
     end) = f /\
    sign_of f = Some sx /\ is_double f /\
    ((finite f = true /\ magnitude f = m2 * 2 ^ (e1 + 1074) /\
      (Z.even m2 = true -> Z.even (mantissa f) = true) /\
      ((e1 <= 971 /\ m2 < 2 ^ 53) \/ e1 <= 970)) \/
     (f = S754_infinity sx /\ (972 <= e1 \/ (e1 = 971 /\ m2 = 2 ^ 53)))).
Proof.
  intros He Hm. rewrite pow52, pow53 in Hm.
  destruct m2 as [|mp|mp]; [| |lia].
  - (* zero *)
    assert (E : e1 = -1074) by lia. subst e1. eexists. split; [reflexivity|].
    split; [reflexivity|]. split; [reflexivity|]. left.
    split; [reflexivity|]. split; [reflexivity|]. split; [reflexivity|].
    right. lia.
  - unfold shr_fexp. rewrite fexp_eq. cbn [Zdigits2].
    destruct (Z.eq_dec (Zpos mp) 9007199254740992) as [E|N].
    + (* 2^53 is halved *)
      injection E as ->. cbn [digits2_pos Pos.succ].
      replace (Z.max (54 + e1 - 53) (-1074) - e1) with 1 by lia.
      cbn [shr iter_pos shr_record_of_loc shr_1 orb shr_m].
      change (emax - prec) with 971.
      destruct (Z.leb_spec (e1 + 1) 971) as [L|G]; eexists;
        (split; [reflexivity|]); (split; [reflexivity|]).
      * split.
        { unfold is_double, valid_binary, bounded, canonical_mantissa.
          rewrite fexp_eq. cbn [digits2_pos Pos.succ].
          change (emax - prec) with 971.
          apply andb_true_iff. split; [apply Z.eqb_eq | apply Z.leb_le]; lia. }
        left. split; [reflexivity|]. split.
        { cbn [magnitude].
          replace (e1 + 1 + 1074) with (e1 + 1074 + 1) by lia.
          rewrite Z.pow_add_r by lia. change (2 ^ 1) with 2. lia. }
        split; [intros _; reflexivity|]. right. lia.
      * split; [reflexivity|]. right. split; [reflexivity|].
        rewrite pow53. lia.
    + (* at most 53 bits: kept *)
      set (d := Zpos (digits2_pos mp)).
      assert (Hd : Z.max (d + e1 - 53) (-1074) = e1).
      { destruct (Z.le_gt_cases 4503599627370496 (Zpos mp)) as [L|G].
        - assert (d = 53).
          { apply Zdigits2_unique. rewrite pow53.
            change (2 ^ (53 - 1)) with 4503599627370496. lia. }
          lia.
        - assert (d <= 53).
          { apply (Zdigits2_le (Zpos mp) 53); [rewrite pow53|]; lia. }
          lia. }
      rewrite Hd, Z.sub_diag. cbn [shr shr_record_of_loc shr_m].
      change (emax - prec) with 971.
      destruct (Z.leb_spec e1 971) as [L|G]; eexists;
        (split; [reflexivity|]); (split; [reflexivity|]).
      * split.
        { unfold is_double, valid_binary, bounded, canonical_mantissa.
          rewrite fexp_eq. fold d. rewrite Hd.
          change (emax - prec) with 971.
          apply andb_true_iff. split; [apply Z.eqb_eq | apply Z.leb_le]; lia. }
        left. split; [reflexivity|]. split; [reflexivity|].
        split; [intros H; exact H|]. left. rewrite pow53. lia.
      * split; [reflexivity|]. right. split; [reflexivity|]. left. lia.
Qed.

(** The magnitude of a finite double, in units of 2^-1074, is a
    mantissa below 2^53 times a power of two. *)
Lemma double_magnitude (y : float) :
  is_double y -> finite y = true ->
  exists M k, magnitude y = M * 2 ^ k /\ 0 <= M < 2 ^ 53 /\ 0 <= k.
Proof.
  intros Hv Hf. destruct y as [s| |  |s m e]; try discriminate.
  - exists 0, 0. rewrite pow53. cbn. lia.
  - unfold is_double, valid_binary, bounded, canonical_mantissa in Hv.
    apply andb_true_iff in Hv. destruct Hv as [Hc _].
    apply Z.eqb_eq in Hc. rewrite fexp_eq in Hc.
    exists (Zpos m), (e + 1074). split; [reflexivity|].
    destruct (digits2_pos_bounds m) as [B _].
    set (d := Zpos (digits2_pos m)) in *.
    assert (d <= 53) by lia.
    assert (2 ^ (d - 1) <= 2 ^ 52) by (apply Z.pow_le_mono_r; lia).
    destruct (digits2_pos_bounds m) as [_ B2]. fold d in B2.
    assert (2 ^ d <= 2 ^ 53) by (apply Z.pow_le_mono_r; lia).
    lia.
Qed.

(** No double lies strictly between two neighbours of the grid the
    rounding works on. *)
Lemma no_double_between (M k m1 k1 : Z) :
  0 <= M < 2 ^ 53 -> 0 <= k -> 0 <= k1 -> 0 <= m1 ->
  2 ^ 52 <= m1 \/ k1 = 0 ->
  M * 2 ^ k <= m1 * 2 ^ k1 \/ (m1 + 1) * 2 ^ k1 <= M * 2 ^ k.
Proof.
  intros HM Hk Hk1 Hm1 Hn.
  assert (P1 : 0 < 2 ^ k1) by (apply Z.pow_pos_nonneg; lia).
  destruct (Z.le_gt_cases k1 k) as [L|G].
  - replace k with (k - k1 + k1) by lia. rewrite Z.pow_add_r by lia.
    set (c := M * 2 ^ (k - k1)). rewrite Z.mul_assoc. fold c.
    destruct (Z.le_gt_cases c m1) as [C|C]; [left | right];
      apply Z.mul_le_mono_nonneg_r; lia.
  - left. destruct Hn as [Hn|Hn]; [|lia].
    assert (P : 0 < 2 ^ k) by (apply Z.pow_pos_nonneg; lia).
    assert (E : 2 ^ k1 = 2 * 2 ^ (k1 - 1)).
    { replace k1 with (Z.succ (k1 - 1)) at 1 by lia.
      apply Z.pow_succ_r. lia. }
    assert (Q : 2 ^ k <= 2 ^ (k1 - 1)) by (apply Z.pow_le_mono_r; lia).
    rewrite pow53 in HM. rewrite pow52 in Hn. rewrite E.
    set (a := 2 ^ k) in *. set (b := 2 ^ (k1 - 1)) in *.
    apply Z.le_trans with (9007199254740992 * a); [nia|].
    apply Z.le_trans with (9007199254740992 * b); [nia|]. nia.
Qed.

Lemma threshold_units :
  overflow_threshold * 2 ^ 1074 = (2 ^ 54 - 1) * 2 ^ 2044.
Proof. reflexivity. Qed.

Lemma pow2_le (a b : Z) : 0 <= a <= b -> 2 ^ a <= 2 ^ b.
Proof. intros H. apply Z.pow_le_mono_r; lia. Qed.

(** The rounding of a located number is the double nearest to it. *)
Lemma round_aux_nearest (sx : bool) (mx ex : Z) (lx : location)
  (num den : Z) :
  0 < den -> 0 <= mx -> -1074 <= ex ->
  ex <= fexp prec emax (Zdigits2 mx + ex) ->
  located (num * 2 ^ 1074) (den * 2 ^ (ex + 1074)) mx lx ->
  nearest sx num den (binary_round_aux prec emax sx mx ex lx).
Proof.
  intros Hden Hmx Hex Hpre Hloc.
  destruct (shr_fexp_located _ den mx ex lx Hden Hmx Hex Hpre Hloc)
    as (mrs & e1 & Es & He1 & Hl1 & Hr1).
  set (m1 := shr_m mrs) in *. set (l1 := loc_of_shr_record mrs) in *.
  set (k := e1 + 1074) in *.
  assert (Hk : 0 <= k) by (unfold k; lia).
  assert (HP : 0 < 2 ^ k) by (apply Z.pow_pos_nonneg; lia).
  set (P := 2 ^ k) in *.
  assert (HD1 : 0 < den * P) by (apply Z.mul_pos_pos; assumption).
  set (D1 := den * P) in *.
  pose proof threshold_units as HT.
  assert (HT0 : 0 < 2 ^ 1074) by (apply Z.pow_pos_nonneg; lia).
  set (T := 2 ^ 1074) in *. set (X := num * T) in *.
  destruct (located_bounds X D1 m1 l1 Hl1 HD1) as [Blo Bhi].
  pose proof (round_located X D1 m1 l1 HD1 Hl1) as Hround.
  set (m2 := round_nearest_even m1 l1) in *.
  rewrite pow52, pow53 in Hr1.
  assert (Hm1 : 0 <= m1) by (destruct Hr1; lia).
  assert (Hm2 : m2 = m1 \/ m2 = m1 + 1)
    by (destruct Hround as [(E & _)|(E & _)]; auto).
  destruct (round_result sx m2 e1 He1) as (f & Ef & Hs & Hv & Hf).
  { rewrite pow52, pow53. destruct Hr1; [left | right]; lia. }
  assert (Ev : binary_round_aux prec emax sx mx ex lx = f).
  { unfold binary_round_aux. rewrite Es. exact Ef. }
  rewrite Ev. clear Ev Ef Es.
  assert (HQ0 : 0 < 2 ^ 2044) by (apply Z.pow_pos_nonneg; lia).
  assert (Hthr : forall c, c = 2 ^ 2044 * den ->
            (X < (2 ^ 54 - 1) * c -> num < overflow_threshold * den) /\
            ((2 ^ 54 - 1) * c <= X -> overflow_threshold * den <= num)).
  { intros c ->. unfold X.
    replace ((2 ^ 54 - 1) * (2 ^ 2044 * den))
      with (overflow_threshold * den * T)
      by (rewrite <- Z.mul_assoc, (Z.mul_comm den T), Z.mul_assoc, HT; ring).
    split; intros H.
    - apply Z.mul_lt_mono_pos_r in H; assumption.
    - apply Z.mul_le_mono_pos_r in H; assumption. }
  set (Q := 2 ^ 2044 * den) in *.
  assert (HQ : 0 < Q) by (apply Z.mul_pos_pos; assumption).
  destruct (Hthr Q eq_refl) as [Hbelow Habove]. clear Hthr.
  change (2 ^ 54 - 1) with 18014398509481983 in Hbelow, Habove.
  assert (HDa : k <= 2045 -> D1 <= 2 * Q).
  { intros L. unfold D1, Q, P.
    assert (H : 2 ^ k <= 2 ^ 2045) by (apply pow2_le; lia).
    change (2 ^ 2045) with (2 * 2 ^ 2044) in H.
    rewrite (Z.mul_comm (2 ^ 2044)), Z.mul_assoc, (Z.mul_comm 2 den),
      <- Z.mul_assoc.
    apply Z.mul_le_mono_nonneg_l; [lia | exact H]. }
  assert (HDb : k <= 2044 -> D1 <= Q).
  { intros L. unfold D1, Q, P.
    assert (H : 2 ^ k <= 2 ^ 2044) by (apply pow2_le; lia).
    rewrite (Z.mul_comm (2 ^ 2044)).
    apply Z.mul_le_mono_nonneg_l; [lia | exact H]. }
  assert (HDc : 2046 <= k -> 4 * Q <= D1).
  { intros L. unfold D1, Q, P.
    assert (H : 2 ^ 2046 <= 2 ^ k) by (apply pow2_le; lia).
    change (2 ^ 2046) with (4 * 2 ^ 2044) in H.
    rewrite (Z.mul_comm (2 ^ 2044)), Z.mul_assoc, (Z.mul_comm 4 den),
      <- Z.mul_assoc.
    apply Z.mul_le_mono_nonneg_l; [lia | exact H]. }
  assert (HDd : k = 2045 -> D1 = 2 * Q).
  { intros L. unfold D1, Q, P. rewrite L.
    change (2 ^ 2045) with (2 * 2 ^ 2044). ring. }
  assert (HD1e : D1 = den * P) by reflexivity.
  assert (HX : X = num * 2 ^ 1074) by reflexivity.
  assert (Hke : k = e1 + 1074) by reflexivity.
  clear HT HQ0 HT0. clearbody Q D1 X T k.
  rewrite pow53 in Hf.
  split; [exact Hs|]. split; [exact Hv|].
  destruct Hf as [(Hfin & Hmag & Hev & Hb) | (Einf & Hb)].
  - rewrite Hfin. split.
    + (* below the threshold *)
      apply Hbelow. destruct Hb as [[Hb1 Hb2]|Hb].
      * assert (HD : D1 <= 2 * Q) by (apply HDa; lia).
        destruct Hround as [(E & Hle & Htie)|(E & Hle & Htie)].
        -- destruct (Z.eq_dec (2 * X) ((2 * m1 + 1) * D1)) as [Eq|Ne].
           ++ pose proof (Htie Eq) as Hev1.
              assert (m1 <> 9007199254740991)
                by (intros ->; discriminate Hev1).
              assert ((2 * m1 + 1) * D1 <= 18014398509481981 * (2 * Q))
                by (apply Z.mul_le_mono_nonneg; lia).
              lia.
           ++ assert ((2 * m1 + 1) * D1 <= 18014398509481983 * (2 * Q))
                by (apply Z.mul_le_mono_nonneg; lia).
              lia.
        -- assert ((m1 + 1) * D1 <= 9007199254740991 * (2 * Q))
             by (apply Z.mul_le_mono_nonneg; lia).
           lia.
      * assert (HD : D1 <= Q) by (apply HDb; lia).
        assert ((m1 + 1) * D1 <= 9007199254740992 * Q)
          by (apply Z.mul_le_mono_nonneg; lia).
        lia.
    + (* nearest among the doubles *)
      intros y Hy Hyf.
      assert (HeqG : forall z, gap num den z = Z.abs (magnitude z * den - X))
        by (intros z; rewrite HX; reflexivity).
      destruct (double_magnitude y Hy Hyf) as (M & ky & EW & HM & Hky).
      assert (Hn : 2 ^ 52 <= m1 \/ k = 0)
        by (rewrite pow52; destruct Hr1; [left | right]; lia).
      destruct (no_double_between M ky m1 k HM Hky Hk Hm1 Hn) as [W|W];
        fold P in W; rewrite <- Hke in Hmag; fold P in Hmag;
        rewrite !HeqG, Hmag, EW;
        set (W0 := M * 2 ^ ky) in *;
        replace (m2 * P * den) with (m2 * D1) by (rewrite HD1e; ring).
      * assert (HW : W0 * den <= m1 * D1).
        { replace (m1 * D1) with (m1 * P * den) by (rewrite HD1e; ring).
          apply Z.mul_le_mono_nonneg_r; lia. }
        destruct Hround as [(E & Hle & Htie)|(E & Hle & Htie)]; rewrite E.
        -- split; [lia|]. intros Hg.
           left. apply (Z.mul_reg_r _ _ den); [lia|].
           replace (m1 * P * den) with (m1 * D1) by (rewrite HD1e; ring). lia.
        -- split; [lia|]. intros Hg. right. apply Hev. rewrite E.
           apply Htie. lia.
      * assert (HW : (m1 + 1) * D1 <= W0 * den).
        { replace ((m1 + 1) * D1) with ((m1 + 1) * P * den)
            by (rewrite HD1e; ring).
          apply Z.mul_le_mono_nonneg_r; lia. }
        destruct Hround as [(E & Hle & Htie)|(E & Hle & Htie)]; rewrite E.
        -- split; [lia|]. intros Hg. right. apply Hev. rewrite E.
           apply Htie. lia.
        -- split; [lia|]. intros Hg.
           left. apply (Z.mul_reg_r _ _ den); [lia|].
           replace ((m1 + 1) * P * den) with ((m1 + 1) * D1)
             by (rewrite HD1e; ring).
           lia.
  - subst f. cbn [finite]. apply Habove. destruct Hb as [Hb|[Hb1 Hb2]].
    + assert (HD : 4 * Q <= D1) by (apply HDc; lia).
      assert (4503599627370496 <= m1) by (destruct Hr1; lia).
      assert (4503599627370496 * (4 * Q) <= m1 * D1)
        by (apply Z.mul_le_mono_nonneg; lia).
      lia.
    + assert (HD : D1 = 2 * Q) by (apply HDd; lia).
      destruct Hround as [(E & Hle & Htie)|(E & Hle & Htie)].
      * destruct Hr1; lia.
      * assert (m1 = 9007199254740991) by lia. subst m1.
        rewrite HD in Hle. lia.
Qed.

Lemma nearest_zero (neg : bool) (den : Z) :
  0 < den -> nearest neg 0 den (S754_zero neg).
Proof.
  intros Hden. split; [reflexivity|]. split; [reflexivity|]. cbn [finite].
  split.
  - apply Z.mul_pos_pos; [reflexivity | exact Hden].
  - intros y _ _. unfold gap. cbn [magnitude mantissa].
    rewrite !Z.mul_0_l, Z.sub_0_r. cbn [Z.abs]. split; [apply Z.abs_nonneg|].
    intros _. right. reflexivity.
Qed.

(** The quotient of the division by [den] and its location. *)
Lemma div_core_located (p : positive) (den : Z) :
  0 < den ->
  exists q e l,
    SFdiv_core_binary prec emax (Zpos p) 0 den 0 = (q, e, l) /\
    0 <= q /\ -1074 <= e /\ e <= fexp prec emax (Zdigits2 q + e) /\
    located (Zpos p * 2 ^ 1074) (den * 2 ^ (e + 1074)) q l.
Proof.
  intros Hden. unfold SFdiv_core_binary. rewrite fexp_eq.
  set (d1 := Zdigits2 (Zpos p)). set (d2 := Zdigits2 den).
  set (e := Z.min (Z.max (d1 + 0 - (d2 + 0) - 53) (-1074)) (0 - 0)).
  assert (He : -1074 <= e <= 0) by (unfold e; lia).
  assert (Hm : match 0 - 0 - e with
               | Zpos _ => Z.shiftl (Zpos p) (0 - 0 - e)
               | Z0 => Zpos p
               | Zneg _ => 0
               end = Zpos p * 2 ^ (- e)).
  { replace (0 - 0 - e) with (- e) by lia.
    rewrite <- Z.shiftl_mul_pow2 by lia.
    destruct (- e) eqn:Es; (lia || reflexivity). }
  rewrite Hm. set (m' := Zpos p * 2 ^ (- e)).
  pose proof (Z.div_mod m' den ltac:(lia)) as Hdm.
  pose proof (Z.mod_pos_bound m' den Hden) as Hmod.
  unfold Z.div, Z.modulo in Hdm, Hmod.
  destruct (Z.div_eucl m' den) as [q r] eqn:Eqr.
  assert (P : 0 < 2 ^ (- e)) by (apply Z.pow_pos_nonneg; lia).
  assert (Hm' : 0 < m') by (unfold m'; apply Z.mul_pos_pos; lia).
  assert (Hq : 0 <= q).
  { destruct (Z.le_gt_cases 0 q) as [L|G]; [exact L|].
    assert (den * q <= den * (-1)) by (apply Z.mul_le_mono_nonneg_l; lia).
    lia. }
  exists q, e, (new_location den r).
  split; [reflexivity|]. split; [exact Hq|]. split; [lia|]. split.
  - rewrite fexp_eq.
    destruct (Z.eq_dec e (-1074)) as [E|N]; [lia|].
    assert (Hs : 53 + d2 - d1 <= - e) by (unfold e in *; lia).
    destruct (Zdigits2_bounds (Zpos p) ltac:(lia)) as [B1 _].
    destruct (Zdigits2_bounds den Hden) as [_ B2]. fold d1 in B1. fold d2 in B2.
    assert (Hd1 : 1 <= d1) by (unfold d1; simpl; lia).
    assert (Hd2 : 0 <= d2) by apply Zdigits2_nonneg.
    assert (Hq52 : 2 ^ 52 <= q).
    { assert (L : 2 ^ 52 * 2 ^ d2 <= m').
      { unfold m'. rewrite <- Z.pow_add_r by lia.
        apply Z.le_trans with (2 ^ (d1 - 1) * 2 ^ (- e)).
        - rewrite <- Z.pow_add_r by lia. apply pow2_le. lia.
        - apply Z.mul_le_mono_nonneg_r; lia. }
      assert (0 < 2 ^ 52) by reflexivity.
      destruct (Z.le_gt_cases (2 ^ 52) q) as [G|G]; [exact G|].
      assert (den * (q + 1) <= den * 2 ^ 52)
        by (apply Z.mul_le_mono_nonneg_l; lia).
      assert (2 ^ 52 * den < 2 ^ 52 * 2 ^ d2)
        by (apply Z.mul_lt_mono_pos_l; lia).
      lia. }
    pose proof (Zdigits2_ge q 53 Hq52 ltac:(lia)). lia.
  - pose proof (located_new_location den q r Hden Hmod) as Hl.
    replace (q * den + r) with m' in Hl by lia.
    apply (located_scale _ _ _ (2 ^ (e + 1074))) in Hl;
      [|apply Z.pow_pos_nonneg; lia].
    replace (m' * 2 ^ (e + 1074)) with (Zpos p * 2 ^ 1074) in Hl;
      [exact Hl|].
    unfold m'. rewrite <- Z.mul_assoc, <- Z.pow_add_r by lia.
    f_equal. f_equal. lia.
Qed.

Lemma iter_xO (mx d : positive) :
  Zpos (Pos.iter xO mx d) = Zpos mx * 2 ^ Zpos d.
Proof.
  induction d as [|d IH] using Pos.peano_ind.
  - cbn [Pos.iter]. change (2 ^ 1) with 2. lia.
  - rewrite Pos.iter_succ, Pos2Z.inj_succ, Z.pow_succ_r by lia.
    change (Zpos (Pos.iter xO mx d)~0) with (2 * Zpos (Pos.iter xO mx d)).
    rewrite IH. ring.
Qed.

(** An integer is rounded to the double nearest to it. *)
Lemma binary_round_nearest (sx : bool) (mx : positive) :
  nearest sx (Zpos mx) 1 (binary_round prec emax sx mx 0).
Proof.
  unfold binary_round, shl_align. rewrite fexp_eq.
  destruct (digits2_pos_bounds mx) as [B1 B2].
  set (d := Zpos (digits2_pos mx)) in *.
  assert (Hd : 1 <= d) by (unfold d; lia).
  destruct (Z.max (d + 0 - 53) (-1074) - 0) as [|g|g] eqn:Eg.
  - apply round_aux_nearest; try lia.
    + rewrite fexp_eq. cbn [Zdigits2]. fold d. lia.
    + cbn [located]. change (0 + 1074) with 1074. ring.
  - apply round_aux_nearest; try lia.
    + rewrite fexp_eq. cbn [Zdigits2]. fold d. lia.
    + cbn [located]. change (0 + 1074) with 1074. ring.
  - assert (Ed : Zpos g = 53 - d) by lia.
    assert (Em : Z.max (d + 0 - 53) (-1074) = d - 53) by lia.
    rewrite Em. pose proof (iter_xO mx g) as Ei.
    assert (Hb : 2 ^ 52 <= Zpos (Pos.iter xO mx g) < 2 ^ 53).
    { rewrite Ei, Ed.
      assert (P : 0 < 2 ^ (53 - d)) by (apply Z.pow_pos_nonneg; lia).
      replace (2 ^ 52) with (2 ^ (d - 1) * 2 ^ (53 - d))
        by (rewrite <- Z.pow_add_r by lia; f_equal; lia).
      replace (2 ^ 53) with (2 ^ d * 2 ^ (53 - d))
        by (rewrite <- Z.pow_add_r by lia; f_equal; lia).
      split; [apply Z.mul_le_mono_nonneg_r | apply Z.mul_lt_mono_pos_r]; lia. }
    apply round_aux_nearest; try lia.
    + rewrite fexp_eq. cbn [Zdigits2].
      rewrite (Zdigits2_unique (Pos.iter xO mx g) 53) by exact Hb. lia.
    + cbn [located]. rewrite Ei, Ed.
      rewrite <- Z.mul_assoc. f_equal. rewrite Z.mul_1_l.
      rewrite <- Z.pow_add_r by lia. f_equal. lia.
Qed.

(** The conversion of a decimal gives the double nearest to it. *)
Lemma of_decimal_nearest (neg : bool) (m : N) (e10 : Z) :
  nearest neg (Z.of_N m * 10 ^ Z.max e10 0) (10 ^ Z.max (- e10) 0)
    (of_decimal neg m e10).
Proof.
  assert (Hden : 0 < 10 ^ Z.max (- e10) 0) by (apply Z.pow_pos_nonneg; lia).
  destruct m as [|p]; [apply nearest_zero; exact Hden|].
  unfold of_decimal. cbn [Z.of_N].
  destruct e10 as [|k|k].
  - change (p * Z.to_pos (10 ^ 0))%positive with (p * 1)%positive.
    rewrite Pos.mul_1_r. change (10 ^ Z.max (- 0) 0) with 1.
    change (10 ^ Z.max 0 0) with 1. rewrite Z.mul_1_r.
    apply binary_round_nearest.
  - change (Z.max (- Zpos k) 0) with 0. change (10 ^ 0) with 1.
    change (Z.max (Zpos k) 0) with (Zpos k).
    assert (P : 0 < 10 ^ Zpos k) by (apply Z.pow_pos_nonneg; lia).
    replace (Zpos p * 10 ^ Zpos k)
      with (Zpos (p * Z.to_pos (10 ^ Zpos k)))
      by (rewrite Pos2Z.inj_mul, Z2Pos.id by exact P; reflexivity).
    apply binary_round_nearest.
  - change (Z.max (Zneg k) 0) with 0. change (10 ^ 0) with 1.
    change (Z.max (- Zneg k) 0) with (Zpos k) in *.
    rewrite Z.mul_1_r. change (Z.pow_pos 10 k) with (10 ^ Zpos k).
    destruct (div_core_located p (10 ^ Zpos k) Hden)
      as (q & e & l & -> & Hq & He & Hpre & Hloc).
    apply round_aux_nearest; assumption.
Qed.

End Rounding.

Lemma digits_value_from_scaled (s : string) :
  forall acc,
    Str.digits_value_from acc s
    = (acc * 10 ^ N.of_nat (length s) + Str.digits_value s)%N.
Proof.
  unfold Str.digits_value.
  induction s as [|c s IH]; intros acc.
  - simpl. lia.
  - cbn [Str.digits_value_from length]. rewrite IH.
    rewrite (IH (0 * 10 + (Str.code c - 48))%N).
    rewrite Nat2N.inj_succ, N.pow_succ_r'. lia.
Qed.

Lemma digits_value_app (a b : string) :
  Str.digits_value (a ++ b)
  = (Str.digits_value a * 10 ^ N.of_nat (length b) + Str.digits_value b)%N.
Proof.
  unfold Str.digits_value at 1 2. generalize 0%N.
  induction a as [|c a IH]; intros acc; simpl.
  - apply digits_value_from_scaled.
  - apply IH.
Qed.

Lemma digit_value_code (c : ascii) :
  Str.is_digit c = true -> Z.of_N (Str.code c - 48) = digit_value c.
Proof. by_character c. Qed.

(** The value the parser gives a run of digits is the number it
    writes. *)
Lemma digits_value_written (s : string) :
  Str.forallb Str.is_digit s = true ->
  Z.of_N (Str.digits_value s) = written s.
Proof.
  induction s as [|c s IH]; [reflexivity|]. intros H. simpl in H.
  apply andb_true_iff in H. destruct H as [Hc Hs].
  change (String c s) with (String c "" ++ s)%string.
  rewrite digits_value_app. cbn [append written].
  rewrite <- (IH Hs), <- (digit_value_code c Hc).
  rewrite N2Z.inj_add, N2Z.inj_mul, N2Z.inj_pow, nat_N_Z. reflexivity.
Qed.

(** The double of an amount is the nearest to the fraction it writes. *)
Lemma amount_value_nearest (ip : string) (frac : option string) :
  well_formed_amount ip frac ->
  nearest false (amount_numerator ip frac) (amount_denominator frac)
    (amount_value ip frac).
Proof.
  intros (_ & Hfd & _).
  unfold amount_value, amount_numerator, amount_denominator.
  set (fd := fraction_digits frac) in *.
  pose proof (of_decimal_nearest false
                (Str.digits_value (Str.filter Str.is_digit ip ++ fd))
                (- Z.of_nat (length fd))) as H.
  rewrite Z.max_r, Z.max_l in H by lia.
  rewrite Z.pow_0_r, Z.mul_1_r, Z.opp_involutive in H.
  rewrite digits_value_written in H; [exact H|].
  rewrite forallb_app, Hfd, andb_true_r. apply forallb_filter.
Qed.

Lemma price_of_text (s : string) (x : float) :
  s <> "" ->
  Num.float_of_string (clean_str s) = Some x ->
  price_of (VStr s) = x.
Proof.
  intros Hne H. unfold price_of. simpl truthy.
  rewrite (string_eqb_false _ _ Hne). simpl. rewrite H. reflexivity.
Qed.

Lemma price_of_unreadable (s : string) :
  Num.float_of_string (clean_str s) = None -> price_of (VStr s) = zero.
Proof.
  intros H. unfold price_of. destruct (truthy (VStr s)); [|reflexivity].
  simpl. rewrite H. reflexivity.
Qed.

(** C4: for every raw price of the forms "$X", "$X,XXX.YY" and
    "from $X - $Y", the price is the double nearest to the number X
    writes, read without "$", without its thousands separators and
    without the "from " marker, whatever Y is; and for every raw price
    whose cleaned remainder does not read as a number, the empty
    remainder included, the price is 0.0. The price of an item is a
    plain float: no exception leaves its computation. *)
Theorem price_of_amount (ip : string) (frac : option string) (y : string) :
  well_formed_amount ip frac ->
  nearest false (amount_numerator ip frac) (amount_denominator frac)
    (price_of (VStr ("$" ++ amount_text ip frac))) /\
  price_of (VStr ("from $" ++ amount_text ip frac ++ " - $" ++ y))
  = price_of (VStr ("$" ++ amount_text ip frac)) /\
  (forall s, Num.float_of_string (clean_str s) = None ->
             price_of (VStr s) = zero) /\
  (forall s, clean_str s = "" -> price_of (VStr s) = zero).
Proof.
  intros Hwf.
  assert (H1 : price_of (VStr ("$" ++ amount_text ip frac))
               = amount_value ip frac).
  { apply price_of_text; [discriminate|].
    rewrite (clean_str_dollar ip frac Hwf). apply float_of_plain, Hwf. }
  assert (H2 : price_of (VStr ("from $" ++ amount_text ip frac ++ " - $" ++ y))
               = amount_value ip frac).
  { apply price_of_text; [discriminate|].
    rewrite (clean_str_range ip frac Hwf). apply float_of_plain, Hwf. }
  rewrite H1, H2. split; [apply amount_value_nearest, Hwf|].
  split; [reflexivity|]. split.
  - apply price_of_unreadable.
  - intros s E. apply price_of_unreadable. rewrite E. reflexivity.
Qed.

Lemma price_of_amount_witness :
  nearest false 123456 100 (price_of (VStr "$1,234.56")) /\
  price_of (VStr "from $1,234.56 - $2,000.00")
  = price_of (VStr "$1,234.56").
Proof.
  destruct (price_of_amount "1,234" (Some "56") "2,000.00") as (H1 & H2 & _).
  - split; [reflexivity|]. split; [reflexivity|discriminate].
  - split; [exact H1 | exact H2].
Defined.

(** The relation tells the doubles apart: of 29.99 it holds of one
    double, and neither of 0.0 nor of the double next to that one. *)
Example nearest_tells_apart :
  nearest false 2999 100 (S754_finite false 8441434551552573 (-48)) /\
  ~ nearest false 2999 100 zero /\
  ~ nearest false 2999 100 (S754_finite false 8441434551552574 (-48)).
Proof.
  assert (Hy : is_double (S754_finite false 8441434551552573 (-48)))
    by reflexivity.
  split; [exact (of_decimal_nearest false 2999 (-2))|].
  split; intros (_ & _ & H); cbn [finite] in H; destruct H as [_ H];
    destruct (H _ Hy eq_refl) as [Hle _]; vm_compute in Hle;
    apply Hle; reflexivity.
Qed.

(** Digits and white space beyond ASCII are read by [float] and [int]:
    a price followed by a no-break space is read, as is the
    Arabic-Indic three; a letter beyond ASCII is not. *)
Example numbers_beyond_ascii :
  Num.float_of_string ("12.99" ++ no_break_space)
  = Some (of_decimal false 1299 (-2)) /\
  price_of (VStr ("$12.99" ++ no_break_space)) = of_decimal false 1299 (-2) /\
  Num.int_of_string arabic_indic_three = Some 3%Z /\
  Num.float_of_string ("4." ++ arabic_indic_three)
  = Some (of_decimal false 43 (-1)) /\
  Num.float_of_string ("1" ++ e_acute) = None /\
  List.map Str.code_point (Str.chars ("a" ++ e_acute ++ em_dash))
  = [97; 233; 8212]%N.
Proof. vm_compute. repeat split. Qed.

(** Prices that do not read as a number. *)
Example price_unreadable :
  price_of (VStr "$") = zero /\ price_of (VStr "Price not available") = zero
  /\ price_of (VStr "$12.99 - $15.00 - $20") = of_decimal false 1299 (-2)
  /\ price_of (VStr "From $5") = zero.
Proof. vm_compute. repeat split. Qed.

(** ** The end-to-end example *)

(** The doubles of the example are the nearest to 29.99 and to 4.7:
    each lies within half a unit in the last place of the decimal. *)
Example example_doubles :
  of_decimal false 2999 (-2) = S754_finite false 8441434551552573 (-48) /\
  (2 * Z.abs (100 * 8441434551552573 - 2999 * 2 ^ 48) <= 100)%Z /\
  of_decimal false 47 (-1) = S754_finite false 5291729562160333 (-50) /\
  (2 * Z.abs (10 * 5291729562160333 - 47 * 2 ^ 50) <= 10)%Z.
Proof. vm_compute. repeat split; discriminate. Qed.

(** C2, as stated, fails: the best-seller column of the example's row is
    the text "Yes", not the boolean true. *)
Lemma example_best_seller_not_boolean :
  fst (fetch_data "programming books" "RELEVANCE"
         (serving (Some "secret") (body [clean_code_item])))
  <> ([clean_code_row (VBool true)], None).
Proof. vm_compute. discriminate. Qed.

(** C2, amended: the example item is normalized to exactly the row with
    Title "Clean Code Paperback Edition", Price 29.99, Rating 4.7,
    Reviews 1500, Format "Paperback", Best_Seller "Yes", Image "" and
    Link "#"; the best-seller column of every row is the text "Yes" when
    the raw flag is truthy and "No" otherwise. *)
Theorem example_row (query sort_code : string) (w : world)
  (api_key : string) (data : value) :
  configured w api_key ->
  answers w api_key query sort_code data ->
  products_at data = Return (VList [clean_code_item]) ->
  fst (fetch_data query sort_code w) = ([clean_code_row (VStr "Yes")], None)
  /\ (forall d r,
        clean_item (VDict d) = Return r ->
        lookup "Best_Seller" r =
        Some (VStr (if truthy (lookup_or "is_best_seller" d VNone)
                    then "Yes" else "No"))).
Proof.
  intros Hc Ha Hp. split.
  - rewrite (fetch_data_answered query sort_code w api_key data Hc Ha).
    rewrite (normalize_products data _ Hp) by discriminate.
    vm_compute. reflexivity.
  - intros d r H.
    destruct (clean_item_returned d r H) as (x & n & f & _ & _ & _ & ->).
    reflexivity.
Qed.

Lemma example_row_witness :
  fst (fetch_data "programming books" "RELEVANCE"
         (serving (Some "secret") (body [clean_code_item])))
  = ([clean_code_row (VStr "Yes")], None).
Proof.
  apply (example_row "programming books" "RELEVANCE"
           (serving (Some "secret") (body [clean_code_item]))
           "secret" (body [clean_code_item])).
  - split; [reflexivity | discriminate].
  - reflexivity.
  - reflexivity.
Defined.

(** ** Ratings and review counts that do not parse *)

Lemma rating_unreadable (s : string) :
  s <> "" -> Num.float_of_string s = None ->
  rating_of (VStr s) = Raise ValueError.
Proof.
  intros Hne H. unfold rating_of. simpl truthy.
  rewrite (string_eqb_false _ _ Hne). simpl. rewrite H. reflexivity.
Qed.

Lemma reviews_unreadable (s : string) :
  s <> "" -> Num.int_of_string s = None ->
  reviews_of (VStr s) = Raise ValueError.
Proof.
  intros Hne H. unfold reviews_of. simpl truthy.
  rewrite (string_eqb_false _ _ Hne). simpl. rewrite H. reflexivity.
Qed.

(** C1 does not hold of the code: a rating or a review count that is a
    non-numeric text raises ValueError, which no handler around the
    field catches, so the whole batch ends in a server error and the
    well-formed item beside it is lost; the same text as a price is
    replaced by 0.0. *)
Theorem unparsable_rating_aborts :
  fst (fetch_data "science fiction and fantasy books" "REVIEWS"
         (serving (Some "secret") (body [clean_code_item; unrated_item])))
  = ([], Some (ServerError ValueError)) /\
  fst (fetch_data "science fiction and fantasy books" "REVIEWS"
         (serving (Some "secret") (body [clean_code_item; uncounted_item])))
  = ([], Some (ServerError ValueError)) /\
  price_of (VStr "N/A") = zero /\
  price_of (VStr "1,234") = of_decimal false 1234 0.
Proof. vm_compute. repeat split. Qed.

Lemma absent_fields_default_witness :
  clean_item (VDict [("product_title", VStr "Dune")]) =
  Return (row_of [("product_title", VStr "Dune")] zero 0 "Standard").
Proof.
  apply (absent_fields_default [("product_title", VStr "Dune")]);
    reflexivity.
Defined.

(** A rating or a review count that does not parse aborts the batch,
    whatever the other items are. *)
Lemma unparsable_field_aborts (query sort_code : string) (w : world)
  (api_key : string) (data : value) (items : list value)
  (d : list (string * value)) (s : string) :
  configured w api_key ->
  answers w api_key query sort_code data ->
  products_at data = Return (VList items) ->
  In (VDict d) items ->
  s <> "" ->
  (lookup "product_star_rating" d = Some (VStr s) /\
   Num.float_of_string s = None) \/
  (lookup "product_num_ratings" d = Some (VStr s) /\
   Num.int_of_string s = None) ->
  exists cause,
    fst (fetch_data query sort_code w) = ([], Some (ServerError cause)).
Proof.
  intros Hc Ha Hp Hin Hne H.
  assert (He : exists e, clean_item (VDict d) = Raise e).
  { rewrite clean_item_dict. destruct H as [[Hl Hf] | [Hl Hf]].
    - rewrite (lookup_or_some _ _ _ _ Hl), (rating_unreadable s Hne Hf).
      exists ValueError. reflexivity.
    - destruct (rating_of _) as [x|e]; simpl; [|exists e; reflexivity].
      rewrite (lookup_or_some _ _ _ _ Hl), (reviews_unreadable s Hne Hf).
      exists ValueError. reflexivity. }
  destruct He as [e He].
  exact (raising_item_aborts query sort_code w api_key data items
           Hc Ha Hp (VDict d) e Hin He).
Qed.

(** C3 does not hold of the code: a list of N items that holds an item
    whose rating or review count is a text that does not parse gives no
    row at all, not N: the field-level error of one item drops every
    item, the well-formed ones included. *)
Theorem unparsable_field_drops_rows (query sort_code : string) (w : world)
  (api_key : string) (data : value) (items : list value)
  (d : list (string * value)) (s : string) :
  configured w api_key ->
  answers w api_key query sort_code data ->
  products_at data = Return (VList items) ->
  In (VDict d) items ->
  s <> "" ->
  (lookup "product_star_rating" d = Some (VStr s) /\
   Num.float_of_string s = None) \/
  (lookup "product_num_ratings" d = Some (VStr s) /\
   Num.int_of_string s = None) ->
  fst (fst (fetch_data query sort_code w)) = [] /\
  List.length (fst (fst (fetch_data query sort_code w)))
  <> List.length items /\
  exists cause,
    snd (fst (fetch_data query sort_code w)) = Some (ServerError cause).
Proof.
  intros Hc Ha Hp Hin Hne H.
  destruct (unparsable_field_aborts query sort_code w api_key data items
              d s Hc Ha Hp Hin Hne H) as [cause E].
  rewrite E. cbn [fst snd List.length]. split; [reflexivity|]. split.
  - destruct items; [destruct Hin|discriminate].
  - exists cause. reflexivity.
Qed.

Lemma unparsable_field_drops_rows_witness :
  fst (fst (fetch_data "science fiction and fantasy books" "REVIEWS"
              (serving (Some "secret")
                 (body [clean_code_item; unrated_item]))))
  = [] /\
  List.length
    (fst (fst (fetch_data "science fiction and fantasy books" "REVIEWS"
                 (serving (Some "secret")
                    (body [clean_code_item; unrated_item])))))
  <> List.length [clean_code_item; unrated_item].
Proof.
  destruct (unparsable_field_drops_rows
              "science fiction and fantasy books" "REVIEWS"
              (serving (Some "secret") (body [clean_code_item; unrated_item]))
              "secret" (body [clean_code_item; unrated_item])
              [clean_code_item; unrated_item]
              [ ("product_title", VStr "Dune");
                ("product_price", VStr "$9.99");
                ("product_star_rating", VStr "N/A") ]
              "N/A") as (H1 & H2 & _).
  - split; [reflexivity | discriminate].
  - reflexivity.
  - reflexivity.
  - right. left. reflexivity.
  - discriminate.
  - left. split; reflexivity.
  - split; [exact H1 | exact H2].
Defined.

(** A title that is a string always has a format, so an item with such a
    title, or none, is cleaned as soon as its rating and review count
    are read. *)
Lemma format_of_string (t : string) :
  exists fmt, format_of (VStr t) = Return fmt.
Proof.
  unfold format_of, contains. simpl.
  destruct (Str.contains "Paperback" t); [eexists; reflexivity|].
  destruct (Str.contains "Hardcover" t); [eexists; reflexivity|].
  destruct (Str.contains "Audiobook" t); eexists; reflexivity.
Qed.

Lemma titled_item_cleans (d : list (string * value)) (t : string)
  (rating : float) (reviews : Z) :
  lookup_or "product_title" d (VStr "Unknown") = VStr t ->
  rating_of (lookup_or "product_star_rating" d VNone) = Return rating ->
  reviews_of (lookup_or "product_num_ratings" d VNone) = Return reviews ->
  exists r, cleaned (VDict d) r.
Proof.
  intros Ht Hx Hn. destruct (format_of_string t) as [fmt Hf].
  exists (row_of d rating reviews fmt). apply clean_item_returns; try assumption.
  rewrite Ht. exact Hf.
Qed.

(** ** Reading and writing numbers: examples *)

Example float_of_string_examples :
  Num.float_of_string " 1_000.5 " = Some (of_decimal false 10005 (-1)) /\
  Num.float_of_string "-.5e-3" = Some (of_decimal true 5 (-4)) /\
  Num.float_of_string "1e999" = Some (S754_infinity false) /\
  Num.float_of_string "-Infinity" = Some (S754_infinity true) /\
  Num.float_of_string "NaN" = Some S754_nan /\
  Num.float_of_string "1__0" = None /\
  Num.float_of_string "1e" = None /\
  Num.float_of_string "." = None /\
  Num.float_of_string "" = None /\
  Num.float_of_string "1,5" = None.
Proof. vm_compute. repeat split. Qed.

Example int_of_string_examples :
  Num.int_of_string " 1_0 " = Some 10%Z /\
  Num.int_of_string "-0" = Some 0%Z /\
  Num.int_of_string "+15" = Some 15%Z /\
  Num.int_of_string "1500" = Some 1500%Z /\
  Num.int_of_string "12." = None /\
  Num.int_of_string "4.7" = None /\
  Num.int_of_string "1,234" = None /\
  Num.int_of_string "_1" = None /\
  Num.int_of_string "" = None.
Proof. vm_compute. repeat split. Qed.

Example float_repr_examples :
  Num.float_repr (of_decimal false 2999 (-2)) = "29.99" /\
  Num.float_repr (of_decimal false 1 16) = "1e+16" /\
  Num.float_repr (of_decimal false 1 15) = "1000000000000000.0" /\
  Num.float_repr (of_decimal false 1 (-5)) = "1e-05" /\
  Num.float_repr (of_decimal false 1 (-4)) = "0.0001" /\
  Num.float_repr (of_decimal true 12 0) = "-12.0" /\
  Num.float_repr (of_decimal false 5 (-324)) = "5e-324".
Proof. vm_compute. repeat split. Qed.

(** Prices that are not strings go through [str]. *)
Example price_of_other_values :
  price_of (VFloat (of_decimal false 1299 (-2))) = of_decimal false 1299 (-2)
  /\ price_of (VInt 5) = of_decimal false 5 0
  /\ price_of (VBool true) = zero
  /\ price_of (VList [VInt 1]) = zero
  /\ price_of (VInt 0) = zero.
Proof. vm_compute. repeat split. Qed.


(** * Further properties of the code *)

Import Page PageWords.

(** ** What a call returns and sends *)

(** A text that is not empty has a first character. *)
Lemma chars_from_cons (s cur : string) :
  exists ch rest, Str.chars_from cur s = ch :: rest.
Proof.
  revert cur. induction s as [|c s IH]; intros cur; simpl.
  - eauto.
  - destruct (Str.is_continuation c); [apply IH | eauto].
Qed.

Lemma chars_cons (s : string) :
  s <> "" -> exists ch rest, Str.chars s = ch :: rest.
Proof.
  destruct s as [|c s]; [contradiction|]. intros _. apply chars_from_cons.
Qed.

Lemma iterate_truthy (products : value) (items : list value) :
  truthy products = true ->
  iterate products = Return items ->
  items <> [].
Proof.
  destruct products as [| b | n | x | s | l | d]; simpl; try discriminate.
  - intros T H. injection H as <-. destruct s as [|c s]; [discriminate|].
    unfold characters.
    destruct (chars_cons (String c s)) as (ch & rest & ->); discriminate.
  - intros T H. injection H as <-. destruct l; [discriminate|]. discriminate.
  - intros T H. injection H as <-. destruct d; [discriminate|]. discriminate.
Qed.

Lemma normalize_returned (data : value) (rows : DataFrame)
  (err : option message) :
  normalize data = Return (rows, err) ->
  (rows = [] /\ err = Some (Text "No products found.")) \/
  (rows <> [] /\ err = None).
Proof.
  unfold normalize.
  destruct (products_at data) as [products|e]; simpl; [|discriminate].
  destruct (truthy products) eqn:T; simpl.
  - destruct (iterate products) as [items|e] eqn:I; simpl; [|discriminate].
    destruct (clean_loop [] items) as [out|e] eqn:L; simpl; [|discriminate].
    intros H. injection H as <- <-. right. split; [|reflexivity].
    destruct (clean_loop_returned items [] out L) as (rs & -> & HF).
    pose proof (iterate_truthy products items T I) as Hne.
    destruct HF; [contradiction|]. discriminate.
  - intros H. injection H as <- <-. left. auto.
Qed.

Lemma fetch_data_outcome (query sort_code : string) (w : world) :
  (fst (fst (fetch_data query sort_code w)) = [] /\
   exists m, snd (fst (fetch_data query sort_code w)) = Some m /\
             message_shown m = true) \/
  (fst (fst (fetch_data query sort_code w)) <> [] /\
   snd (fst (fetch_data query sort_code w)) = None).
Proof.
  unfold fetch_data.
  destruct (RAPIDAPI_KEY w) as [k|]; [|left; simpl; eauto].
  destruct (k =? ""); [left; simpl; eauto|]. simpl.
  destruct (service w _) as [e|[data|e]]; cbn [bind fst snd];
    try solve [left; simpl; eauto].
  destruct (normalize data) as [[rows err]|e] eqn:N;
    cbn [fst snd]; [|left; simpl; eauto].
  destruct (normalize_returned data rows err N) as [[-> ->] | [Hne ->]].
  - left. simpl. eauto.
  - right. simpl. auto.
Qed.

(** X1: a call returns either no record together with a non-empty
    message, or at least one record and no message. *)
Theorem records_or_message (query sort_code : string) (w : world) :
  let result := fst (fetch_data query sort_code w) in
  (fst result = [] /\
   exists m, snd result = Some m /\ message_shown m = true) \/
  (fst result <> [] /\ snd result = None).
Proof. exact (fetch_data_outcome query sort_code w). Qed.

(** X2: the sidebar reports the key as loaded exactly when the call
    sends a request; it then sends exactly one, whatever the reply, and
    otherwise it changes nothing and returns the missing-key message.
    The credential and the service are never changed. *)
Theorem one_request_when_key_loaded (query sort_code : string) (w : world) :
  let w' := snd (fetch_data query sort_code w) in
  RAPIDAPI_KEY w' = RAPIDAPI_KEY w /\ service w' = service w /\
  (key_loaded w = true ->
   exists k, RAPIDAPI_KEY w = Some k /\
             sent w' = search_request k query sort_code :: sent w) /\
  (key_loaded w = false ->
   w' = w /\
   fst (fetch_data query sort_code w) =
     ([], Some (Text "Missing API key in environment variables."))).
Proof.
  cbv zeta. unfold fetch_data, key_loaded.
  destruct (RAPIDAPI_KEY w) as [k|] eqn:K.
  - destruct (k =? "") eqn:E; cbn [negb send fst snd].
    + rewrite K. split; [reflexivity|]. split; [reflexivity|].
      split; [discriminate|auto].
    + destruct (match service w (search_request k query sort_code) with
                | GetRaises e => Raise e
                | Responds json => data <- json;; normalize data
                end) as [res|e]; cbn [fst snd RAPIDAPI_KEY service sent];
        (split; [exact K|]; split; [reflexivity|];
         split; [eauto|discriminate]).
  - cbn [fst snd]. rewrite K. split; [reflexivity|]. split; [reflexivity|].
    split; [discriminate|auto].
Qed.

Section Failures.

Variables (query sort_code : string) (w : world) (api_key : string).
Hypothesis Hconfigured : configured w api_key.

(** X3: when the request raises, or the body cannot be decoded, the
    call returns no record and the server error built from that very
    exception. *)
Theorem failed_request_is_server_error (e : exn) :
  service w (search_request api_key query sort_code) = GetRaises e \/
  service w (search_request api_key query sort_code) = Responds (Raise e) ->
  fst (fetch_data query sort_code w) = ([], Some (ServerError e)).
Proof.
  intros H. rewrite (fetch_data_configured query sort_code w api_key
                       Hconfigured).
  destruct H as [-> | ->]; reflexivity.
Qed.

(** X4: a body of unexpected shape ends in a server error: a body that
    is not an object, or whose [data] is not an object, raises
    AttributeError; products that are truthy but not a list raise
    AttributeError for a string or an object and TypeError for a number
    or [true]. *)
Theorem unexpected_shape_is_server_error (body : value) :
  answers w api_key query sort_code body ->
  (is_dict body = false ->
   fst (fetch_data query sort_code w) = ([], Some (ServerError AttributeError)))
  /\
  (forall d inner,
     body = VDict d -> lookup "data" d = Some inner -> is_dict inner = false ->
     fst (fetch_data query sort_code w)
     = ([], Some (ServerError AttributeError)))
  /\
  (forall products,
     products_at body = Return products ->
     truthy products = true -> is_list products = false ->
     fst (fetch_data query sort_code w)
     = ([], Some (ServerError (loop_error products)))).
Proof.
  intros Ha.
  rewrite (fetch_data_answered query sort_code w api_key body Hconfigured Ha).
  split; [|split].
  - intros H. destruct body; try discriminate; reflexivity.
  - intros d inner -> Hl Hi. unfold normalize, products_at. simpl.
    rewrite (lookup_or_some _ _ _ _ Hl).
    destruct inner; try discriminate; reflexivity.
  - intros products Hp T L. unfold normalize. rewrite Hp. simpl. rewrite T.
    simpl. destruct products as [| b | n | x | s | l | d];
      try discriminate; try reflexivity.
    + destruct s as [|c s]; [discriminate|].
      destruct (chars_cons (String c s)) as (ch & rest & E);
        [discriminate|].
      unfold iterate, characters. rewrite E. reflexivity.
    + destruct d as [|[k v] d]; [discriminate|]. reflexivity.
Qed.

(** X5: the first item that raises decides the outcome: the items before
    it are cleaned and then dropped, the items after it are not looked
    at, and the message carries the exception of that item. *)
Theorem first_failure_decides (data : value) (good rest : list value)
  (bad : value) (e : exn) :
  answers w api_key query sort_code data ->
  products_at data = Return (VList (good ++ bad :: rest)) ->
  Forall (fun item => exists r, cleaned item r) good ->
  clean_item bad = Raise e ->
  fst (fetch_data query sort_code w) = ([], Some (ServerError e)).
Proof.
  intros Ha Hp Hgood Hbad.
  rewrite (fetch_data_answered query sort_code w api_key data Hconfigured Ha).
  rewrite (normalize_products data _ Hp)
    by (destruct good; discriminate).
  assert (H : forall acc, clean_loop acc (good ++ bad :: rest) = Raise e).
  { clear Hp. induction Hgood as [|item l [r Hr] _ IH]; intros acc; simpl.
    - rewrite Hbad. reflexivity.
    - unfold cleaned in Hr. rewrite Hr. simpl. apply IH. }
  rewrite H. reflexivity.
Qed.

End Failures.

(** ** The rows *)

Lemma format_of_range (title : value) (fmt : string) :
  format_of title = Return fmt -> In fmt formats.
Proof.
  unfold format_of, formats.
  destruct (contains "Paperback" title) as [[]|]; simpl;
    [intros H; injection H as <-; auto | | discriminate].
  destruct (contains "Hardcover" title) as [[]|]; simpl;
    [intros H; injection H as <-; auto | | discriminate].
  destruct (contains "Audiobook" title) as [[]|]; simpl;
    [intros H; injection H as <-; auto | | discriminate].
  intros H; injection H as <-; auto.
Qed.

Lemma clean_item_not_dict (item : value) :
  is_dict item = false -> clean_item item = Raise AttributeError.
Proof. destruct item; try discriminate; reflexivity. Qed.

Lemma cleaned_dict (item : value) (r : row) :
  cleaned item r -> exists d, item = VDict d.
Proof.
  unfold cleaned. destruct item as [| | | | | |d];
    try (intros H; discriminate H). eauto.
Qed.

Lemma cleaned_well_formed (item : value) (r : row) :
  cleaned item r -> well_formed_row r.
Proof.
  intros H. destruct (cleaned_dict item r H) as [d ->].
  destruct (clean_item_returned d r H) as (x & n & f & _ & _ & Hf & ->).
  unfold well_formed_row, row_of. do 8 eexists. split; [reflexivity|].
  split; [exact (format_of_range _ _ Hf)|].
  destruct (truthy _); auto.
Qed.

(** The records of a call are the rows cleaned from the items gone
    through, one for one. *)
Lemma fetch_data_rows (query sort_code : string) (w : world) :
  fst (fst (fetch_data query sort_code w)) = [] \/
  exists api_key data products items,
    configured w api_key /\ answers w api_key query sort_code data /\
    products_at data = Return products /\
    iterate products = Return items /\
    Forall2 cleaned items (fst (fst (fetch_data query sort_code w))).
Proof.
  destruct (RAPIDAPI_KEY w) as [k|] eqn:K;
    [|left; unfold fetch_data; rewrite K; reflexivity].
  destruct (k =? "") eqn:E;
    [left; unfold fetch_data; rewrite K, E; reflexivity|].
  assert (Hc : configured w k).
  { split; [exact K|]. intros ->. discriminate. }
  rewrite (fetch_data_configured query sort_code w k Hc).
  destruct (service w _) as [e|[data|e]] eqn:S; cbn [bind fst snd];
    try (left; reflexivity).
  unfold normalize.
  destruct (products_at data) as [products|e] eqn:P; cbn [bind];
    [|left; reflexivity].
  destruct (truthy products); cbn [negb]; [|left; reflexivity].
  destruct (iterate products) as [items|e] eqn:I; cbn [bind];
    [|left; reflexivity].
  destruct (clean_loop [] items) as [out|e] eqn:L; cbn [bind fst];
    [|left; reflexivity].
  destruct (clean_loop_returned items [] out L) as (rs & -> & HF).
  right. exists k, data, products, items. auto.
Qed.

(** X6: every record a call returns has the eight columns in the order
    Title, Rating, Reviews, Price, Format, Best_Seller, Image, Link,
    with floats for rating and price, an integer for the reviews, one of
    the four formats and "Yes" or "No" as best-seller mark. *)
Theorem rows_well_formed (query sort_code : string) (w : world) :
  Forall well_formed_row (fst (fst (fetch_data query sort_code w))).
Proof.
  destruct (fetch_data_rows query sort_code w) as [-> | H];
    [constructor|].
  destruct H as (k & data & products & items & _ & _ & _ & _ & HF).
  induction HF as [|item r items rows H _ IH]; constructor;
    [exact (cleaned_well_formed item r H) | exact IH].
Qed.

(** X7: the row of an item depends only on the seven keys that are
    read: two items that agree on them are cleaned alike, whatever
    other keys they carry and in whatever order. *)
Theorem unread_keys_ignored (d1 d2 : list (string * value)) :
  (forall k, In k read_keys -> lookup k d1 = lookup k d2) ->
  clean_item (VDict d1) = clean_item (VDict d2).
Proof.
  intros H. rewrite !clean_item_dict. unfold row_of, lookup_or.
  rewrite !(H "product_price"), !(H "product_star_rating"),
    !(H "product_num_ratings"), !(H "product_title"),
    !(H "is_best_seller"), !(H "product_photo"), !(H "product_url");
    try reflexivity; simpl; auto 10.
Qed.

Lemma unread_keys_ignored_witness :
  clean_item (VDict [("asin", VStr "B000"); ("product_title", VStr "Dune");
                     ("currency", VStr "USD")])
  = clean_item (VDict [("product_title", VStr "Dune")]).
Proof.
  apply (unread_keys_ignored
           [("asin", VStr "B000"); ("product_title", VStr "Dune");
            ("currency", VStr "USD")]
           [("product_title", VStr "Dune")]).
  intros k Hk. simpl in Hk.
  repeat (destruct Hk as [<- | Hk]; [reflexivity|]). destruct Hk.
Defined.

Lemma rating_of_plain (ip : string) (frac : option string) :
  well_formed_amount ip frac ->
  Str.forallb Str.is_digit ip = true ->
  rating_of (VStr (amount_text ip frac)) = Return (amount_value ip frac).
Proof.
  intros Hwf Hd.
  assert (E : amount_text ip frac = plain_text ip frac).
  { unfold amount_text, plain_text. rewrite (filter_all _ _ Hd). reflexivity. }
  rewrite E. unfold rating_of. simpl truthy.
  assert (Hne : plain_text ip frac <> "").
  { unfold plain_text. destruct Hwf as (_ & _ & Hne).
    destruct frac as [fd|]; simpl in *.
    - destruct (Str.filter Str.is_digit ip); discriminate.
    - exact Hne. }
  rewrite (string_eqb_false _ _ Hne). simpl.
  rewrite (float_of_plain ip frac Hwf). reflexivity.
Qed.

(** X8: a rating written as a decimal numeral, digits with an optional
    point and more digits, is read without an exception, as the double
    nearest to the number the numeral writes: the number written by its
    digits over ten to the number of its decimals. *)
Theorem rating_of_numeral (ip : string) (frac : option string) :
  well_formed_amount ip frac ->
  Str.forallb Str.is_digit ip = true ->
  exists x,
    rating_of (VStr (amount_text ip frac)) = Return x /\
    nearest false (written (ip ++ fraction_digits frac))
      (10 ^ Z.of_nat (length (fraction_digits frac))) x.
Proof.
  intros Hwf Hd. exists (amount_value ip frac).
  split; [apply rating_of_plain; assumption|].
  pose proof (amount_value_nearest ip frac Hwf) as H.
  unfold amount_numerator, amount_denominator in H.
  rewrite (filter_all _ _ Hd) in H. exact H.
Qed.

Lemma rating_of_numeral_witness :
  exists x, rating_of (VStr "4.7") = Return x /\ nearest false 47 10 x.
Proof.
  apply (rating_of_numeral "4" (Some "7")).
  - split; [reflexivity|]. split; [reflexivity|discriminate].
  - reflexivity.
Defined.

(** ** The query *)


(** ** The cache *)

Lemma cached_first (query sort_code : string)
  (res : DataFrame * option message) (c : cache) :
  cached query sort_code (((query, sort_code), res) :: c) = Some res.
Proof. simpl. rewrite !String.eqb_refl. reflexivity. Qed.

Lemma cached_fetch_data_hit (query sort_code : string) (c : cache)
  (w : world) (res : DataFrame * option message) :
  cached query sort_code c = Some res ->
  cached_fetch_data query sort_code c w = (res, c, w).
Proof. intros H. unfold cached_fetch_data. rewrite H. reflexivity. Qed.

Lemma cached_fetch_data_miss (query sort_code : string) (c : cache)
  (w : world) :
  cached query sort_code c = None ->
  cached_fetch_data query sort_code c w =
  (fst (fetch_data query sort_code w),
   ((query, sort_code), fst (fetch_data query sort_code w)) :: c,
   snd (fetch_data query sort_code w)).
Proof.
  intros H. unfold cached_fetch_data. rewrite H.
  destruct (fetch_data query sort_code w). reflexivity.
Qed.

(** Whatever the cache, filled by calls, gives back was returned by the
    body for these arguments in some world. *)
Lemma cached_fetch_data_result (query sort_code : string) (c : cache)
  (w : world) :
  filled_by_calls c ->
  exists w0,
    fst (fst (cached_fetch_data query sort_code c w))
    = fst (fetch_data query sort_code w0).
Proof.
  intros Hc. destruct (cached query sort_code c) as [res|] eqn:E.
  - rewrite (cached_fetch_data_hit _ _ _ _ _ E).
    destruct (Hc _ _ _ E) as [w0 H]. exists w0. symmetry. exact H.
  - rewrite (cached_fetch_data_miss _ _ _ _ E). exists w. reflexivity.
Qed.

(** X20: a result is computed once for each pair of query and sort
    code: whatever a call returns, a message for a failure included, a
    later call with the same pair returns it again and sends no request,
    even when the service or the credential has changed in between; the
    cache only ever keeps what the body returned. *)
Theorem result_computed_once (query sort_code : string) (c c1 : cache)
  (w w1 : world) (res : DataFrame * option message) :
  cached_fetch_data query sort_code c w = (res, c1, w1) ->
  (forall w2, cached_fetch_data query sort_code c1 w2 = (res, c1, w2)) /\
  (filled_by_calls c -> filled_by_calls c1).
Proof.
  intros H. destruct (cached query sort_code c) as [res'|] eqn:E.
  - rewrite (cached_fetch_data_hit _ _ _ _ _ E) in H.
    injection H as <- <- <-. split; [|auto].
    intros w2. apply cached_fetch_data_hit. exact E.
  - rewrite (cached_fetch_data_miss _ _ _ _ E) in H.
    injection H as <- <- <-. split.
    + intros w2. apply cached_fetch_data_hit. apply cached_first.
    + intros Hc q s res H. simpl in H.
      destruct ((query =? q) && (sort_code =? s)) eqn:K.
      * apply andb_true_iff in K. destruct K as [K1 K2].
        apply String.eqb_eq in K1, K2. subst q s.
        injection H as <-. exists w. reflexivity.
      * exact (Hc q s res H).
Qed.

Lemma result_computed_once_witness :
  cached_fetch_data "history books" "NEWEST"
    [(("history books", "NEWEST"),
      ([], Some (ServerError (RequestException "timed out"))))]
    example_world
  = (([], Some (ServerError (RequestException "timed out"))),
     [(("history books", "NEWEST"),
       ([], Some (ServerError (RequestException "timed out"))))],
     example_world).
Proof.
  apply (result_computed_once "history books" "NEWEST" []
           [(("history books", "NEWEST"),
             ([], Some (ServerError (RequestException "timed out"))))]
           (refusing (Some "secret") (RequestException "timed out"))
           {| RAPIDAPI_KEY := Some "secret";
              service := fun _ => GetRaises (RequestException "timed out");
              sent := [search_request "secret" "history books" "NEWEST"] |}
           ([], Some (ServerError (RequestException "timed out")))).
  reflexivity.
Defined.

(** The state, cache and world after a press that is not stopped. *)
Lemma run_analysis_ran (now later : float) (q s : string) (st : session)
  (c : cache) (w : world) :
  too_soon now st = false ->
  run_analysis now later q s st c w =
  (false,
   {| data := Some (fst (fst (fst (cached_fetch_data q s c w))));
      error := snd (fst (fst (cached_fetch_data q s c w)));
      last_run := Some later |},
   snd (fst (cached_fetch_data q s c w)),
   snd (cached_fetch_data q s c w)).
Proof.
  intros H. unfold run_analysis. rewrite H.
  destruct (cached_fetch_data q s c w) as [[[df err] c'] w']. reflexivity.
Qed.

(** X12: for every category and every sort option the select boxes
    offer, the category's search text is already clean, and a press that
    is not stopped, with a key configured and nothing kept for that
    text and that option's code, sends exactly the request for them. *)
Theorem offered_selection_request (category sort_name : string)
  (now later : float) (st : session) (c : cache) (w : world)
  (api_key : string) :
  In category (keys CATEGORIES) ->
  In sort_name (keys SORT_OPTIONS) ->
  configured w api_key ->
  too_soon now st = false ->
  exists raw_query api_sort_code,
    item category CATEGORIES = Some raw_query /\
    item sort_name SORT_OPTIONS = Some api_sort_code /\
    clean_query raw_query = raw_query /\
    (cached raw_query api_sort_code c = None ->
     exists st' c' w',
       sidebar category sort_name true now later st c w
       = Some (false, st', c', w') /\
       sent w' = search_request api_key raw_query api_sort_code :: sent w).
Proof.
  intros Hc Hs Hk Ht.
  assert (Hrun : forall q s,
             cached q s c = None ->
             exists st' c' w',
               Some (run_analysis now later q s st c w)
               = Some (false, st', c', w') /\
               sent w' = search_request api_key q s :: sent w).
  { intros q s Hmiss. rewrite (run_analysis_ran now later q s st c w Ht).
    do 3 eexists. split; [reflexivity|].
    rewrite (cached_fetch_data_miss q s c w Hmiss). cbn [snd].
    rewrite (fetch_data_configured q s w api_key Hk). reflexivity. }
  simpl in Hc, Hs.
  repeat (destruct Hc as [<- | Hc]; [|]); try contradiction;
    repeat (destruct Hs as [<- | Hs]; [|]); try contradiction;
    do 2 eexists; (split; [reflexivity|]); (split; [reflexivity|]);
    (split; [reflexivity|]); apply Hrun.
Qed.

(** ** The button *)

(** X13: a first press is never stopped; once a press has run, a press
    whose clock reading is less than two seconds after the time stored
    by that run is stopped: it leaves the session and the cache as they
    are and sends no request. *)
Theorem second_press_is_stopped (now later now' later' : float)
  (q s q' s' : string) (st st1 : session) (c c1 : cache) (w w1 : world) :
  run_analysis now later q s st c w = (false, st1, c1, w1) ->
  SFltb (SFsub prec emax now' later) two = true ->
  too_soon now new_session = false /\
  last_run st1 = Some later /\
  run_analysis now' later' q' s' st1 c1 w1 = (true, st1, c1, w1).
Proof.
  intros Hrun Hlt. split; [reflexivity|].
  unfold run_analysis in Hrun.
  destruct (too_soon now st); [discriminate|].
  destruct (cached_fetch_data q s c w) as [[[df err] c2] w2].
  injection Hrun as <- <- <-. split; [reflexivity|].
  unfold run_analysis, too_soon. simpl. rewrite Hlt. reflexivity.
Qed.

(** ** The main area *)

(** X14: a new session shows the prompt; after a press that has run,
    on a cache filled by calls, the main area never shows the prompt:
    it shows the results, with as many books found as records, exactly
    when records were returned, and otherwise the message returned. *)
Theorem view_after_press (now later : float) (q s : string)
  (st st' : session) (c c' : cache) (w w' : world) :
  run_analysis now later q s st c w = (false, st', c', w') ->
  filled_by_calls c ->
  main_view new_session = Prompt /\
  main_view st' <> Prompt /\
  exists rows,
    data st' = Some rows /\
    (rows <> [] ->
     main_view st' =
     Results (List.length rows)
       (List.length (List.filter is_best_seller rows)) (cards rows)) /\
    (rows = [] ->
     exists m, error st' = Some m /\ main_view st' = Failure m).
Proof.
  intros Hrun Hc. split; [reflexivity|].
  unfold run_analysis in Hrun.
  destruct (too_soon now st); [discriminate|].
  destruct (cached_fetch_data_result q s c w Hc) as [w0 Hres].
  pose proof (fetch_data_outcome q s w0) as Hcases.
  rewrite <- Hres in Hcases.
  destruct (cached_fetch_data q s c w) as [[[df err] c2] w2]. simpl in *.
  injection Hrun as <- <- <-. unfold main_view. simpl.
  destruct Hcases as [[-> (m & -> & Hm)] | [Hne ->]].
  - rewrite Hm. split; [discriminate|]. exists [].
    split; [reflexivity|]. split; [intros H; contradiction|].
    intros _. eauto.
  - destruct df as [|r df]; [contradiction|].
    split; [discriminate|]. exists (r :: df).
    split; [reflexivity|]. split; [reflexivity|]. intros H. discriminate.
Qed.

Lemma best_seller_mark (d : list (string * value)) (rating : float)
  (reviews : Z) (fmt : string) :
  is_best_seller (row_of d rating reviews fmt) = flagged d.
Proof.
  unfold is_best_seller, row_of, flagged. simpl.
  destruct (truthy _); reflexivity.
Qed.

Lemma cleaned_counts (ds : list (list (string * value))) :
  forall rows,
    Forall2 cleaned (List.map VDict ds) rows ->
    List.length rows = List.length ds /\
    List.length (List.filter is_best_seller rows)
    = List.length (List.filter flagged ds).
Proof.
  induction ds as [|d ds IH]; intros rows H; inversion H; subst; simpl.
  - auto.
  - match goal with
    | Hc : cleaned (VDict d) ?r, Hf : Forall2 cleaned _ ?l |- _ =>
        destruct (clean_item_returned d r Hc) as (x & n & f & _ & _ & _ & ->);
        destruct (IH l Hf) as [IH1 IH2]
    end.
    rewrite best_seller_mark. split; [congruence|].
    destruct (flagged d); simpl; congruence.
Qed.

(** X15: when the items are objects and all of them are cleaned, the
    main area shows as books found the number of items received and as
    best sellers the number of items whose best-seller flag is truthy. *)
Theorem metrics_count_items (query sort_code : string) (w : world)
  (api_key : string) (body : value) (ds : list (list (string * value)))
  (t : option float) :
  configured w api_key ->
  answers w api_key query sort_code body ->
  products_at body = Return (VList (List.map VDict ds)) ->
  ds <> [] ->
  Forall (fun d => exists r, cleaned (VDict d) r) ds ->
  main_view {| data := Some (fst (fst (fetch_data query sort_code w)));
               error := snd (fst (fetch_data query sort_code w));
               last_run := t |}
  = Results (List.length ds) (List.length (List.filter flagged ds))
      (cards (fst (fst (fetch_data query sort_code w)))).
Proof.
  intros Hc Ha Hp Hne Hall.
  assert (Hrows : exists rows, Forall2 cleaned (List.map VDict ds) rows).
  { clear Hne Hp. induction Hall as [|d l [r Hr] _ [rows IH]].
    - exists []. constructor.
    - exists (r :: rows). constructor; assumption. }
  destruct Hrows as [rows HF].
  rewrite (fetch_data_answered query sort_code w api_key body Hc Ha).
  rewrite (normalize_products body _ Hp) by (destruct ds; [contradiction|discriminate]).
  rewrite (clean_loop_returns _ rows HF). simpl.
  destruct (cleaned_counts ds rows HF) as [H1 H2].
  unfold main_view. simpl.
  destruct rows as [|r rows]; [destruct ds; [contradiction|discriminate]|].
  rewrite <- H1, <- H2. reflexivity.
Qed.

(** ** The grid *)

Lemma nth_error_numbered (A : Type) (l : list A) :
  forall a k,
    nth_error (combine (seq a (List.length l)) l) k =
    option_map (fun r => ((a + k)%nat, r)) (nth_error l k).
Proof.
  induction l as [|x l IH]; intros a k; simpl.
  - destruct k; reflexivity.
  - destruct k as [|k]; simpl.
    + rewrite Nat.add_0_r. reflexivity.
    + rewrite IH. replace (S a + k)%nat with (a + S k)%nat by lia.
      reflexivity.
Qed.

Lemma card_at_place (index : nat) (r : row) :
  (col (card_at index r) < 5)%nat /\
  (divider (card_at index r) = true <-> col (card_at index r) = 4%nat).
Proof.
  unfold card_at. cbn [col divider].
  pose proof (Nat.mod_upper_bound index 5 ltac:(discriminate)) as Hlt.
  split; [exact Hlt|].
  rewrite Nat.Div0.add_mod, Nat.eqb_eq.
  remember (index mod 5)%nat as m eqn:E. clear E.
  do 5 (destruct m as [|m]; [simpl; split; intros; try discriminate;
                             try reflexivity|]).
  lia.
Qed.

(** X16: the grid draws the first ten records and no more, the k-th of
    them in column k mod 5, so that each of the five columns holds at
    most two cards; a divider follows a card exactly when the card is in
    the last column. *)
Theorem grid_layout (df : DataFrame) :
  List.length (cards df) = Nat.min 10 (List.length df) /\
  (forall k r, (k < 10)%nat -> nth_error df k = Some r ->
               nth_error (cards df) k = Some (card_at k r)) /\
  Forall (fun c => (col c < 5)%nat /\ (divider c = true <-> col c = 4%nat))
         (cards df) /\
  (forall j, (cards_in j (cards df) <= 2)%nat).
Proof.
  split; [|split; [|split]].
  - unfold cards, top_10.
    rewrite length_map, length_combine, length_seq, Nat.min_id.
    apply length_firstn.
  - intros k r Hk Hr. unfold cards, top_10.
    rewrite nth_error_map, nth_error_numbered, nth_error_firstn.
    destruct (Nat.ltb_spec k 10) as [_|H]; [|lia].
    rewrite Hr. reflexivity.
  - unfold cards. apply Forall_forall. intros c Hc.
    apply in_map_iff in Hc. destruct Hc as ([index r] & <- & _).
    apply card_at_place.
  - intros j. unfold cards_in, cards, top_10.
    do 10 (destruct df as [|? df];
           [do 5 (destruct j as [|j]; [cbn; lia|]); cbn; lia|]).
    do 5 (destruct j as [|j]; [cbn; lia|]); cbn; lia.
Qed.

(** ** The cards *)

Lemma chars_from_continued (r cur : string) :
  Str.forallb Str.is_continuation r = true ->
  Str.chars_from cur r = [(cur ++ r)%string].
Proof.
  revert cur. induction r as [|c r IH]; intros cur H; simpl in *.
  - rewrite append_nil_r. reflexivity.
  - apply andb_true_iff in H. destruct H as [H1 H2].
    rewrite H1, (IH _ H2), append_assoc. reflexivity.
Qed.

Lemma chars_whole (ch : string) : whole_char ch = true -> Str.chars ch = [ch].
Proof.
  destruct ch as [|c r]; [discriminate|]. intros H.
  apply (chars_from_continued r (String c "") H).
Qed.

(** The characters of two texts put together, when the second one does
    not start inside a character. *)
Lemma chars_from_app (s t cur : string) :
  starts_char t = true ->
  Str.chars_from cur (s ++ t) = (Str.chars_from cur s ++ Str.chars t)%list.
Proof.
  intros Ht. revert cur. induction s as [|c s IH]; intros cur; simpl.
  - destruct t as [|a t]; [discriminate|]. simpl in *.
    apply negb_true_iff in Ht. rewrite Ht. reflexivity.
  - destruct (Str.is_continuation c); rewrite IH; reflexivity.
Qed.

Lemma chars_app (s t : string) :
  starts_char t = true ->
  Str.chars (s ++ t) = (Str.chars s ++ Str.chars t)%list.
Proof.
  intros Ht. destruct s as [|c s]; [reflexivity|].
  apply chars_from_app. exact Ht.
Qed.

Lemma leading_whole (ch : string) :
  leading_char ch = true -> whole_char ch = true /\ starts_char ch = true.
Proof.
  destruct ch as [|c r]; [discriminate|]. simpl. intros H.
  apply andb_true_iff in H. tauto.
Qed.

Lemma chars_from_leading (s cur : string) :
  leading_char cur = true ->
  Forall (fun ch => leading_char ch = true) (Str.chars_from cur s).
Proof.
  revert cur. induction s as [|c s IH]; intros cur H; simpl.
  - constructor; [exact H|constructor].
  - destruct (Str.is_continuation c) eqn:C.
    + apply IH. destruct cur as [|a r]; [discriminate|]. simpl in *.
      apply andb_true_iff in H. destruct H as [H1 H2].
      rewrite H1, forallb_app, H2. simpl. rewrite C. reflexivity.
    + constructor; [exact H|]. apply IH. simpl. rewrite C. reflexivity.
Qed.

Lemma chars_from_whole (s cur : string) :
  whole_char cur = true -> characters_of (Str.chars_from cur s).
Proof.
  revert cur. induction s as [|c s IH]; intros cur H; simpl.
  - split; [exact H|constructor].
  - destruct (Str.is_continuation c) eqn:C.
    + apply IH. destruct cur as [|a r]; [discriminate|]. simpl in *.
      rewrite forallb_app, H. simpl. rewrite C. reflexivity.
    + split; [exact H|]. apply chars_from_leading. simpl. rewrite C.
      reflexivity.
Qed.

Lemma chars_characters (s : string) : characters_of (Str.chars s).
Proof.
  destruct s as [|c s]; [exact I|]. apply chars_from_whole. reflexivity.
Qed.

Lemma concat_leading (l : list string) :
  Forall (fun ch => leading_char ch = true) l ->
  l <> [] -> starts_char (String.concat "" l) = true.
Proof.
  intros H Hne. destruct H as [|ch rest H _]; [contradiction|].
  destruct ch as [|c r]; [discriminate|].
  simpl in H. apply andb_true_iff in H. destruct H as [H _].
  destruct rest; simpl; exact H.
Qed.

(** Characters put together are read back as they are. *)
Lemma chars_concat_leading (l : list string) :
  Forall (fun ch => leading_char ch = true) l ->
  Str.chars (String.concat "" l) = l.
Proof.
  induction 1 as [|ch rest H HF IH]; [reflexivity|].
  destruct (leading_whole ch H) as [Hw _].
  destruct rest as [|ch' rest'].
  - simpl. apply chars_whole. exact Hw.
  - change (String.concat "" (ch :: ch' :: rest'))
      with (ch ++ "" ++ String.concat "" (ch' :: rest'))%string.
    cbn [append]. rewrite chars_app by (apply concat_leading; [exact HF|discriminate]).
    rewrite IH, (chars_whole ch Hw). reflexivity.
Qed.

Lemma chars_concat (l : list string) :
  characters_of l -> Str.chars (String.concat "" l) = l.
Proof.
  destruct l as [|ch rest]; [reflexivity|]. intros [Hw HF].
  destruct rest as [|ch' rest'].
  - simpl. apply chars_whole. exact Hw.
  - change (String.concat "" (ch :: ch' :: rest'))
      with (ch ++ "" ++ String.concat "" (ch' :: rest'))%string.
    cbn [append]. rewrite chars_app by (apply concat_leading; [exact HF|discriminate]).
    rewrite (chars_concat_leading _ HF), (chars_whole ch Hw). reflexivity.
Qed.

Lemma Forall_firstn_skipn (A : Type) (P : A -> Prop) (n : nat) (l : list A) :
  Forall P l -> Forall P (firstn n l) /\ Forall P (skipn n l).
Proof.
  intros H. apply Forall_app. rewrite firstn_skipn. exact H.
Qed.

Lemma characters_firstn (n : nat) (l : list string) :
  characters_of l -> characters_of (firstn n l).
Proof.
  destruct l as [|ch rest]; [destruct n; auto|].
  destruct n as [|n]; [intros _; exact I|]. intros [Hw HF].
  split; [exact Hw|]. apply Forall_firstn_skipn. exact HF.
Qed.

Lemma concat_chars_from (s cur : string) :
  String.concat "" (Str.chars_from cur s) = (cur ++ s)%string.
Proof.
  revert cur. induction s as [|c s IH]; intros cur; cbn [Str.chars_from].
  - symmetry. apply append_nil_r.
  - destruct (Str.is_continuation c).
    + rewrite IH, append_assoc. reflexivity.
    + pose proof (IH (String c "")) as H.
      destruct (chars_from_cons s (String c "")) as (ch & rest & E).
      rewrite E in *.
      change (String.concat "" (cur :: ch :: rest))
        with (cur ++ "" ++ String.concat "" (ch :: rest))%string.
      rewrite H. reflexivity.
Qed.

(** A text is its characters put together. *)
Lemma concat_chars (s : string) : String.concat "" (Str.chars s) = s.
Proof.
  destruct s as [|c s]; [reflexivity|]. apply (concat_chars_from s (String c "")).
Qed.

Lemma concat_app (a b : list string) :
  String.concat "" (a ++ b)
  = (String.concat "" a ++ String.concat "" b)%string.
Proof.
  induction a as [|x a IH]; [reflexivity|].
  destruct a as [|y a].
  - destruct b as [|z b]; simpl; [rewrite append_nil_r|]; reflexivity.
  - change (String.concat "" ((x :: y :: a) ++ b))
      with (x ++ "" ++ String.concat "" ((y :: a) ++ b))%string.
    rewrite IH. cbn [append String.concat].
    rewrite append_assoc. reflexivity.
Qed.

(** X17: a title of at most 40 characters is shown as it is; a longer
    one is shown as its first 40 characters followed by three dots, the
    cut falling between two characters; the text shown never exceeds 43
    characters. *)
Theorem shown_title_bounds (title : string) :
  ((Str.len title <= 40)%nat -> shown_title title = title) /\
  ((40 < Str.len title)%nat ->
   Str.chars (shown_title title)
   = (firstn 40 (Str.chars title) ++ Str.chars "...")%list /\
   exists tail,
     title = (Str.first_chars 40 title ++ tail)%string /\
     Str.chars title
     = (Str.chars (Str.first_chars 40 title) ++ Str.chars tail)%list) /\
  (Str.len (shown_title title) <= 43)%nat.
Proof.
  pose proof (chars_characters title) as Hc.
  assert (Hhead : Str.chars (Str.first_chars 40 title)
                  = firstn 40 (Str.chars title)).
  { apply chars_concat, characters_firstn, Hc. }
  assert (Hlong : (40 < Str.len title)%nat ->
                  Str.chars (Str.first_chars 40 title ++ "...")
                  = (firstn 40 (Str.chars title) ++ Str.chars "...")%list).
  { intros _. rewrite chars_app by reflexivity. rewrite Hhead. reflexivity. }
  unfold shown_title.
  destruct (Nat.ltb_spec 40 (Str.len title)) as [H|H].
  - split; [lia|]. split.
    + intros _. split; [exact (Hlong H)|].
      exists (String.concat "" (skipn 40 (Str.chars title))).
      unfold Str.first_chars at 1. rewrite <- concat_app, firstn_skipn.
      split; [symmetry; apply concat_chars|].
      rewrite Hhead.
      rewrite chars_concat_leading; [symmetry; apply firstn_skipn|].
      unfold Str.len in H.
      destruct (Str.chars title) as [|ch rest]; [simpl in H; lia|].
      destruct Hc as [_ HF]. cbn [skipn].
      apply (Forall_firstn_skipn _ _ 39 rest HF).
    + unfold Str.len in *. rewrite (Hlong H), length_app, length_firstn.
      change (List.length (Str.chars "...")) with 3%nat. lia.
  - split; [reflexivity|]. split; [lia|]. lia.
Qed.

Lemma shown_title_bounds_witness :
  shown_title dashed_title = dashed_title /\
  Str.len dashed_title = 40%nat /\ length dashed_title = 42%nat.
Proof.
  split; [|split; reflexivity].
  apply (proj1 (shown_title_bounds dashed_title)).
  apply Nat.leb_le. reflexivity.
Defined.

(** A title of 41 characters is cut after the fortieth, here the em
    dash, whose three bytes stay together. *)
Example shown_title_cut :
  shown_title (dashed_title ++ "y") = (dashed_title ++ "...")%string.
Proof. reflexivity. Qed.

(** X18: the badge of a title that is a string is green exactly when
    "Paperback" occurs in it, orange exactly when "Hardcover" occurs and
    "Paperback" does not, and gray otherwise: an audiobook and a title
    of no known format get the same colour. *)
Theorem badge_follows_title (t : string) :
  exists fmt,
    format_of (VStr t) = Return fmt /\
    (badge_color fmt = "green" <-> occurs "Paperback" t) /\
    (badge_color fmt = "orange" <->
     ~ occurs "Paperback" t /\ occurs "Hardcover" t) /\
    (badge_color fmt = "gray" <->
     ~ occurs "Paperback" t /\ ~ occurs "Hardcover" t).
Proof.
  unfold format_of, contains. cbn [bind].
  pose proof (contains_occurs "Paperback" t) as P.
  pose proof (contains_occurs "Hardcover" t) as H.
  destruct (Str.contains "Paperback" t).
  - exists "Paperback". split; [reflexivity|]. cbn.
    assert (occurs "Paperback" t) by (apply P; reflexivity).
    repeat split; intros; try discriminate; tauto.
  - assert (~ occurs "Paperback" t)
      by (intros X; apply P in X; discriminate).
    cbn [bind]. destruct (Str.contains "Hardcover" t).
    + exists "Hardcover". split; [reflexivity|]. cbn.
      assert (occurs "Hardcover" t) by (apply H; reflexivity).
      repeat split; intros; try discriminate; tauto.
    + assert (~ occurs "Hardcover" t)
        by (intros X; apply H in X; discriminate).
      cbn [bind]. destruct (Str.contains "Audiobook" t).
      * exists "Audiobook". split; [reflexivity|]. cbn.
        repeat split; intros; try discriminate; tauto.
      * exists "Standard". split; [reflexivity|]. cbn.
        repeat split; intros; try discriminate; tauto.
Qed.

(** ** Integers as text *)

Lemma digits_value_acc (d : uint) :
  forall acc,
    Str.digits_value_from (Npos acc) (NilEmpty.string_of_uint d)
    = Npos (Pos.of_uint_acc d acc).
Proof.
  induction d; intros acc; cbn [NilEmpty.string_of_uint Pos.of_uint_acc];
    [reflexivity | ..];
    cbn [Str.digits_value_from]; rewrite <- IHd; f_equal;
    unfold Str.code; cbn [N_of_ascii N_of_digits]; lia.
Qed.

Lemma digits_value_uint (d : uint) :
  Str.digits_value (NilEmpty.string_of_uint d) = N.of_uint d.
Proof.
  unfold Str.digits_value, N.of_uint.
  induction d; cbn [NilEmpty.string_of_uint Pos.of_uint];
    [reflexivity | exact IHd | ..];
    cbn [Str.digits_value_from]; rewrite <- digits_value_acc; f_equal.
Qed.

Lemma digits_of_N_value (n : N) : Str.digits_value (Num.digits_of_N n) = n.
Proof.
  unfold Num.digits_of_N, NilZero.string_of_uint.
  rewrite <- (DecimalN.Unsigned.of_to n) at 2.
  destruct (N.to_uint n); try apply digits_value_uint. reflexivity.
Qed.

Lemma digits_of_uint_digits (d : uint) :
  Str.forallb Str.is_digit (NilEmpty.string_of_uint d) = true.
Proof. induction d; simpl; auto. Qed.

Lemma digits_of_N_digits (n : N) :
  Str.forallb Str.is_digit (Num.digits_of_N n) = true.
Proof.
  unfold Num.digits_of_N, NilZero.string_of_uint.
  destruct (N.to_uint n); try apply digits_of_uint_digits. reflexivity.
Qed.

Lemma digits_of_N_not_empty (n : N) : Num.digits_of_N n <> "".
Proof.
  unfold Num.digits_of_N, NilZero.string_of_uint.
  destruct (N.to_uint n); discriminate.
Qed.

Lemma int_digits_sign (n : Z) :
  Num.int_digits n =
  ((if (n <? 0)%Z then "-" else "") ++ Num.digits_of_N (Z.abs_N n))%string.
Proof. destruct n; reflexivity. Qed.

Lemma digit_not_underscore (c : ascii) :
  Str.is_digit c = true -> Num.not_underscore c = true.
Proof. by_character c. Qed.

Lemma digit_not_space (c : ascii) :
  Str.is_digit c = true -> negb (Str.is_space c) = true.
Proof. by_character c. Qed.

Lemma int_body_digits (s : string) :
  Str.forallb Str.is_digit s = true -> Num.int_body_ok false s = true.
Proof.
  induction s as [|c s IH]; simpl; [reflexivity|].
  intros H. apply andb_true_iff in H. destruct H as [H1 H2].
  pose proof (digit_not_underscore c H1) as U.
  unfold Num.not_underscore in U. apply negb_true_iff in U.
  rewrite U, H1, (IH H2). reflexivity.
Qed.

(** A run of digits within the limit reads as its value. *)
Lemma int_of_digits (ds : string) :
  ds <> "" ->
  Str.forallb Str.is_digit ds = true ->
  (length ds <= Num.int_max_str_digits)%nat ->
  Num.int_of_string ds = Some (Z.of_N (Str.digits_value ds)) /\
  Num.int_of_string (String "-" ds) = Some (- Z.of_N (Str.digits_value ds))%Z.
Proof.
  intros Hne Hd Hlen.
  assert (Hs : Str.strip ds = ds).
  { apply strip_none.
    apply (forallb_impl Str.is_digit); [apply digit_not_space|exact Hd]. }
  assert (Hs' : Str.strip (String "-" ds) = String "-" ds).
  { apply strip_none. simpl.
    apply (forallb_impl Str.is_digit); [apply digit_not_space|exact Hd]. }
  assert (Hf : Str.filter Num.not_underscore ds = ds).
  { apply filter_all.
    apply (forallb_impl Str.is_digit); [apply digit_not_underscore|exact Hd]. }
  assert (Hsign : Str.sign ds = (false, ds)).
  { apply sign_plain.
    apply (forallb_impl Str.is_digit); [apply digit_plain|exact Hd]. }
  assert (Hc : match ds with
               | EmptyString => False
               | String c _ => Str.is_digit c = true
               end).
  { destruct ds as [|c r]; [contradiction|].
    simpl in Hd. apply andb_true_iff in Hd. tauto. }
  pose proof (int_body_digits ds Hd) as Hb.
  apply Nat.leb_le in Hlen.
  assert (Ha : Num.to_ascii ds = ds).
  { apply to_ascii_plain.
    apply (forallb_impl Str.is_digit); [apply digit_ascii|exact Hd]. }
  assert (Ha' : Num.to_ascii (String "-" ds) = String "-" ds).
  { apply to_ascii_plain. simpl.
    apply (forallb_impl Str.is_digit); [apply digit_ascii|exact Hd]. }
  unfold Num.int_of_string. rewrite Ha, Ha', Hs, Hs', Hsign. cbn [Str.sign].
  destruct ds as [|c r] eqn:E; [contradiction|]. rewrite <- E in *.
  rewrite Hc, Hb, Hf, Hlen. split; reflexivity.
Qed.

(** X9: a review count that is an integer is kept as it is, and one
    that is the decimal text of an integer of at most 4300 digits, as
    [str] writes it, is read back as that integer. *)
Theorem reviews_round_trip (n : Z) :
  reviews_of (VInt n) = Return n /\
  ((digit_count n <= Num.int_max_str_digits)%nat ->
   reviews_of (VStr (Num.int_digits n)) = Return n).
Proof.
  split.
  - unfold reviews_of. simpl. destruct n; reflexivity.
  - unfold digit_count. intros Hlen.
    destruct (int_of_digits (Num.digits_of_N (Z.abs_N n))
                (digits_of_N_not_empty _) (digits_of_N_digits _) Hlen)
      as [Hpos Hneg].
    rewrite digits_of_N_value in Hpos, Hneg.
    unfold reviews_of. simpl truthy. rewrite int_digits_sign.
    destruct n as [|p|p]; cbn [Z.ltb Z.compare append].
    + reflexivity.
    + rewrite string_eqb_false by apply digits_of_N_not_empty.
      cbn [negb int_of]. rewrite Hpos. reflexivity.
    + cbn [String.eqb negb int_of]. rewrite Hneg. reflexivity.
Qed.

Lemma reviews_round_trip_witness :
  reviews_of (VStr (Num.int_digits 1500)) = Return 1500%Z.
Proof.
  apply (proj2 (reviews_round_trip 1500)).
  apply Nat.leb_le. vm_compute. reflexivity.
Defined.

Lemma clean_str_plain (s : string) :
  Str.forallb is_plain s = true -> clean_str s = s.
Proof.
  intros H. unfold clean_str. rewrite !replace_char.
  rewrite (filter_all (other_than "$"))
    by (apply (forallb_impl is_plain); [apply plain_not_dollar|exact H]).
  rewrite (filter_all (other_than ","))
    by (apply (forallb_impl is_plain); [apply plain_not_comma|exact H]).
  rewrite replace_absent
    by (apply (forallb_impl is_plain); [apply plain_not_f|exact H]).
  rewrite split_head. rewrite <- (append_nil_r s) at 1.
  rewrite split_from_copy
    by (apply (forallb_impl is_plain); [apply plain_not_blank|exact H]).
  simpl. apply append_nil_r.
Qed.

Lemma digit_grouping (c : ascii) :
  Str.is_digit c = true -> is_grouping c = true.
Proof. by_character c. Qed.

Lemma float_of_digits (n : N) :
  Num.float_of_string (Num.digits_of_N n) = Some (of_decimal false n 0).
Proof.
  pose proof (digits_of_N_digits n) as Hd.
  assert (Hwf : well_formed_amount (Num.digits_of_N n) None).
  { split; [|split].
    - apply (forallb_impl Str.is_digit); [apply digit_grouping|exact Hd].
    - reflexivity.
    - simpl. rewrite append_nil_r, (filter_all _ _ Hd).
      apply digits_of_N_not_empty. }
  pose proof (float_of_plain _ _ Hwf) as H.
  unfold plain_text, amount_value in H. simpl in H.
  rewrite append_nil_r, (filter_all _ _ Hd), digits_of_N_value in H.
  exact H.
Qed.

Lemma integer_price_value (n : Z) :
  (0 <= n)%Z ->
  (digit_count n <= Num.int_max_str_digits)%nat ->
  price_of (VInt n) = of_decimal false (Z.to_N n) 0.
Proof.
  intros Hn Hlen. unfold digit_count in Hlen.
  unfold price_of, str, repr, int_repr.
  apply Nat.leb_le in Hlen. rewrite Hlen.
  destruct n as [|p|p]; [reflexivity| |lia].
  cbn [truthy Z.eqb negb bind]. rewrite int_digits_sign.
  cbn [Z.ltb Z.compare append Z.abs_N Z.to_N].
  rewrite clean_str_plain
    by (apply (forallb_impl Str.is_digit); [apply digit_plain|];
        apply digits_of_N_digits).
  cbn [float_of]. rewrite float_of_digits. reflexivity.
Qed.

(** X10: a price that is a non-negative integer, of at most the 4300
    digits that a decoded body can hold, is the double nearest to that
    integer: an infinity exactly when the integer is at least
    2^1024 - 2^970, and otherwise a finite double than which no double
    is nearer. *)
Theorem integer_price (n : Z) :
  (0 <= n)%Z ->
  (digit_count n <= Num.int_max_str_digits)%nat ->
  nearest false n 1 (price_of (VInt n)) /\
  (price_of (VInt n) = S754_infinity false <->
   (overflow_threshold <= n)%Z).
Proof.
  intros Hn Hlen. rewrite (integer_price_value n Hn Hlen).
  pose proof (of_decimal_nearest false (Z.to_N n) 0) as H.
  change (Z.max 0 0) with 0%Z in H. change (Z.max (- 0) 0) with 0%Z in H.
  rewrite Z.pow_0_r, Z.mul_1_r, Z2N.id in H by exact Hn.
  split; [exact H|].
  destruct H as (Hs & _ & H). split.
  - intros E. rewrite E in H. cbn [finite] in H. lia.
  - intros Ht. destruct (of_decimal false (Z.to_N n) 0) as [s|s| |s m e];
      cbn [finite sign_of] in *.
    + lia.
    + injection Hs as ->. reflexivity.
    + discriminate Hs.
    + lia.
Qed.

Lemma integer_price_witness :
  nearest false 25 1 (price_of (VInt 25)) /\
  price_of (VInt (2 ^ 1024)) = S754_infinity false.
Proof.
  split.
  - apply (integer_price 25); [lia|].
    apply Nat.leb_le. vm_compute. reflexivity.
  - apply (integer_price (2 ^ 1024)).
    + apply Z.leb_le. vm_compute. reflexivity.
    + apply Nat.leb_le. vm_compute. reflexivity.
    + apply Z.leb_le. vm_compute. reflexivity.
Defined.

(** ** The price label *)

Section Hundredths.

Local Open Scope Z_scope.

Lemma format_2f_nearest (M : positive) (E n : Z) :
  E < 0 -> 0 <= n ->
  2 * Z.abs (100 * Zpos M - n * 2 ^ (- E)) < 2 ^ (- E) ->
  format_2f (S754_finite false M E) = with_two_decimals (Z.to_N n).
Proof.
  intros HE Hn Hnear. unfold format_2f.
  rewrite (Z.max_r E 0) by lia. rewrite (Z.max_l (- E) 0) by lia.
  set (den := 2 ^ (- E)) in *.
  assert (Hden : 0 < den) by (apply Z.pow_pos_nonneg; lia).
  replace (Zpos M * 2 ^ 0 * 100) with (100 * Zpos M) by (simpl; lia).
  set (num := 100 * Zpos M) in *.
  assert (Hround :
    match (2 * (num mod den) ?= den) with
    | Gt => num / den + 1
    | Eq => if Z.even (num / den) then num / den else num / den + 1
    | Lt => num / den
    end = n).
  { pose proof (Z.div_mod num den ltac:(lia)) as Hdm.
    pose proof (Z.mod_pos_bound num den Hden) as Hmod.
    destruct (Z.le_gt_cases (n * den) num) as [Hle|Hgt].
    - assert (num / den = n)
        by (symmetry; apply Z.div_unique with (r := num - n * den); lia).
      assert (num mod den = num - n * den) by nia.
      destruct (Z.compare_spec (2 * (num mod den)) den); lia.
    - assert (num / den = n - 1)
        by (symmetry; apply Z.div_unique with (r := num - (n - 1) * den); lia).
      assert (num mod den = num - (n - 1) * den) by nia.
      destruct (Z.compare_spec (2 * (num mod den)) den); lia. }
  cbv zeta. rewrite Hround. unfold with_two_decimals.
  rewrite Z2N.inj_div by lia. change (Z.to_N 100) with 100%N.
  rewrite N2Z.inj_mod. rewrite Z2N.id by lia. reflexivity.
Qed.

(** A mantissa of 53 bits is kept; 2^53 is halved. *)
Lemma round_finish (mx e1 : Z) :
  2 ^ 52 <= mx <= 2 ^ 53 -> -1074 <= e1 <= 0 ->
  exists M E,
    (let '(mrs, e2) := shr_fexp prec emax mx e1 loc_Exact in
     match shr_m mrs with
     | Z0 => S754_zero false
     | Zpos m => if Z.leb e2 (emax - prec) then S754_finite false m e2
                 else S754_infinity false
     | Zneg _ => S754_nan
     end) = S754_finite false M E /\
    e1 <= E <= e1 + 1 /\ Zpos M * 2 ^ (E - e1) = mx.
Proof.
  intros Hm He. rewrite pow52, pow53 in Hm.
  destruct mx as [|mp|mp]; try lia.
  unfold shr_fexp, fexp, emin, prec, emax. cbn [Zdigits2].
  destruct (Z.eq_dec (Zpos mp) 9007199254740992) as [E|N].
  - injection E as ->. cbn [digits2_pos Pos.succ].
    replace (Z.max (54 + e1 - 53) (3 - 1024 - 53) - e1) with 1 by lia.
    cbn. destruct (Z.leb_spec (e1 + 1) 971); [|lia].
    exists 4503599627370496%positive, (e1 + 1). split; [reflexivity|].
    split; [lia|]. replace (e1 + 1 - e1) with 1 by lia. reflexivity.
  - rewrite (Zdigits2_unique mp 53) by (rewrite pow53; change (2 ^ (53 - 1)) with 4503599627370496; lia).
    replace (Z.max (53 + e1 - 53) (3 - 1024 - 53) - e1) with 0 by lia.
    cbn. destruct (Z.leb_spec e1 971); [|lia].
    exists mp, e1. split; [reflexivity|]. split; [lia|].
    rewrite Z.sub_diag. simpl. lia.
Qed.

Lemma location_100 (r : Z) :
  new_location 100 r =
  if r =? 0 then loc_Exact else loc_Inexact (2 * r ?= 100).
Proof. reflexivity. Qed.

Lemma round_nearest_even_cases (m : Z) (l : location) :
  m <= round_nearest_even m l <= m + 1 /\
  (l = loc_Exact \/ l = loc_Inexact Lt -> round_nearest_even m l = m) /\
  (l = loc_Inexact Gt -> round_nearest_even m l = m + 1).
Proof.
  destruct l as [|[]]; simpl; try destruct (Z.even m);
    (split; [lia|]); (split; [intros [H|H]; (discriminate || reflexivity)
                              | intros H; (discriminate || reflexivity)]).
Qed.

(** The location of the remainder [r] of a division by 100. *)
Lemma location_100_cases (r : Z) :
  0 <= r < 100 ->
  (r = 0 /\ new_location 100 r = loc_Exact) \/
  (0 < r < 50 /\ new_location 100 r = loc_Inexact Lt) \/
  (r = 50 /\ new_location 100 r = loc_Inexact Eq) \/
  (50 < r /\ new_location 100 r = loc_Inexact Gt).
Proof.
  intros Hr. rewrite location_100.
  destruct (Z.eqb_spec r 0) as [->|Hr0]; [left; auto|]. right.
  destruct (Z.compare_spec (2 * r) 100) as [H|H|H];
    [right; left | left | right; right]; split; (lia || reflexivity).
Qed.

Lemma round_quotient (q e r : Z) :
  2 ^ 52 <= q < 2 ^ 54 -> -1074 <= e <= -2 -> 0 <= r < 100 ->
  exists M E,
    binary_round_aux prec emax false q e (new_location 100 r)
    = S754_finite false M E /\
    e <= E <= e + 2 /\
    Z.abs (100 * (Zpos M * 2 ^ (E - e)) - (100 * q + r)) <= 100.
Proof.
  intros Hq He Hr. rewrite pow52, pow54 in Hq.
  unfold binary_round_aux.
  destruct q as [|qp|qp]; try lia.
  destruct (Z.lt_ge_cases (Zpos qp) (2 ^ 53)) as [Hlt|Hge];
    rewrite pow53 in *.
  - (* 53 bits: no shift *)
    assert (Hs : shr_fexp prec emax (Zpos qp) e (new_location 100 r)
                 = (shr_record_of_loc (Zpos qp) (new_location 100 r), e)).
    { unfold shr_fexp, fexp, emin, prec, emax. cbn [Zdigits2].
      rewrite (Zdigits2_unique qp 53)
        by (rewrite pow53; change (2 ^ (53 - 1)) with 4503599627370496; lia).
      replace (Z.max (53 + e - 53) (3 - 1024 - 53) - e) with 0 by lia.
      reflexivity. }
    rewrite Hs. destruct (record_value (Zpos qp) (new_location 100 r)) as [-> ->].
    set (mx := round_nearest_even (Zpos qp) (new_location 100 r)).
    assert (Hmx : Zpos qp <= mx <= Zpos qp + 1 /\
                  Z.abs (100 * mx - (100 * Zpos qp + r)) <= 50).
    { unfold mx.
      destruct (round_nearest_even_cases (Zpos qp) (new_location 100 r))
        as (B & Hdown & Hup).
      destruct (location_100_cases r Hr)
        as [[R L]|[[R L]|[[R L]|[R L]]]]; rewrite L in *.
      - rewrite Hdown by auto. lia.
      - rewrite Hdown by auto. lia.
      - lia.
      - rewrite Hup by auto. lia. }
    destruct (round_finish mx e ltac:(rewrite pow52, pow53; lia) ltac:(lia))
      as (M & E & -> & HE & Hv).
    exists M, E. split; [reflexivity|]. split; [lia|]. rewrite Hv. lia.
  - (* 54 bits: one shift *)
    assert (Hs : shr_fexp prec emax (Zpos qp) e (new_location 100 r)
                 = (shr_1 (shr_record_of_loc (Zpos qp) (new_location 100 r)),
                    e + 1)).
    { unfold shr_fexp, fexp, emin, prec, emax. cbn [Zdigits2].
      rewrite (Zdigits2_unique qp 54)
        by (rewrite pow54; change (2 ^ (54 - 1)) with 9007199254740992; lia).
      replace (Z.max (54 + e - 53) (3 - 1024 - 53) - e) with 1 by lia.
      reflexivity. }
    rewrite Hs.
    set (mrs := shr_1 (shr_record_of_loc (Zpos qp) (new_location 100 r))).
    set (mx := round_nearest_even (shr_m mrs) (loc_of_shr_record mrs)).
    assert (Hmx : 2 * mx <= Zpos qp + 1 /\ Zpos qp - 1 <= 2 * mx /\
                  Z.abs (100 * (2 * mx) - (100 * Zpos qp + r)) <= 100).
    { unfold mx, mrs.
      destruct (location_100_cases r Hr)
        as [[R L]|[[R L]|[[R L]|[R L]]]]; rewrite L;
        destruct qp as [h|h|]; cbn [shr_record_of_loc shr_1 orb shr_m];
        cbn [loc_of_shr_record];
        match goal with
        | |- context [round_nearest_even ?m ?l] =>
            destruct (round_nearest_even_cases m l) as (B & Hdown & Hup);
            try rewrite Hdown by auto; try rewrite Hup by auto
        end; lia. }
    destruct (round_finish mx (e + 1) ltac:(rewrite pow52, pow53; lia)
                ltac:(lia)) as (M & E & -> & HE & Hv).
    exists M, E. split; [reflexivity|]. split; [lia|].
    replace (E - e) with (Z.succ (E - (e + 1))) by lia.
    rewrite Z.pow_succ_r by lia.
    replace (Zpos M * (2 * 2 ^ (E - (e + 1)))) with (2 * mx) by lia. lia.
Qed.

Lemma div_core_hundredths (p : positive) :
  Zpos p < 2 ^ 52 ->
  let D := Zpos (digits2_pos p) in
  let m' := Zpos p * 2 ^ (60 - D) in
  1 <= D <= 52 /\ 2 ^ 59 <= m' < 2 ^ 60 /\
  SFdiv_core_binary prec emax (Zpos p) 0 (Z.pow_pos 10 2) 0
  = (m' / 100, D - 60, new_location 100 (m' mod 100)).
Proof.
  intros Hp D m'.
  destruct (digits2_pos_bounds p) as [B1 B2]. fold D in B1, B2.
  assert (HD : 1 <= D <= 52).
  { split; [unfold D; lia|].
    destruct (Z.le_gt_cases D 52) as [H|H]; [exact H|].
    assert (2 ^ 52 <= 2 ^ (D - 1)) by (apply Z.pow_le_mono_r; lia). lia. }
  assert (Hm : 2 ^ 59 <= m' < 2 ^ 60).
  { unfold m'.
    assert (E1 : 2 ^ (D - 1) * 2 ^ (60 - D) = 2 ^ 59)
      by (rewrite <- Z.pow_add_r by lia; f_equal; lia).
    assert (E2 : 2 ^ D * 2 ^ (60 - D) = 2 ^ 60)
      by (rewrite <- Z.pow_add_r by lia; f_equal; lia).
    assert (0 < 2 ^ (60 - D)) by (apply Z.pow_pos_nonneg; lia).
    rewrite <- E1, <- E2. split.
    - apply Z.mul_le_mono_nonneg_r; lia.
    - apply Z.mul_lt_mono_pos_r; lia. }
  split; [exact HD|]. split; [exact Hm|].
  unfold SFdiv_core_binary, fexp, emin, prec, emax.
  change (Z.pow_pos 10 2) with 100. cbn [Zdigits2]. fold D.
  change (Zpos (digits2_pos 100)) with 7.
  replace (Z.min (Z.max (D + 0 - (7 + 0) - 53) (3 - 1024 - 53)) (0 - 0))
    with (D - 60) by lia.
  replace (0 - 0 - (D - 60)) with (60 - D) by lia.
  assert (Hshift :
    match 60 - D with
    | Zpos _ => Z.shiftl (Zpos p) (60 - D)
    | Z0 => Zpos p
    | Zneg _ => 0
    end = m').
  { unfold m'. rewrite <- Z.shiftl_mul_pow2 by lia.
    destruct (60 - D) eqn:Es; (lia || reflexivity). }
  rewrite Hshift. unfold Z.div, Z.modulo.
  destruct (Z.div_eucl m' 100) as [q r]. reflexivity.
Qed.

Lemma hundredths_label (p : positive) :
  Zpos p < 2 ^ 52 ->
  format_2f (of_decimal false (Npos p) (-2)) = with_two_decimals (Npos p).
Proof.
  intros Hp. destruct (div_core_hundredths p Hp) as (HD & Hm & Hcore).
  set (D := Zpos (digits2_pos p)) in *.
  set (m' := Zpos p * 2 ^ (60 - D)) in *.
  unfold of_decimal. rewrite Hcore.
  pose proof (Z.div_mod m' 100 ltac:(lia)) as Hdm.
  pose proof (Z.mod_pos_bound m' 100 ltac:(lia)) as Hmod.
  change (2 ^ 59) with 576460752303423488 in Hm.
  change (2 ^ 60) with 1152921504606846976 in Hm.
  destruct (round_quotient (m' / 100) (D - 60) (m' mod 100))
    as (M & E & -> & HE & Hnear);
    [rewrite pow52, pow54; lia | lia | lia |].
  change (Npos p) with (Z.to_N (Zpos p)).
  apply format_2f_nearest; [lia | lia |].
  rewrite <- Hdm in Hnear.
  set (k := 2 ^ (E - (D - 60))) in *. set (t := 2 ^ (- E)).
  assert (Hk : 0 < k) by (apply Z.pow_pos_nonneg; lia).
  assert (Ht : 0 < t) by (apply Z.pow_pos_nonneg; lia).
  assert (Hkt : k * t = 2 ^ (60 - D)).
  { unfold k, t. rewrite <- Z.pow_add_r by lia. f_equal. lia. }
  assert (H256 : 256 <= k * t).
  { rewrite Hkt. change 256 with (2 ^ 8). apply Z.pow_le_mono_r; lia. }
  assert (Hx : k * Z.abs (100 * Zpos M - Zpos p * t) <= 100).
  { rewrite <- (Z.abs_eq k) at 1 by lia. rewrite <- Z.abs_mul.
    replace (k * (100 * Zpos M - Zpos p * t))
      with (100 * (Zpos M * k) - m')
      by (unfold m'; rewrite <- Hkt; ring).
    exact Hnear. }
  destruct (Z.lt_ge_cases (2 * Z.abs (100 * Zpos M - Zpos p * t)) t)
    as [H|H]; [exact H|].
  assert (k * t <= k * (2 * Z.abs (100 * Zpos M - Zpos p * t)))
    by (apply Z.mul_le_mono_nonneg_l; lia).
  lia.
Qed.

End Hundredths.

Lemma two_digits_spec (m : N) :
  (m < 100)%N ->
  length (Num.two_digits (Z.of_N m)) = 2%nat /\
  Str.digits_value (Num.two_digits (Z.of_N m)) = m /\
  Str.forallb Str.is_digit (Num.two_digits (Z.of_N m)) = true.
Proof.
  intros H. destruct m as [|p]; [vm_compute; auto|].
  do 7 (try destruct p as [p|p|]);
    first [ exfalso; lia | vm_compute; auto ].
Qed.

Lemma two_decimals_amount (n : N) :
  with_two_decimals n =
  amount_text (Num.digits_of_N (n / 100))
    (Some (Num.two_digits (Z.of_N (n mod 100)))) /\
  well_formed_amount (Num.digits_of_N (n / 100))
    (Some (Num.two_digits (Z.of_N (n mod 100)))) /\
  amount_value (Num.digits_of_N (n / 100))
    (Some (Num.two_digits (Z.of_N (n mod 100))))
  = of_decimal false n (-2).
Proof.
  assert (Hm : (n mod 100 < 100)%N) by (apply N.mod_lt; discriminate).
  destruct (two_digits_spec (n mod 100) Hm) as (Hl & Hv & Hd).
  pose proof (digits_of_N_digits (n / 100)) as Hi.
  split; [reflexivity|]. split.
  - split; [|split].
    + apply (forallb_impl Str.is_digit); [apply digit_grouping|exact Hi].
    + exact Hd.
    + cbn [fraction_digits]. rewrite (filter_all _ _ Hi).
      pose proof (digits_of_N_not_empty (n / 100)).
      destruct (Num.digits_of_N (n / 100)); [contradiction|discriminate].
  - unfold amount_value. cbn [fraction_digits].
    rewrite (filter_all _ _ Hi), digits_value_app, Hl, Hv, digits_of_N_value.
    f_equal. change (10 ^ N.of_nat 2)%N with 100%N.
    rewrite N.mul_comm. symmetry. apply N.div_mod. discriminate.
Qed.

(** X19: an amount of n hundredths, below 2^52 of them, that is written
    with two decimals comes back as written: the double nearest to it
    is formatted to the same text, and so the card of an item whose raw
    price is "$" followed by that text shows that very price. *)
Theorem price_label_round_trip (n : N) :
  (n < 2 ^ 52)%N ->
  format_2f (of_decimal false n (-2)) = with_two_decimals n /\
  price_label (price_of (VStr ("$" ++ with_two_decimals n)))
  = ("**$" ++ with_two_decimals n ++ "**")%string.
Proof.
  intros Hn.
  assert (Hf : format_2f (of_decimal false n (-2)) = with_two_decimals n).
  { destruct n as [|p]; [reflexivity|]. apply hundredths_label.
    change (2 ^ 52)%Z with (Z.of_N (2 ^ 52)). change (Zpos p) with (Z.of_N (Npos p)).
    apply N2Z.inj_lt. exact Hn. }
  split; [exact Hf|].
  destruct (two_decimals_amount n) as (Ht & Hwf & Hv).
  assert (Hp : price_of (VStr ("$" ++ with_two_decimals n))
               = of_decimal false n (-2)).
  { rewrite Ht. apply price_of_text; [discriminate|].
    rewrite (clean_str_dollar _ _ Hwf), (float_of_plain _ _ Hwf), Hv.
    reflexivity. }
  unfold price_label. rewrite Hp, Hf. reflexivity.
Qed.

Lemma price_label_round_trip_witness :
  price_label (price_of (VStr "$29.99")) = "**$29.99**".
Proof.
  apply (price_label_round_trip 2999). reflexivity.
Defined.

(** ** Instances *)

Lemma failed_request_is_server_error_witness :
  fst (fetch_data "history books" "NEWEST"
         (refusing (Some "secret") (RequestException "timed out")))
  = ([], Some (ServerError (RequestException "timed out"))).
Proof.
  apply (failed_request_is_server_error "history books" "NEWEST"
           (refusing (Some "secret") (RequestException "timed out"))
           "secret").
  - split; [reflexivity | discriminate].
  - left. reflexivity.
Defined.

Lemma unexpected_shape_is_server_error_witness :
  fst (fetch_data "history books" "NEWEST"
         (serving (Some "secret") (VList [])))
  = ([], Some (ServerError AttributeError)).
Proof.
  apply (proj1 (unexpected_shape_is_server_error "history books" "NEWEST"
                  (serving (Some "secret") (VList [])) "secret"
                  ltac:(split; [reflexivity | discriminate])
                  (VList []) eq_refl)).
  reflexivity.
Defined.

Lemma first_failure_decides_witness :
  fst (fetch_data "history books" "NEWEST"
         (serving (Some "secret")
            (body [clean_code_item; untitled_item; unrated_item])))
  = ([], Some (ServerError TypeError)).
Proof.
  apply (first_failure_decides "history books" "NEWEST"
           (serving (Some "secret")
              (body [clean_code_item; untitled_item; unrated_item]))
           "secret"
           ltac:(split; [reflexivity | discriminate])
           (body [clean_code_item; untitled_item; unrated_item])
           [clean_code_item] [unrated_item] untitled_item TypeError).
  - reflexivity.
  - reflexivity.
  - repeat constructor. eexists. vm_compute. reflexivity.
  - reflexivity.
Defined.

Lemma offered_selection_request_witness :
  exists raw_query api_sort_code,
    item "History" CATEGORIES = Some raw_query /\
    item "Newest Arrivals" SORT_OPTIONS = Some api_sort_code /\
    clean_query raw_query = raw_query /\
    (cached raw_query api_sort_code [] = None ->
     exists st' c' w',
       sidebar "History" "Newest Arrivals" true (seconds 100) (seconds 101)
         new_session [] example_world = Some (false, st', c', w') /\
       sent w' = [search_request "secret" raw_query api_sort_code]).
Proof.
  apply (offered_selection_request "History" "Newest Arrivals"
           (seconds 100) (seconds 101) new_session [] example_world
           "secret").
  - simpl. auto 10.
  - simpl. auto 10.
  - split; [reflexivity | discriminate].
  - reflexivity.
Defined.

Lemma second_press_is_stopped_witness :
  run_analysis (seconds 102) (seconds 103) "history books" "NEWEST"
    (snd (fst (fst (run_analysis (seconds 100) (seconds 101)
                      "history books" "NEWEST" new_session []
                      example_world))))
    (snd (fst (run_analysis (seconds 100) (seconds 101)
                 "history books" "NEWEST" new_session [] example_world)))
    (snd (run_analysis (seconds 100) (seconds 101)
            "history books" "NEWEST" new_session [] example_world))
  = (true,
     snd (fst (fst (run_analysis (seconds 100) (seconds 101)
                      "history books" "NEWEST" new_session []
                      example_world))),
     snd (fst (run_analysis (seconds 100) (seconds 101)
                 "history books" "NEWEST" new_session [] example_world)),
     snd (run_analysis (seconds 100) (seconds 101)
            "history books" "NEWEST" new_session [] example_world)).
Proof.
  apply (second_press_is_stopped (seconds 100) (seconds 101)
           (seconds 102) (seconds 103)
           "history books" "NEWEST" "history books" "NEWEST"
           new_session _ [] _ example_world _).
  - reflexivity.
  - reflexivity.
Defined.

Lemma view_after_press_witness :
  main_view (snd (fst (fst (run_analysis (seconds 100) (seconds 101)
                              "history books" "NEWEST" new_session []
                              example_world))))
  <> Prompt.
Proof.
  apply (view_after_press (seconds 100) (seconds 101)
           "history books" "NEWEST" new_session _ [] 
           (snd (fst (run_analysis (seconds 100) (seconds 101)
                        "history books" "NEWEST" new_session []
                        example_world)))
           example_world
           (snd (run_analysis (seconds 100) (seconds 101)
                   "history books" "NEWEST" new_session [] example_world))).
  - reflexivity.
  - intros q s res H. discriminate H.
Defined.

Lemma metrics_count_items_witness :
  exists grid,
    main_view
      {| data := Some (fst (fst (fetch_data "history books" "NEWEST"
                                   (serving (Some "secret")
                                      (body (List.map VDict two_items))))));
         error := snd (fst (fetch_data "history books" "NEWEST"
                              (serving (Some "secret")
                                 (body (List.map VDict two_items)))));
         last_run := None |}
    = Results 2 1 grid.
Proof.
  eexists.
  apply (metrics_count_items "history books" "NEWEST"
           (serving (Some "secret") (body (List.map VDict two_items)))
           "secret" (body (List.map VDict two_items)) two_items None).
  - split; [reflexivity | discriminate].
  - reflexivity.
  - reflexivity.
  - discriminate.
  - repeat constructor; eexists; vm_compute; reflexivity.
Defined.
